(** * smart-tree / tmux-ai-party: the continuous monitoring engine

    A shallow embedding of the monitoring core of
    [8t.is/tmux-ai-party/tmux_monitor_v2.py] (class [ContinuousTmuxMonitor]
    and [SecureVault]) and of the prompt-learning heuristic of
    [8t.is/tmux-ai-party/tmux_monitor.py] (class [TmuxAIMonitor]).

    Layout: Python primitives ([Py]), SHA-256 ([Sha256]), the [re] interface
    ([Re]), the bounded deque ([Deque]), the two monitors ([MonitorV2],
    [MonitorV1]); the properties follow the definitions. *)

From Stdlib Require Import QArith Ascii NArith.
From stdpp Require Import gmap strings list sorting.

Local Open Scope nat_scope.

(* ===================================================================== *)
(** ** Python primitives *)
(* ===================================================================== *)

Module Py.

(** A Python [str] is a sequence of Unicode code points.  [len], slicing,
    [strip] and [in] all work on code points, so the model keeps them as
    numbers (well-formed strings only hold values up to 0x10FFFF). *)
Abbreviation pystr := (list N).

(** An ASCII literal of the source, read as a Python string. *)
Definition str (s : string) : pystr :=
  (λ a, N_of_ascii a) <$> String.list_ascii_of_string s.
#[global] Opaque str.

(** ["\n"] *)
Definition nl : pystr := [10%N].

(** [c.isspace()] for a single character: the code points Python treats as
    whitespace. *)
Definition isspace (c : N) : bool :=
  ((9 <=? c) && (c <=? 13) || (28 <=? c) && (c <=? 32)
   || (c =? 133) || (c =? 160) || (c =? 5760)
   || (8192 <=? c) && (c <=? 8202)
   || (c =? 8232) || (c =? 8233) || (c =? 8239) || (c =? 8287)
   || (c =? 12288))%N.

Fixpoint lstrip (s : pystr) : pystr :=
  match s with
  | c :: s' => if isspace c then lstrip s' else s
  | [] => []
  end.

Definition rstrip (s : pystr) : pystr := reverse (lstrip (reverse s)).

(** [s.strip()] *)
Definition strip (s : pystr) : pystr := rstrip (lstrip s).

(** Truth value of a string or a list: non-empty. *)
Definition truthy {A} (l : list A) : bool :=
  match l with [] => false | _ => true end.

(** [sep.join(parts)] *)
Fixpoint join (sep : pystr) (parts : list pystr) : pystr :=
  match parts with
  | [] => []
  | [p] => p
  | p :: ps => p ++ sep ++ join sep ps
  end.

(** [l[start:]] for any integer [start]: a negative start counts from the
    end and is clamped at the beginning of the list. *)
Definition slice_from {A} (start : Z) (l : list A) : list A :=
  if (start <? 0)%Z
  then drop (Z.to_nat (Z.max 0 (Z.of_nat (length l) + start))) l
  else drop (Z.to_nat start) l.

(** [s.lower()], on the ASCII letters (the model lower-cases only the fixed
    ASCII question patterns). *)
Definition lower_char (c : N) : N :=
  if ((65 <=? c) && (c <=? 90))%N then (c + 32)%N else c.

Definition lower (s : pystr) : pystr := lower_char <$> s.

Fixpoint startswith (p s : pystr) : bool :=
  match p, s with
  | [], _ => true
  | a :: p', b :: s' => (a =? b)%N && startswith p' s'
  | _ :: _, [] => false
  end.

(** [sub in s] *)
Fixpoint contains (sub s : pystr) : bool :=
  startswith sub s ||
  match s with
  | [] => false
  | _ :: s' => contains sub s'
  end.

(** [s.encode()]: UTF-8.  Lone surrogates (and numbers that are no code
    point) cannot be encoded: Python raises [UnicodeEncodeError]. *)
Definition encode_char (c : N) : option (list N) :=
  (if c <? 128 then Some [c]
   else if c <? 2048 then
     Some [N.lor 192 (N.shiftr c 6); N.lor 128 (N.land c 63)]
   else if c <? 65536 then
     if (55296 <=? c) && (c <=? 57343) then None
     else Some [N.lor 224 (N.shiftr c 12);
                N.lor 128 (N.land (N.shiftr c 6) 63);
                N.lor 128 (N.land c 63)]
   else if c <? 1114112 then
     Some [N.lor 240 (N.shiftr c 18);
           N.lor 128 (N.land (N.shiftr c 12) 63);
           N.lor 128 (N.land (N.shiftr c 6) 63);
           N.lor 128 (N.land c 63)]
   else None)%N.

Fixpoint encode (s : pystr) : option (list N) :=
  match s with
  | [] => Some []
  | c :: s' =>
      match encode_char c, encode s' with
      | Some b, Some bs => Some (b ++ bs)
      | _, _ => None
      end
  end.

End Py.

(* ===================================================================== *)
(** ** hashlib.sha256 *)
(* ===================================================================== *)

Module Sha256.

Local Open Scope N_scope.

(** 32-bit words are numbers below 2^32; every sum is reduced. *)
Definition mask32 : N := 4294967295.
Definition trunc32 (x : N) : N := N.land x mask32.
Definition add32 (x y : N) : N := trunc32 (x + y).
Definition rotr (n x : N) : N :=
  N.lor (N.shiftr x n) (trunc32 (N.shiftl x (32 - n))).
Definition not32 (x : N) : N := N.lxor x mask32.

Definition ch (x y z : N) : N := N.lxor (N.land x y) (N.land (not32 x) z).
Definition maj (x y z : N) : N :=
  N.lxor (N.lxor (N.land x y) (N.land x z)) (N.land y z).
Definition bsig0 (x : N) : N := N.lxor (N.lxor (rotr 2 x) (rotr 13 x)) (rotr 22 x).
Definition bsig1 (x : N) : N := N.lxor (N.lxor (rotr 6 x) (rotr 11 x)) (rotr 25 x).
Definition ssig0 (x : N) : N := N.lxor (N.lxor (rotr 7 x) (rotr 18 x)) (N.shiftr x 3).
Definition ssig1 (x : N) : N := N.lxor (N.lxor (rotr 17 x) (rotr 19 x)) (N.shiftr x 10).

(** The constants are defined from the primes: a round constant is the
    first 32 bits of the fractional part of the cube root of a prime, an
    initial hash word the same of its square root. *)
Definition is_prime (n : N) : bool :=
  (1 <? n) && forallb (λ d, negb (n mod d =? 0)) (N.of_nat <$> seq 2 (N.to_nat n - 2)).

Definition first_primes : list N :=
  Eval vm_compute in take 64 (filter (λ n, is_prime n) (N.of_nat <$> seq 2 310)).

(** The integer cube root, one bit at a time from bit 40 down. *)
Definition cube_root (n : N) : N :=
  fold_left (λ r b, let r' := r + 2 ^ b in if r' * r' * r' <=? n then r' else r)
            (N.of_nat <$> reverse (seq 0 41)) 0.

Definition round_constants : list N :=
  Eval vm_compute in (λ p, trunc32 (cube_root (N.shiftl p 96))) <$> first_primes.

(** The eight working variables, also the chaining value. *)
Record regs := Regs { ra : N; rb : N; rc : N; rd : N;
                      re : N; rf : N; rg : N; rh : N }.

Definition root_word (i : nat) : N :=
  trunc32 (N.sqrt (N.shiftl (nth i first_primes 0) 64)).

Definition initial_hash : regs :=
  Eval vm_compute in
    Regs (root_word 0) (root_word 1) (root_word 2) (root_word 3)
         (root_word 4) (root_word 5) (root_word 6) (root_word 7).

(** One round.  The message schedule is kept as a window of sixteen words:
    its head is W[t]; the word sixteen places later is appended. *)
Definition round (st : regs * list N) (k : N) : regs * list N :=
  let '(r, win) := st in
  let w i := nth i win 0 in
  let t1 := add32 (add32 (add32 (add32 (rh r) (bsig1 (re r)))
                                (ch (re r) (rf r) (rg r))) k) (w 0%nat) in
  let t2 := add32 (bsig0 (ra r)) (maj (ra r) (rb r) (rc r)) in
  let next := add32 (add32 (add32 (ssig1 (w 14%nat)) (w 9%nat))
                           (ssig0 (w 1%nat))) (w 0%nat) in
  (Regs (add32 t1 t2) (ra r) (rb r) (rc r) (add32 (rd r) t1) (re r) (rf r) (rg r),
   tail win ++ [next]).

Definition compress (h : regs) (block : list N) : regs :=
  let r := fst (fold_left round round_constants (h, block)) in
  Regs (add32 (ra h) (ra r)) (add32 (rb h) (rb r)) (add32 (rc h) (rc r))
       (add32 (rd h) (rd r)) (add32 (re h) (re r)) (add32 (rf h) (rf r))
       (add32 (rg h) (rg r)) (add32 (rh h) (rh r)).

(** Big-endian bytes of a number, [n] of them. *)
Fixpoint be_bytes (n : nat) (x : N) : list N :=
  match n with
  | O => []
  | S n' => N.land (N.shiftr x (8 * N.of_nat n')) 255 :: be_bytes n' x
  end.

Definition be_word (bs : list N) : N :=
  fold_left (λ acc b, N.lor (N.shiftl acc 8) b) bs 0.

(** Padding: a 1 bit, zeros up to 56 mod 64 bytes, the bit length on 8 bytes. *)
Definition pad (msg : list N) : list N :=
  let len := length msg in
  let zeros := ((55 + 64 - len mod 64) mod 64)%nat in
  msg ++ [128] ++ replicate zeros 0 ++ be_bytes 8 (8 * N.of_nat len).

(** Words of the padded message, sixteen per block. *)
Fixpoint words (n : nat) (bs : list N) : list N :=
  match n with
  | O => []
  | S n' => be_word (take 4 bs) :: words n' (drop 4 bs)
  end.

Fixpoint blocks (n : nat) (ws : list N) : list (list N) :=
  match n with
  | O => []
  | S n' => take 16 ws :: blocks n' (drop 16 ws)
  end.

Definition digest_regs (msg : list N) : regs :=
  let p := pad msg in
  let ws := words (length p / 4) p in
  fold_left compress (blocks (length ws / 16) ws) initial_hash.

Definition hex_digit (d : N) : N := if d <? 10 then 48 + d else 87 + d.

(** Eight lower-case hexadecimal digits of a word, most significant first. *)
Fixpoint hex_word (n : nat) (x : N) : Py.pystr :=
  match n with
  | O => []
  | S n' => hex_digit (N.land (N.shiftr x (4 * N.of_nat n')) 15) :: hex_word n' x
  end.

(** [hashlib.sha256(data).hexdigest()] *)
Definition hexdigest (data : list N) : Py.pystr :=
  let r := digest_regs data in
  hex_word 8 (ra r) ++ hex_word 8 (rb r) ++ hex_word 8 (rc r) ++ hex_word 8 (rd r)
  ++ hex_word 8 (re r) ++ hex_word 8 (rf r) ++ hex_word 8 (rg r) ++ hex_word 8 (rh r).

End Sha256.

(* ===================================================================== *)
(** ** The [re] module *)
(* ===================================================================== *)

Module Re.
Import Py.

(** The regular expression engine is a library the monitors call.  Its
    behaviour is an interface: [re_compile p] tells whether [re.compile(p)]
    succeeds, and [re_search ic p s] is the outcome of
    [re.search(p, s)] (with [re.IGNORECASE] when [ic] holds): [None] when the
    pattern is rejected with [re.error], otherwise whether a match exists. *)
Class PyRe := {
  re_compile : pystr → bool;
  re_search : bool → pystr → pystr → option bool
}.

(** The characters [re.escape] protects with a backslash
    (the table [_special_chars_map]): ()[]{}?*+-|^$\.&~# and the blanks
    \t \n \r \v \f. *)
Definition special_chars : list N :=
  [40; 41; 91; 93; 123; 125; 63; 42; 43; 45; 124; 94; 36; 92; 46; 38; 126; 35;
   32; 9; 10; 13; 11; 12]%N.

Definition is_special (c : N) : bool := bool_decide (c ∈ special_chars).

(** [re.escape(s)] *)
Fixpoint escape (s : pystr) : pystr :=
  match s with
  | [] => []
  | c :: s' => if is_special c then 92%N :: c :: escape s' else c :: escape s'
  end.

(** *** A small engine

    An executable instance of the interface for a fragment of the syntax:
    literal characters, backslash-escaped punctuation, [.], [\s], [\d], the
    postfix [*], [+], [?] on one character, and [$].  Every pattern the two
    monitors ship lies in it.  Patterns outside the fragment are rejected, so
    the instance is only used on patterns of the fragment, over ASCII
    text. *)

Inductive atom := Lit (c : N) | AnyChar | Space | Digit.
Inductive quant := Once | Star | Plus | Opt.
Inductive item := Atom (a : atom) (q : quant) | Eol.

Definition atom_matches (ic : bool) (a : atom) (c : N) : bool :=
  match a with
  | Lit x => if ic then (lower_char x =? lower_char c)%N else (x =? c)%N
  | AnyChar => negb (c =? 10)%N
  | Space => isspace c
  | Digit => ((48 <=? c) && (c <=? 57))%N
  end.

(** [$]: the end of the text, or just before a final newline. *)
Definition at_end (s : pystr) : bool :=
  match s with
  | [] => true
  | [c] => (c =? 10)%N
  | _ => false
  end.

Fixpoint match_here (ic : bool) (r : list item) (s : pystr) {struct r} : bool :=
  match r with
  | [] => true
  | Eol :: r' => at_end s && match_here ic r' s
  | Atom a q :: r' =>
      let star :=
        fix star (s : pystr) : bool :=
          match_here ic r' s ||
          match s with
          | c :: s' => atom_matches ic a c && star s'
          | [] => false
          end in
      match q with
      | Star => star s
      | Once =>
          match s with
          | c :: s' => atom_matches ic a c && match_here ic r' s'
          | [] => false
          end
      | Plus =>
          match s with
          | c :: s' => atom_matches ic a c && star s'
          | [] => false
          end
      | Opt =>
          match_here ic r' s ||
          match s with
          | c :: s' => atom_matches ic a c && match_here ic r' s'
          | [] => false
          end
      end
  end.

Fixpoint search_from (ic : bool) (r : list item) (s : pystr) : bool :=
  match_here ic r s ||
  match s with
  | _ :: s' => search_from ic r s'
  | [] => false
  end.

Definition is_alnum (c : N) : bool :=
  ((48 <=? c) && (c <=? 57) || (65 <=? c) && (c <=? 90)
   || (97 <=? c) && (c <=? 122))%N.

(** The atom after a backslash: [\s], [\d], or an escaped non-alphanumeric
    character; the other letter escapes are outside the fragment. *)
Definition escaped_atom (c : N) : option atom :=
  if (c =? 115)%N then Some Space
  else if (c =? 100)%N then Some Digit
  else if is_alnum c then None
  else Some (Lit c).

(** An unescaped character: [.] or a literal; the other metacharacters
    ( ^ ( ) [ ] { } | * + ? ) are outside the fragment here. *)
Definition plain_atom (c : N) : option atom :=
  if (c =? 46)%N then Some AnyChar
  else if bool_decide (c ∈ [94; 40; 41; 91; 93; 123; 125; 124; 42; 43; 63]%N)
  then None
  else Some (Lit c).

Definition quant_of (c : N) : option quant :=
  if (c =? 42)%N then Some Star
  else if (c =? 43)%N then Some Plus
  else if (c =? 63)%N then Some Opt
  else None.

Fixpoint parse (p : pystr) : option (list item) :=
  match p with
  | [] => Some []
  | c :: p1 =>
      if (c =? 36)%N then cons Eol <$> parse p1
      else if (c =? 92)%N then
        match p1 with
        | [] => None
        | e :: p2 =>
            match escaped_atom e with
            | None => None
            | Some a =>
                match p2 with
                | [] => Some [Atom a Once]
                | q :: p3 =>
                    match quant_of q with
                    | Some qu => cons (Atom a qu) <$> parse p3
                    | None => cons (Atom a Once) <$> parse p2
                    end
                end
            end
        end
      else
        match plain_atom c with
        | None => None
        | Some a =>
            match p1 with
            | [] => Some [Atom a Once]
            | q :: p2 =>
                match quant_of q with
                | Some qu => cons (Atom a qu) <$> parse p2
                | None => cons (Atom a Once) <$> parse p1
                end
            end
        end
  end.

Definition mini_re : PyRe := {|
  re_compile p := bool_decide (is_Some (parse p));
  re_search ic p s := (λ r, search_from ic r s) <$> parse p
|}.

End Re.

(* ===================================================================== *)
(** ** collections.deque with a maximum length *)
(* ===================================================================== *)

Module Deque.

(** [d.append(x)] on [deque(maxlen=n)]: the element goes to the right end;
    when the deque then holds more than [n] elements the leftmost one is
    dropped.  A deque of maximum length 0 stays empty. *)
Definition append {A} (maxlen : nat) (d : list A) (x : A) : list A :=
  if decide (maxlen = 0) then d
  else
    let d' := d ++ [x] in
    if decide (maxlen < length d') then tail d' else d'.

(** A run of appends, left to right. *)
Definition extend {A} (maxlen : nat) (d : list A) (xs : list A) : list A :=
  fold_left (append maxlen) xs d.

End Deque.

(* ===================================================================== *)
(** ** tmux_monitor_v2.py *)
(* ===================================================================== *)

Module MonitorV2.
Import Py.

Inductive ProcessingReason :=
  | PAUSE_DETECTED
  | CONTEXT_LIMIT
  | PROMPT_DETECTED
  | TIMEOUT
  | QUESTION_DETECTED.

#[global] Instance ProcessingReason_eq_dec : EqDecision ProcessingReason.
Proof. solve_decision. Defined.

(** [reason.value] *)
Definition reason_value (r : ProcessingReason) : pystr :=
  match r with
  | PAUSE_DETECTED => str "pause_detected"
  | CONTEXT_LIMIT => str "context_limit"
  | PROMPT_DETECTED => str "prompt_detected"
  | TIMEOUT => str "timeout"
  | QUESTION_DETECTED => str "question_detected"
  end.

(** A [datetime] is a count of microseconds. *)
Abbreviation datetime := Z.

Record LineEntry := {
  content : pystr;
  timestamp : datetime;
  line_number : nat
}.

Record Summary := {
  summary_content : pystr;
  start_line : nat;
  end_line : nat;
  summary_timestamp : datetime;
  line_count : nat
}.

Record InteractivePrompt := {
  pattern : pystr;
  prompt_type : pystr;
  detected_at : datetime;
  full_line : pystr
}.

(** What a call can raise. *)
Inductive exn :=
  | ReError (pattern : pystr)
  | UnicodeEncodeError
  | ApiError (message : pystr).

Inductive result (A : Type) :=
  | Ok (a : A)
  | Raise (e : exn).
Arguments Ok {A} a.
Arguments Raise {A} e.

(** *** SecureVault *)

(** [vault_data]: a dictionary of dictionaries, as loaded from the YAML
    file; the sections are ["passwords"], ["auto_responses"], ["patterns"]. *)
Abbreviation vault_data := (gmap pystr (gmap pystr pystr)).

Definition empty_vault : vault_data :=
  {[ str "passwords" := ∅; str "auto_responses" := ∅; str "patterns" := ∅ ]}.

(** [vault_data.get(name, {})] *)
Definition section (v : vault_data) (name : pystr) : gmap pystr pystr :=
  default ∅ (v !! name).

(** [hashlib.sha256(context.encode()).hexdigest()[:16]] *)
Definition context_hash (context : pystr) : result pystr :=
  match encode context with
  | Some bytes => Ok (take 16 (Sha256.hexdigest bytes))
  | None => Raise UnicodeEncodeError
  end.

Definition get_password (v : vault_data) (context : pystr) : result (option pystr) :=
  match context_hash context with
  | Ok h => Ok (section v (str "passwords") !! h)
  | Raise e => Raise e
  end.

(** The dictionary after [store_password] (which then writes the file). *)
Definition store_password (v : vault_data) (context password : pystr) : result vault_data :=
  match context_hash context with
  | Ok h => Ok (<[str "passwords" := <[h := password]> (section v (str "passwords"))]> v)
  | Raise e => Raise e
  end.

Definition get_auto_response (v : vault_data) (pattern : pystr) : option pystr :=
  section v (str "auto_responses") !! pattern.

(** What [main] does for each [--add-auto-response PATTERN RESPONSE]. *)
Definition add_auto_response (v : vault_data) (pattern response : pystr) : vault_data :=
  <[str "auto_responses" := <[pattern := response]> (section v (str "auto_responses"))]> v.

(** *** ContinuousTmuxMonitor *)

Record Stats := {
  lines_processed : Z;
  summaries_created : Z;
  prompts_detected : Z;
  questions_answered : Z;
  auto_responses : Z
}.

(** What the monitor does to the outside, in order; [Appended] also records
    each [line_queue.append], so that the entries created over a run can be
    told after the queue dropped them. *)
Inductive Effect :=
  | OpenAIChat (system user : pystr)
  | SendKeys (text : pystr)
  | LogInteraction (activity summary next_step : pystr)
  | LoggerError (message : pystr) (e : exn)
  | LoggerInfo (message : pystr)
  | Appended (entry : LineEntry).

(** The state of the monitor object.  The last three fields live outside
    it: [last_content] is the local variable of
    [capture_lines_continuously], [clock] is what [datetime.now()] returns,
    [effects] is the record of the outside calls made so far.  (The unused
    [last_processed_line] and the logging switch [verbose] are left out;
    console output is not modelled.) *)
Record Monitor := {
  max_context_lines : Z;
  pause_threshold : Q;
  dead_threshold : Q;
  summarization_provider : pystr;
  next_step_provider : pystr;
  line_queue : list LineEntry;
  summaries : list Summary;
  last_activity_time : datetime;
  prompt_patterns : list pystr;
  vault : vault_data;
  automation_enabled : bool;
  stats : Stats;
  last_content : list pystr;
  clock : datetime;
  effects : list Effect
}.

(** [deque(maxlen=10000)] *)
Definition line_queue_maxlen : nat := 10000.

Definition question_patterns : list pystr :=
  [ str "Are you sure.*\?";
    str "Do you want to.*\?";
    str "Continue\?.*\(y/n\)";
    str "Overwrite.*\?";
    str "Delete.*\?";
    str "Save changes.*\?";
    str "Password:";
    str "Enter passphrase";
    str "Username:";
    str "\[sudo\] password for" ].

Definition zero_stats : Stats :=
  {| lines_processed := 0; summaries_created := 0; prompts_detected := 0;
     questions_answered := 0; auto_responses := 0 |}.

(** The object after [__init__] (and the overrides of [main]), at time
    [now]. *)
Definition new_monitor (max_lines : Z) (pause dead : Q)
    (summarization next_step : pystr) (patterns : list pystr)
    (v : vault_data) (automation : bool) (now : datetime) : Monitor :=
  {| max_context_lines := max_lines;
     pause_threshold := pause;
     dead_threshold := dead;
     summarization_provider := summarization;
     next_step_provider := next_step;
     line_queue := [];
     summaries := [];
     last_activity_time := now;
     prompt_patterns := patterns;
     vault := v;
     automation_enabled := automation;
     stats := zero_stats;
     last_content := [];
     clock := now;
     effects := [] |}.

Definition set_line_queue (q : list LineEntry) (m : Monitor) : Monitor :=
  {| max_context_lines := max_context_lines m; pause_threshold := pause_threshold m;
     dead_threshold := dead_threshold m;
     summarization_provider := summarization_provider m;
     next_step_provider := next_step_provider m;
     line_queue := q; summaries := summaries m;
     last_activity_time := last_activity_time m;
     prompt_patterns := prompt_patterns m; vault := vault m;
     automation_enabled := automation_enabled m; stats := stats m;
     last_content := last_content m; clock := clock m; effects := effects m |}.

Definition set_summaries (l : list Summary) (m : Monitor) : Monitor :=
  {| max_context_lines := max_context_lines m; pause_threshold := pause_threshold m;
     dead_threshold := dead_threshold m;
     summarization_provider := summarization_provider m;
     next_step_provider := next_step_provider m;
     line_queue := line_queue m; summaries := l;
     last_activity_time := last_activity_time m;
     prompt_patterns := prompt_patterns m; vault := vault m;
     automation_enabled := automation_enabled m; stats := stats m;
     last_content := last_content m; clock := clock m; effects := effects m |}.

Definition set_last_activity_time (t : datetime) (m : Monitor) : Monitor :=
  {| max_context_lines := max_context_lines m; pause_threshold := pause_threshold m;
     dead_threshold := dead_threshold m;
     summarization_provider := summarization_provider m;
     next_step_provider := next_step_provider m;
     line_queue := line_queue m; summaries := summaries m;
     last_activity_time := t;
     prompt_patterns := prompt_patterns m; vault := vault m;
     automation_enabled := automation_enabled m; stats := stats m;
     last_content := last_content m; clock := clock m; effects := effects m |}.

Definition set_stats (st : Stats) (m : Monitor) : Monitor :=
  {| max_context_lines := max_context_lines m; pause_threshold := pause_threshold m;
     dead_threshold := dead_threshold m;
     summarization_provider := summarization_provider m;
     next_step_provider := next_step_provider m;
     line_queue := line_queue m; summaries := summaries m;
     last_activity_time := last_activity_time m;
     prompt_patterns := prompt_patterns m; vault := vault m;
     automation_enabled := automation_enabled m; stats := st;
     last_content := last_content m; clock := clock m; effects := effects m |}.

Definition set_last_content (c : list pystr) (m : Monitor) : Monitor :=
  {| max_context_lines := max_context_lines m; pause_threshold := pause_threshold m;
     dead_threshold := dead_threshold m;
     summarization_provider := summarization_provider m;
     next_step_provider := next_step_provider m;
     line_queue := line_queue m; summaries := summaries m;
     last_activity_time := last_activity_time m;
     prompt_patterns := prompt_patterns m; vault := vault m;
     automation_enabled := automation_enabled m; stats := stats m;
     last_content := c; clock := clock m; effects := effects m |}.

Definition set_clock (t : datetime) (m : Monitor) : Monitor :=
  {| max_context_lines := max_context_lines m; pause_threshold := pause_threshold m;
     dead_threshold := dead_threshold m;
     summarization_provider := summarization_provider m;
     next_step_provider := next_step_provider m;
     line_queue := line_queue m; summaries := summaries m;
     last_activity_time := last_activity_time m;
     prompt_patterns := prompt_patterns m; vault := vault m;
     automation_enabled := automation_enabled m; stats := stats m;
     last_content := last_content m; clock := t; effects := effects m |}.

Definition set_effects (l : list Effect) (m : Monitor) : Monitor :=
  {| max_context_lines := max_context_lines m; pause_threshold := pause_threshold m;
     dead_threshold := dead_threshold m;
     summarization_provider := summarization_provider m;
     next_step_provider := next_step_provider m;
     line_queue := line_queue m; summaries := summaries m;
     last_activity_time := last_activity_time m;
     prompt_patterns := prompt_patterns m; vault := vault m;
     automation_enabled := automation_enabled m; stats := stats m;
     last_content := last_content m; clock := clock m; effects := l |}.

(** [stats[...] += 1] for the three counters the code touches. *)
Definition incr_summaries_created (st : Stats) : Stats :=
  {| lines_processed := lines_processed st;
     summaries_created := summaries_created st + 1;
     prompts_detected := prompts_detected st;
     questions_answered := questions_answered st;
     auto_responses := auto_responses st |}.

Definition incr_prompts_detected (st : Stats) : Stats :=
  {| lines_processed := lines_processed st;
     summaries_created := summaries_created st;
     prompts_detected := prompts_detected st + 1;
     questions_answered := questions_answered st;
     auto_responses := auto_responses st |}.

Definition incr_auto_responses (st : Stats) : Stats :=
  {| lines_processed := lines_processed st;
     summaries_created := summaries_created st;
     prompts_detected := prompts_detected st;
     questions_answered := questions_answered st;
     auto_responses := auto_responses st + 1 |}.

(** *** Methods: state and exceptions

    A method takes the monitor and gives it back with a value or a raised
    exception; what was changed before a [raise] stays changed. *)
Definition M (A : Type) : Type := Monitor → result A * Monitor.

#[global] Instance M_ret : MRet M := λ A a m, (Ok a, m).

#[global] Instance M_bind : MBind M := λ A B k c m,
  match c m with
  | (Ok a, m') => k a m'
  | (Raise e, m') => (Raise e, m')
  end.

Definition get : M Monitor := λ m, (Ok m, m).
Definition modify (f : Monitor → Monitor) : M unit := λ m, (Ok tt, f m).
Definition raise {A} (e : exn) : M A := λ m, (Raise e, m).
Definition emit (e : Effect) : M unit :=
  modify (λ m, set_effects (effects m ++ [e]) m).

(** [try: body except Exception as e: logger.error(f"{message}: {e}")] *)
Definition try_except (body : M unit) (message : pystr) : M unit := λ m,
  match body m with
  | (Ok tt, m') => (Ok tt, m')
  | (Raise e, m') => emit (LoggerError message e) m'
  end.

(** The OpenAI client: [chat.completions.create] with a system and a user
    message, returning [choices[0].message.content] or raising.  The answer
    may depend on everything that happened before. *)
Class OpenAIClient := {
  chat_completions_create : list Effect → pystr → pystr → result pystr
}.

Section Methods.
Context {re_module : Re.PyRe} {openai_client : OpenAIClient}.

(** A call of the client, recorded. *)
Definition openai_chat (system user : pystr) : M pystr :=
  m ← get;
  emit (OpenAIChat system user);;
  match chat_completions_create (effects m) system user with
  | Ok text => mret text
  | Raise e => raise e
  end.

Definition classify_prompt (pattern : pystr) : pystr :=
  if contains (str "password") (lower pattern)
     || contains (str "passphrase") (lower pattern)
  then str "password"
  else if contains (str "y/n") (lower pattern)
          || contains (str "yes/no") (lower pattern)
  then str "confirmation"
  else if contains (str "username") (lower pattern)
  then str "username"
  else str "general".

Fixpoint detect_in (patterns : list pystr) (line : pystr) : M (option InteractivePrompt) :=
  match patterns with
  | [] => mret None
  | pattern :: rest =>
      match Re.re_search true pattern line with
      | None => raise (ReError pattern)
      | Some true =>
          m ← get;
          mret (Some {| pattern := pattern;
                        prompt_type := classify_prompt pattern;
                        detected_at := clock m;
                        full_line := line |})
      | Some false => detect_in rest line
      end
  end.

Definition detect_interactive_prompt (line : pystr) : M (option InteractivePrompt) :=
  detect_in question_patterns line.

Definition summarize_activity (activity : pystr) : M pystr :=
  m ← get;
  if bool_decide (summarization_provider m = str "openai") then
    openai_chat (str "Summarize this terminal activity concisely.") activity
  else
    mret (str "Summary not implemented for this provider").

Definition generate_next_step (summary : pystr) : M pystr :=
  m ← get;
  if bool_decide (next_step_provider m = str "openai") then
    openai_chat (str "Suggest the next helpful terminal command based on this summary.")
                summary
  else
    mret (str "Next step generation not implemented for this provider").

Definition _build_rolling_context (m : Monitor) (recent_lines : list LineEntry) : pystr :=
  let context_parts :=
    (if bool_decide (2 ≤ length (summaries m)) then
       match reverse (summaries m) !! 1 with
       | Some s => [str "[Previous Summary]: " ++ summary_content s]
       | None => []
       end
     else [])
    ++ (match last (summaries m) with
        | Some s => [str "[Last Summary]: " ++ summary_content s]
        | None => []
        end) in
  let recent_text :=
    join nl (content <$> slice_from (- max_context_lines m) recent_lines) in
  join (nl ++ nl)
       (context_parts ++ [str "[Recent Activity]:" ++ nl ++ recent_text]).

(** The context a flush hands to the summarizer (lines 326-331). *)
Definition flush_context (m : Monitor) (reason : ProcessingReason)
    (lines_to_process : list LineEntry) : pystr :=
  if bool_decide (reason = CONTEXT_LIMIT) && truthy (summaries m) then
    _build_rolling_context m lines_to_process
  else
    join nl (content <$> lines_to_process).

Definition process_queue (reason : ProcessingReason) : M unit :=
  m ← get;
  if negb (truthy (line_queue m)) then mret tt
  else
    let lines_to_process := line_queue m in
    let context := flush_context m reason lines_to_process in
    summary_text ← summarize_activity context;
    match head lines_to_process, last lines_to_process with
    | Some first, Some final =>
        m1 ← get;
        let summary := {| summary_content := summary_text;
                          start_line := line_number first;
                          end_line := line_number final;
                          summary_timestamp := clock m1;
                          line_count := length lines_to_process |} in
        modify (λ m, set_summaries (summaries m ++ [summary]) m);;
        modify (λ m, set_stats (incr_summaries_created (stats m)) m);;
        modify (set_line_queue []);;
        if bool_decide (reason ∈ [PROMPT_DETECTED; TIMEOUT]) then
          next_steps ← generate_next_step summary_text;
          emit (LogInteraction context summary_text next_steps)
        else mret tt
    | _, _ => mret tt
    end.

Definition handle_interactive_prompt (line : pystr) : M unit :=
  prompt ← detect_interactive_prompt line;
  match prompt with
  | None => mret tt
  | Some prompt =>
      modify (λ m, set_stats (incr_prompts_detected (stats m)) m);;
      m ← get;
      if automation_enabled m then
        match get_auto_response (vault m) (pattern prompt) with
        | Some ((_ :: _) as response) =>
            emit (SendKeys response);;
            modify (λ m, set_stats (incr_auto_responses (stats m)) m)
        | _ =>
            process_queue QUESTION_DETECTED
        end
      else mret tt
  end.

Fixpoint any_pattern_matches (patterns : list pystr) (line : pystr) : bool :=
  match patterns with
  | [] => false
  | pattern :: rest =>
      match Re.re_search false pattern line with
      | Some true => true
      | _ => any_pattern_matches rest line
      end
  end.

(** The loop of [is_at_prompt] over [reversed(lines)]. *)
Fixpoint is_at_prompt_from (patterns : list pystr) (reversed_lines : list pystr) : bool :=
  match reversed_lines with
  | [] => false
  | line :: rest =>
      if truthy (strip line) then any_pattern_matches patterns line
      else is_at_prompt_from patterns rest
  end.

Definition is_at_prompt (m : Monitor) (lines : list pystr) : bool :=
  is_at_prompt_from (prompt_patterns m) (reverse lines).

(** [(datetime.now() - last_activity_time).total_seconds()], as the exact
    number of seconds; the thresholds are finite numbers too. *)
Definition time_since_activity (m : Monitor) : Q :=
  (clock m - last_activity_time m) # 1000000.

(** One pass through the body of the loop of [monitor_activity]. *)
Definition monitor_activity_body : M unit :=
  m ← get;
  if (max_context_lines m <=? Z.of_nat (length (line_queue m)))%Z then
    process_queue CONTEXT_LIMIT
  else if Qle_bool (pause_threshold m) (time_since_activity m)
          && truthy (line_queue m) then
    if truthy (line_queue m) && is_at_prompt m (content <$> line_queue m) then
      process_queue PROMPT_DETECTED
    else
      process_queue PAUSE_DETECTED
  else if Qle_bool (dead_threshold m) (time_since_activity m)
          && truthy (line_queue m) then
    process_queue TIMEOUT
  else mret tt.

(** One tick of the idle monitor, at time [now]. *)
Definition monitor_activity_tick (now : datetime) : M unit :=
  modify (set_clock now);;
  try_except monitor_activity_body (str "Error in monitor loop").

(** [for i, line in enumerate(new_lines): ...], from index [i] on; [base] is
    [len(last_content)]. *)
Fixpoint capture_new_lines (base i : nat) (new_lines : list pystr) : M unit :=
  match new_lines with
  | [] => mret tt
  | line :: rest =>
      m ← get;
      let entry := {| content := line; timestamp := clock m;
                      line_number := base + i |} in
      modify (λ m, set_line_queue (Deque.append line_queue_maxlen (line_queue m) entry) m);;
      emit (Appended entry);;
      modify (λ m, set_last_activity_time (clock m) m);;
      prompt ← detect_interactive_prompt line;
      (if prompt is Some _ then handle_interactive_prompt line else mret tt);;
      capture_new_lines base (S i) rest
  end.

(** One pass through the body of the loop of [capture_lines_continuously],
    with [current_content] what the pane returned. *)
Definition capture_body (current_content : list pystr) : M unit :=
  m ← get;
  let last := last_content m in
  (if bool_decide (length last < length current_content) then
     capture_new_lines (length last) 0 (drop (length last) current_content)
   else if bool_decide (length current_content < length last) then
     emit (LoggerInfo (str "Pane content changed significantly, resetting"))
   else mret tt);;
  modify (set_last_content current_content).

Definition capture_tick (now : datetime) (current_content : list pystr) : M unit :=
  modify (set_clock now);;
  try_except (capture_body current_content) (str "Error capturing lines").

(** The two loops only give way to each other while asleep at the end of
    a pass (the calls they await never suspend), so a run of the monitor is
    a sequence of whole passes. *)
Inductive Tick :=
  | Capture (now : datetime) (current_content : list pystr)
  | Idle (now : datetime).

Definition tick (t : Tick) : M unit :=
  match t with
  | Capture now current_content => capture_tick now current_content
  | Idle now => monitor_activity_tick now
  end.

Definition run (ticks : list Tick) (m : Monitor) : Monitor :=
  fold_left (λ m t, snd (tick t m)) ticks m.

(** The entries ever appended to the queue, oldest first. *)
Definition appended (m : Monitor) : list LineEntry :=
  omap (λ e, if e is Appended entry then Some entry else None) (effects m).

End Methods.

End MonitorV2.

(* ===================================================================== *)
(** ** tmux_monitor.py: learning prompt patterns *)
(* ===================================================================== *)

Module MonitorV1.
Import Py.

(** The part of [TmuxAIMonitor] the learning heuristic reads and writes. *)
Record Monitor := {
  prompt_patterns : list pystr;
  learned_prompts : gset pystr;
  prompt_learning_enabled : bool
}.

Definition base_prompt_patterns : list pystr :=
  [ str " > $";
    str "\$ $";
    str ">>> $";
    str "In \[\d+\]: $";
    str "mysql> $";
    str ": $";
    str "# $" ].

(** The prompt indicators: $ > # : ] and the code points U+00BB, U+276F,
    U+279C. *)
Definition prompt_indicators : list N := [36; 62; 35; 58; 93; 187; 10095; 10140]%N.

(** The first loop of [analyze_for_prompt_pattern]: walk [reversed(lines)],
    keep the lines that are not blank, stop at ten. *)
Fixpoint collect_recent (recent_lines reversed_lines : list pystr) : list pystr :=
  match reversed_lines with
  | [] => recent_lines
  | line :: rest =>
      if truthy (strip line) then
        let recent_lines' := recent_lines ++ [line] in
        if bool_decide (10 ≤ length recent_lines') then recent_lines'
        else collect_recent recent_lines' rest
      else collect_recent recent_lines rest
  end.

(** [line[-20:].strip()] *)
Definition ending_of (line : pystr) : pystr := strip (slice_from (-20) line).

(** The two tests an ending has to pass to be counted. *)
Definition is_candidate (ending : pystr) : bool :=
  bool_decide (0 < length ending) && bool_decide (length ending < 15)
  && existsb (λ char, bool_decide (char ∈ ending)) prompt_indicators.

(** [line_endings[ending] = line_endings.get(ending, 0) + 1] on a
    dictionary kept in insertion order. *)
Fixpoint bump (ending : pystr) (line_endings : list (pystr * nat)) : list (pystr * nat) :=
  match line_endings with
  | [] => [(ending, 1)]
  | (k, n) :: rest =>
      if bool_decide (k = ending) then (k, S n) :: rest
      else (k, n) :: bump ending rest
  end.

(** The second loop. *)
Definition count_endings (recent_lines : list pystr) : list (pystr * nat) :=
  fold_left (λ line_endings line,
               let ending := ending_of line in
               if is_candidate ending then bump ending line_endings
               else line_endings)
            recent_lines [].

(** [sorted(items, key=lambda x: x[1], reverse=True)]: by decreasing count,
    items of equal count staying in their order. *)
Fixpoint insert_desc (x : pystr * nat) (l : list (pystr * nat)) : list (pystr * nat) :=
  match l with
  | [] => [x]
  | y :: l' => if bool_decide (x.2 < y.2) then y :: insert_desc x l' else x :: l
  end.

Fixpoint sorted_desc (l : list (pystr * nat)) : list (pystr * nat) :=
  match l with
  | [] => []
  | x :: l' => insert_desc x (sorted_desc l')
  end.

(** The pattern built from an ending: [re.escape(ending) + r"\s*$"]. *)
Definition learned_pattern (ending : pystr) : pystr :=
  Re.escape ending ++ str "\s*$".

Section Learning.
Context {re_module : Re.PyRe}.

(** The third loop, over the sorted items. *)
Fixpoint first_new_pattern (m : Monitor) (items : list (pystr * nat)) : option pystr :=
  match items with
  | [] => None
  | (ending, count) :: rest =>
      if bool_decide (3 ≤ count) then
        let pattern := learned_pattern ending in
        if bool_decide (pattern ∉ prompt_patterns m)
           && bool_decide (pattern ∉ learned_prompts m) then
          if Re.re_compile pattern then Some pattern
          else first_new_pattern m rest
        else first_new_pattern m rest
      else first_new_pattern m rest
  end.

Definition analyze_for_prompt_pattern (m : Monitor) (lines : list pystr) : option pystr :=
  if negb (prompt_learning_enabled m) then None
  else
    let recent_lines := collect_recent [] (reverse lines) in
    let line_endings := count_endings recent_lines in
    first_new_pattern m (sorted_desc line_endings).

(** [add_prompt_pattern(pattern, learned)]: the value returned ([None] when
    the function falls off its end) and the monitor afterwards (the learned
    set is then written to its file). *)
Definition add_prompt_pattern (pattern : pystr) (learned : bool) (m : Monitor)
    : option bool * Monitor :=
  if Re.re_compile pattern then
    if bool_decide (pattern ∉ prompt_patterns m) then
      (Some true,
       {| prompt_patterns := prompt_patterns m ++ [pattern];
          learned_prompts := if learned then {[pattern]} ∪ learned_prompts m
                             else learned_prompts m;
          prompt_learning_enabled := prompt_learning_enabled m |})
    else (None, m)
  else (Some false, m).

Fixpoint any_pattern_matches (patterns : list pystr) (line : pystr) : bool :=
  match patterns with
  | [] => false
  | pattern :: rest =>
      match Re.re_search false pattern line with
      | Some true => true
      | _ => any_pattern_matches rest line
      end
  end.

Fixpoint is_at_prompt_from (patterns : list pystr) (reversed_lines : list pystr) : bool :=
  match reversed_lines with
  | [] => false
  | line :: rest =>
      if truthy (strip line) then any_pattern_matches patterns line
      else is_at_prompt_from patterns rest
  end.

Definition is_at_prompt (m : Monitor) (lines : list pystr) : bool :=
  is_at_prompt_from (prompt_patterns m) (reverse lines).

(** What one pass of [run_monitoring_loop] does to the patterns: away from
    a prompt, with learning on, a pattern the analysis returns is added as
    learned. *)
Definition learning_pass (lines : list pystr) (m : Monitor) : Monitor :=
  if is_at_prompt m lines then m
  else if prompt_learning_enabled m then
    match analyze_for_prompt_pattern m lines with
    | Some ((_ :: _) as new_pattern) => (add_prompt_pattern new_pattern true m).2
    | _ => m
    end
  else m.

End Learning.

End MonitorV1.

(* ===================================================================== *)
(** ** tmux_monitor.py: the patterns and the activity over a session *)
(* ===================================================================== *)

Module MonitorV1Session.
Import Py MonitorV1.

(** [get_activity_since_last_interaction(lines)] with
    [config["max_history_lines"]] and [last_interaction_line] passed in; the
    result is the activity and the new [last_interaction_line]. *)
Definition get_activity_since_last_interaction (max_history_lines : Z)
    (lines : list pystr) (last_interaction_line : nat) : pystr * nat :=
  let relevant_lines :=
    if bool_decide (last_interaction_line = 0)
    then slice_from (- max_history_lines) lines
    else drop last_interaction_line lines in
  (strip (join nl relevant_lines), length lines).

Section Persistence.
Context {re_module : Re.PyRe}.

(** [load_learned_prompts]: [learned_file] is [None] when the file does
    not exist, and else the list it holds under [learned_prompts] (the
    empty list when the key or the whole document is missing). *)
Definition load_learned_prompts (learned_file : option (list pystr))
    (m : Monitor) : Monitor :=
  match learned_file with
  | None => m
  | Some learned =>
      fold_left (λ m pattern, (add_prompt_pattern pattern true m).2) learned m
  end.

(** The pattern state [__init__] leaves: the base patterns, then what the
    file of learned prompts adds. *)
Definition init (prompt_learning : bool) (learned_file : option (list pystr))
    : Monitor :=
  load_learned_prompts learned_file
    {| prompt_patterns := base_prompt_patterns;
       learned_prompts := ∅;
       prompt_learning_enabled := prompt_learning |}.

(** [for pattern in add_prompt: monitor.add_prompt_pattern(pattern)] of
    [main]. *)
Definition add_prompts (patterns : list pystr) (m : Monitor) : Monitor :=
  fold_left (λ m pattern, (add_prompt_pattern pattern false m).2) patterns m.

(** The passes of [run_monitoring_loop] over the snapshots of the pane, as
    far as the patterns go. *)
Definition learn (snapshots : list (list pystr)) (m : Monitor) : Monitor :=
  fold_left (λ m lines, learning_pass lines m) snapshots m.

End Persistence.

End MonitorV1Session.

(* ===================================================================== *)
(** ** Concrete collaborators and sessions *)
(* ===================================================================== *)

Module Fixtures.
Import Py MonitorV2.

(** A client that always answers with the same text. *)
Definition steady_client (text : pystr) : OpenAIClient :=
  {| chat_completions_create _ _ _ := Ok text |}.

(** A client whose every call raises. *)
Definition failing_client (message : pystr) : OpenAIClient :=
  {| chat_completions_create _ _ _ := Raise (ApiError message) |}.

(** A client that summarizes but fails to suggest a next step. *)
Definition summary_only_client (text message : pystr) : OpenAIClient :=
  {| chat_completions_create _ system _ :=
       if bool_decide (system = str "Summarize this terminal activity concisely.")
       then Ok text else Raise (ApiError message) |}.

(** The default thresholds of the command line (500 lines, 15 s, 120 s),
    OpenAI for both tasks, the shell prompt pattern. *)
Definition default_monitor (v : vault_data) (automation : bool) : Monitor :=
  new_monitor 500 15 120 (str "openai") (str "openai") [str "\$ $"] v automation 0.

Definition seconds (n : Z) : datetime := (n * 1000000)%Z.

(** A session that printed one line at time 0. *)
Definition one_line_session (line : pystr) : Monitor :=
  run (re_module := Re.mini_re) (openai_client := steady_client (str "summary"))
      [Capture 0 [line]] (default_monitor empty_vault false).

(** The same session looked at after 125 s without output. *)
Definition idle_125s : Monitor :=
  set_clock (seconds 125) (one_line_session (str "ls")).

Definition quiet_at_16s : Monitor :=
  set_clock (seconds 16) (one_line_session (str "file1.txt")).

Definition prompt_at_16s : Monitor :=
  set_clock (seconds 16) (one_line_session (str "user@host:~$ ")).

(** A vault with the answer "y" for the overwrite question. *)
Definition overwrite_vault : vault_data :=
  add_auto_response empty_vault (str "Overwrite.*\?") (str "y").

(** The same question registered with an empty answer. *)
Definition blank_answer_vault : vault_data :=
  add_auto_response empty_vault (str "Overwrite.*\?") [].

(** A vault whose auto-response sits under the hash of the pattern. *)
Definition hashed_key_vault : vault_data :=
  add_auto_response empty_vault (str "d3397069a1600c8b") (str "y").

Definition overwrite_question : pystr := str "Overwrite existing file? (y/n)".

(** The overwrite question arrives; automation is on, the registered answer
    is empty. *)
Definition blank_answer_session : Monitor :=
  run (re_module := Re.mini_re) (openai_client := steady_client (str "summary"))
      [Capture 0 [overwrite_question]] (default_monitor blank_answer_vault true).

(** One line, then a pass of the idle monitor at 16 s while the client is
    down. *)
Definition failed_summary_session : Monitor :=
  run (re_module := Re.mini_re) (openai_client := failing_client (str "boom"))
      [Capture 0 [str "ls"]; Idle (seconds 16)] (default_monitor empty_vault false).

(** A prompt line, then a pass at 16 s with a client that summarizes but
    cannot suggest. *)
Definition failed_next_step_session : Monitor :=
  run (re_module := Re.mini_re)
      (openai_client := summary_only_client (str "summary") (str "boom"))
      [Capture 0 [str "user@host:~$ "]; Idle (seconds 16)]
      (default_monitor empty_vault false).

(** The pane shows three lines, is cleared down to one, then shows two. *)
Definition cleared_pane_ticks : list Tick :=
  [Capture 0 [str "a"; str "b"; str "c"];
   Capture (seconds 1) [str "x"];
   Capture (seconds 2) [str "x"; str "y"]].

(** A question nobody answers, polled twice while the client is down. *)
Definition unanswered_question_ticks : list Tick :=
  [Capture 0 [overwrite_question]; Capture (seconds 1) [overwrite_question]].

(** Lines arrive, the queue is flushed, more lines arrive. *)
Definition growing_pane_ticks : list Tick :=
  [Capture 0 [str "a"; str "b"];
   Idle (seconds 16);
   Capture (seconds 17) [str "a"; str "b"; str "c"]].

(** A fresh [TmuxAIMonitor]: the base patterns, nothing learned yet. *)
Definition learner : MonitorV1.Monitor :=
  {| MonitorV1.prompt_patterns := MonitorV1.base_prompt_patterns;
     MonitorV1.learned_prompts := ∅;
     MonitorV1.prompt_learning_enabled := true |}.

(** A shell whose prompt ends in a percent sign, between two listings. *)
Definition percent_prompt_lines : list pystr :=
  [str "[a@b ~]% "; str "file1.txt"; str "[a@b ~]% "; str "file2.txt";
   str "[a@b ~]% "].

(** Three lines that end in a bracket, a dollar and a blank. *)
Definition bracket_dollar_lines : list pystr := replicate 3 (str "] $ ").

(** Three lines of fifteen characters, the last one a dollar. *)
Definition fifteen_char_lines : list pystr := replicate 3 (str "abcdefghijklmn$").

(** 10001 entries, numbered from 0. *)
Definition numbered_entries : list LineEntry :=
  (λ i, {| content := str "x"; timestamp := 0; line_number := i |})
  <$> seq 0 (S line_queue_maxlen).

(** A monitor that flushes at every line (context limit 1), after its
    first flush and one more line. *)
Definition second_flush_session : Monitor :=
  run (re_module := Re.mini_re) (openai_client := steady_client (str "summary"))
      [Capture 0 [str "a"]; Idle (seconds 1); Capture (seconds 2) [str "a"; str "b"]]
      (new_monitor 1 15 120 (str "openai") (str "openai") [] empty_vault false 0).

End Fixtures.

(* ===================================================================== *)
(** ** Properties of the bounded queue *)
(* ===================================================================== *)

Module DequeProps.
Import Deque.

Section Bounded.
Context {A : Type}.
Implicit Types (d xs : list A) (x : A) (maxlen : nat).

Lemma append_drop maxlen d x :
  length d ≤ maxlen →
  append maxlen d x = drop (length (d ++ [x]) - maxlen) (d ++ [x]).
Proof.
  intros Hd. unfold append. rewrite length_app. simpl.
  destruct (decide (maxlen = 0)) as [->|Hne].
  - destruct d; simpl in *; [done | lia].
  - destruct (decide (maxlen < length d + 1)) as [Hlt|Hge].
    + replace (length d + 1 - maxlen) with 1 by lia.
      by destruct (d ++ [x]).
    + replace (length d + 1 - maxlen) with 0 by lia. done.
Qed.

Lemma append_length_le maxlen d x :
  length d ≤ maxlen → length (append maxlen d x) ≤ maxlen.
Proof.
  intros Hd. rewrite append_drop by done.
  rewrite length_drop, length_app. simpl. lia.
Qed.

Lemma extend_drop maxlen xs : ∀ d,
  length d ≤ maxlen →
  extend maxlen d xs = drop (length (d ++ xs) - maxlen) (d ++ xs).
Proof.
  unfold extend. induction xs as [|x xs IH]; intros d Hd; simpl.
  - rewrite app_nil_r. replace (length d - maxlen) with 0 by lia. done.
  - rewrite IH by (by apply append_length_le).
    rewrite append_drop by done.
    rewrite <- drop_app_le by lia.
    rewrite drop_drop, <- (assoc_L (++)). simpl.
    f_equal. rewrite length_drop, !length_app. simpl. lia.
Qed.

Lemma extend_length_le maxlen xs d :
  length d ≤ maxlen → length (extend maxlen d xs) ≤ maxlen.
Proof.
  intros Hd. rewrite extend_drop by done. rewrite length_drop. lia.
Qed.

(** C4: a run of appends never takes the queue above its capacity and
    leaves the most recent [maxlen] entries in their order; after one
    append more than the capacity the first entry is gone and the others
    remain. *)
Theorem bounded_queue_evicts_oldest maxlen (entries : list A) :
  length (extend maxlen [] entries) ≤ maxlen
  ∧ extend maxlen [] entries = drop (length entries - maxlen) entries
  ∧ (∀ first rest,
       entries = first :: rest → length rest = maxlen →
       extend maxlen [] entries = rest).
Proof.
  assert (extend maxlen [] entries = drop (length entries - maxlen) entries) as Hd
    by (rewrite extend_drop by (simpl; lia); done).
  split; [|split].
  - apply extend_length_le. simpl. lia.
  - done.
  - intros first rest -> Hlen. rewrite Hd. simpl.
    replace (S (length rest) - maxlen) with 1 by lia. done.
Qed.

End Bounded.

Lemma bounded_queue_evicts_oldest_witness :
  length (tail Fixtures.numbered_entries) = MonitorV2.line_queue_maxlen
  ∧ length (extend MonitorV2.line_queue_maxlen [] Fixtures.numbered_entries)
    ≤ MonitorV2.line_queue_maxlen
  ∧ extend MonitorV2.line_queue_maxlen [] Fixtures.numbered_entries
    = tail Fixtures.numbered_entries.
Proof.
  assert (length (tail Fixtures.numbered_entries) = MonitorV2.line_queue_maxlen)
    as Hlen by (vm_compute; reflexivity).
  destruct (bounded_queue_evicts_oldest MonitorV2.line_queue_maxlen
              Fixtures.numbered_entries) as (Hle & _ & Hevict).
  split; [exact Hlen |]. split; [exact Hle |].
  apply (Hevict (hd {| MonitorV2.content := []; MonitorV2.timestamp := 0;
                       MonitorV2.line_number := 0 |} Fixtures.numbered_entries)).
  - reflexivity.
  - exact Hlen.
Defined.

End DequeProps.


(* ===================================================================== *)
(** ** Properties of the idle monitor and of the queue processor *)
(* ===================================================================== *)

Module MonitorV2Props.
Import Py MonitorV2.

Section WithCollaborators.
Context {re_module : Re.PyRe} {openai_client : OpenAIClient}.

(** The reason the idle monitor flushes with, read off the branches of
    [monitor_activity_body]; [None] when no branch is taken. *)
Definition chosen_reason (m : Monitor) : option ProcessingReason :=
  if (max_context_lines m <=? Z.of_nat (length (line_queue m)))%Z then
    Some CONTEXT_LIMIT
  else if Qle_bool (pause_threshold m) (time_since_activity m)
          && truthy (line_queue m) then
    if is_at_prompt m (content <$> line_queue m) then Some PROMPT_DETECTED
    else Some PAUSE_DETECTED
  else if Qle_bool (dead_threshold m) (time_since_activity m)
          && truthy (line_queue m) then
    Some TIMEOUT
  else None.

Lemma monitor_activity_body_reason m :
  monitor_activity_body m =
  match chosen_reason m with
  | Some reason => process_queue reason m
  | None => (Ok tt, m)
  end.
Proof.
  unfold monitor_activity_body, chosen_reason, mbind, M_bind, get. simpl.
  destruct (max_context_lines m <=? _)%Z; [done |].
  destruct (Qle_bool (pause_threshold m) _); simpl.
  - destruct (truthy (line_queue m)); simpl.
    + by destruct (is_at_prompt m _).
    + by destruct (Qle_bool (dead_threshold m) _).
  - destruct (Qle_bool (dead_threshold m) _); simpl; [|done].
    by destruct (truthy (line_queue m)).
Qed.

(** With the dead threshold at or above the pause threshold, the branch
    that flushes with [TIMEOUT] is never taken. *)
Lemma timeout_unreachable m :
  (pause_threshold m <= dead_threshold m)%Q → chosen_reason m ≠ Some TIMEOUT.
Proof.
  intros Hle. unfold chosen_reason.
  destruct (max_context_lines m <=? _)%Z; [done |].
  destruct (Qle_bool (pause_threshold m) _) eqn:Hp; simpl.
  - destruct (truthy (line_queue m)); simpl.
    + by destruct (is_at_prompt m _).
    + by rewrite andb_false_r.
  - destruct (Qle_bool (dead_threshold m) _) eqn:Hd; simpl; [|done].
    apply Qle_bool_iff in Hd.
    assert (Qle_bool (pause_threshold m) (time_since_activity m) = true) as Hp'
      by (apply Qle_bool_iff; by eapply Qle_trans).
    congruence.
Qed.

(** The most recent line that is not blank. *)
Definition most_recent_nonblank (lines : list pystr) : option pystr :=
  last (filter (λ line, truthy (strip line)) lines).

(** Some prompt pattern matches the most recent line that is not blank. *)
Definition prompt_at_end (m : Monitor) : Prop :=
  ∃ line pattern,
    most_recent_nonblank (content <$> line_queue m) = Some line
    ∧ pattern ∈ prompt_patterns m
    ∧ Re.re_search false pattern line = Some true.

Lemma any_pattern_matches_true patterns line :
  any_pattern_matches patterns line = true ↔
  ∃ pattern, pattern ∈ patterns ∧ Re.re_search false pattern line = Some true.
Proof.
  induction patterns as [|p ps IH]; simpl.
  - split; [done | intros (? & Hin & _); by apply elem_of_nil in Hin].
  - destruct (Re.re_search false p line) as [[]|] eqn:Hs.
    + split; [|done]. intros _. exists p. split; [left | done].
    + rewrite IH. split.
      * intros (q & Hq & Hm). exists q. split; [by right | done].
      * intros (q & Hq & Hm). apply elem_of_cons in Hq as [->|Hq]; [congruence|].
        by exists q.
    + rewrite IH. split.
      * intros (q & Hq & Hm). exists q. split; [by right | done].
      * intros (q & Hq & Hm). apply elem_of_cons in Hq as [->|Hq]; [congruence|].
        by exists q.
Qed.

Lemma is_at_prompt_from_head patterns reversed_lines :
  is_at_prompt_from patterns reversed_lines =
  match head (filter (λ line, truthy (strip line)) reversed_lines) with
  | Some line => any_pattern_matches patterns line
  | None => false
  end.
Proof.
  induction reversed_lines as [|line rest IH]; [done |].
  rewrite filter_cons. simpl. by destruct (truthy (strip line)).
Qed.

Lemma is_at_prompt_true m lines :
  is_at_prompt m lines = true ↔
  ∃ line pattern,
    most_recent_nonblank lines = Some line
    ∧ pattern ∈ prompt_patterns m
    ∧ Re.re_search false pattern line = Some true.
Proof.
  unfold is_at_prompt, most_recent_nonblank.
  rewrite is_at_prompt_from_head, filter_reverse, head_reverse.
  destruct (last _) as [line|].
  - rewrite any_pattern_matches_true. split.
    + intros (p & Hp & Hm). by exists line, p.
    + intros (l & p & [= <-] & Hp & Hm). by exists p.
  - split; [done | by intros (? & ? & ? & _)].
Qed.

(** C10: processing an empty queue does nothing: no outside call, no
    summary, the queue, the history and the counters as they were. *)
Theorem process_queue_empty_noop reason m :
  line_queue m = [] → process_queue reason m = (Ok tt, m).
Proof.
  intros Hq. unfold process_queue, mbind, M_bind, get. simpl. by rewrite Hq.
Qed.

(** C2: once the pause threshold is reached on a queue that is neither
    empty nor at the context limit, the monitor flushes with
    [PROMPT_DETECTED] when a prompt pattern matches the most recent
    non-blank queued line, and with [PAUSE_DETECTED] otherwise. *)
Theorem pause_flush_reason m :
  (pause_threshold m <= time_since_activity m)%Q →
  line_queue m ≠ [] →
  (Z.of_nat (length (line_queue m)) < max_context_lines m)%Z →
  (prompt_at_end m → monitor_activity_body m = process_queue PROMPT_DETECTED m)
  ∧ (¬ prompt_at_end m → monitor_activity_body m = process_queue PAUSE_DETECTED m).
Proof.
  intros Hp Hq Hlen.
  assert (chosen_reason m =
          Some (if is_at_prompt m (content <$> line_queue m)
                then PROMPT_DETECTED else PAUSE_DETECTED)) as Hr.
  { unfold chosen_reason.
    rewrite (proj2 (Z.leb_gt _ _)) by done.
    rewrite (proj2 (Qle_bool_iff _ _)) by done.
    destruct (line_queue m); [done |]. simpl.
    by destruct (is_at_prompt m _). }
  rewrite monitor_activity_body_reason, Hr.
  unfold prompt_at_end. rewrite <- is_at_prompt_true.
  split; intros Hat.
  - by rewrite Hat.
  - by destruct (is_at_prompt m _).
Qed.

(** *** The context of a flush *)

(** The first outside call of a flush is the summarizer's, on
    [flush_context]. *)
Lemma process_queue_summarizes_flush_context reason m :
  line_queue m ≠ [] →
  summarization_provider m = str "openai" →
  ∃ rest,
    effects (process_queue reason m).2 =
    effects m
    ++ OpenAIChat (str "Summarize this terminal activity concisely.")
                  (flush_context m reason (line_queue m)) :: rest.
Proof.
  intros Hq Hprov.
  unfold process_queue, summarize_activity, generate_next_step, openai_chat,
    mbind, M_bind, mret, M_ret, get, emit, modify, raise. simpl.
  destruct (line_queue m) as [|first queue] eqn:Hqueue; [done |]. simpl.
  rewrite (bool_decide_true (summarization_provider m = _)) by done. simpl.
  destruct (chat_completions_create _ _ _) as [text|e]; simpl; [|by eexists].
  destruct (last (first :: queue)) as [final|] eqn:Hlast; simpl; [|by eexists].
  destruct (bool_decide (reason ∈ _)); simpl; [|by eexists].
  destruct (bool_decide (next_step_provider m = _)); simpl.
  - destruct (chat_completions_create _ _ _) as [next|e]; simpl;
      rewrite <- ?(assoc_L (++)); by eexists.
  - rewrite <- ?(assoc_L (++)); by eexists.
Qed.

Lemma slice_from_last {A} (n : Z) (l : list A) :
  (0 < n)%Z → slice_from (- n) l = drop (length l - Z.to_nat n) l.
Proof.
  intros Hn. unfold slice_from.
  rewrite (proj2 (Z.ltb_lt _ _)) by lia. f_equal. lia.
Qed.

(** C5 (as the code has it): the context is rolling exactly when the
    reason is [CONTEXT_LIMIT] and at least one earlier summary exists: with
    two or more, the second-to-last, the last, then the most recent
    [max_context_lines] lines; with exactly one, that summary and the recent
    lines.  Every other flush takes the text of all queued lines. *)
Theorem flush_context_cases m reason lines :
  (0 < max_context_lines m)%Z →
  let recent :=
    join nl (content <$> drop (length lines - Z.to_nat (max_context_lines m)) lines) in
  (∀ older previous final,
     reason = CONTEXT_LIMIT → summaries m = older ++ [previous; final] →
     flush_context m reason lines =
     str "[Previous Summary]: " ++ summary_content previous ++ nl ++ nl
     ++ str "[Last Summary]: " ++ summary_content final ++ nl ++ nl
     ++ str "[Recent Activity]:" ++ nl ++ recent)
  ∧ (∀ only,
     reason = CONTEXT_LIMIT → summaries m = [only] →
     flush_context m reason lines =
     str "[Last Summary]: " ++ summary_content only ++ nl ++ nl
     ++ str "[Recent Activity]:" ++ nl ++ recent)
  ∧ (reason ≠ CONTEXT_LIMIT ∨ summaries m = [] →
     flush_context m reason lines = join nl (content <$> lines)).
Proof.
  intros Hmax recent. unfold flush_context, _build_rolling_context.
  rewrite slice_from_last by done. fold recent.
  split; [|split].
  - intros older previous final -> Hs. rewrite Hs.
    rewrite bool_decide_true by done.
    replace (truthy (older ++ [previous; final])) with true
      by (by destruct older).
    simpl. rewrite bool_decide_true by (rewrite length_app; simpl; lia).
    rewrite reverse_app. simpl.
    rewrite (last_app_cons older [final] previous). simpl.
    by rewrite <- !app_assoc.
  - intros only -> Hs. rewrite Hs. simpl.
    by rewrite <- !app_assoc.
  - intros [Hr | Hs].
    + by rewrite bool_decide_false.
    + rewrite Hs. simpl. by rewrite andb_false_r.
Qed.

(** *** Interactive prompts *)

(** [pattern] is the first question pattern matching [line]. *)
Definition first_question_match (line pattern : pystr) : Prop :=
  ∃ before after,
    question_patterns = before ++ pattern :: after
    ∧ Forall (λ q, Re.re_search true q line = Some false) before
    ∧ Re.re_search true pattern line = Some true.

Lemma detect_in_first_match before pattern after line m :
  Forall (λ q, Re.re_search true q line = Some false) before →
  Re.re_search true pattern line = Some true →
  detect_in (before ++ pattern :: after) line m =
  (Ok (Some {| pattern := pattern; prompt_type := classify_prompt pattern;
               detected_at := clock m; full_line := line |}), m).
Proof.
  intros Hbefore Hmatch. induction Hbefore as [|q before Hq _ IH]; simpl.
  - by rewrite Hmatch.
  - by rewrite Hq.
Qed.

(** The monitor after [stats["prompts_detected"] += 1]. *)
Definition prompt_counted (m : Monitor) : Monitor :=
  set_stats (incr_prompts_detected (stats m)) m.

(** C7 (as the code has it): with automation on, a non-empty answer
    registered for the first matching question pattern is sent to the pane
    and counted, and nothing else is called; with no answer registered (or
    an empty one) the queue is processed with [QUESTION_DETECTED]. *)
Theorem auto_response_or_question m line pattern :
  automation_enabled m = true →
  first_question_match line pattern →
  (∀ response,
     get_auto_response (vault m) pattern = Some response → response ≠ [] →
     handle_interactive_prompt line m =
     (Ok tt,
      set_stats (incr_auto_responses (stats (prompt_counted m)))
        (set_effects (effects m ++ [SendKeys response]) (prompt_counted m))))
  ∧ (get_auto_response (vault m) pattern = None
     ∨ get_auto_response (vault m) pattern = Some [] →
     handle_interactive_prompt line m =
     process_queue QUESTION_DETECTED (prompt_counted m)).
Proof.
  intros Hauto (before & after & Hpatterns & Hbefore & Hmatch).
  unfold handle_interactive_prompt, detect_interactive_prompt.
  rewrite Hpatterns.
  split.
  - intros response Hresp Hne.
    unfold mbind at 1. unfold M_bind at 1.
    rewrite detect_in_first_match by done.
    unfold mbind, M_bind, mret, M_ret, get, emit, modify. simpl.
    rewrite Hauto, Hresp. by destruct response.
  - intros Hresp.
    unfold mbind at 1. unfold M_bind at 1.
    rewrite detect_in_first_match by done.
    unfold mbind, M_bind, mret, M_ret, get, emit, modify. simpl.
    rewrite Hauto. by destruct Hresp as [-> | ->].
Qed.

(** *** Failing collaborators *)

Definition summarize_system : pystr := str "Summarize this terminal activity concisely.".
Definition next_step_system : pystr :=
  str "Suggest the next helpful terminal command based on this summary.".

(** C6 (as the code has it): a pass of the idle monitor never ends in an
    exception.  When the summarizer raises during the flush, the exception
    is logged, no summary is recorded and the queue stays as it was.  When
    the next-step call raises, the summary with the summarizer's own text is
    already recorded and the queue cleared; the exception is logged. *)
Theorem collaborator_failure_is_logged m now reason e :
  let m0 := set_clock now m in
  let context := flush_context m0 reason (line_queue m0) in
  chosen_reason m0 = Some reason →
  line_queue m ≠ [] →
  summarization_provider m = str "openai" →
  (monitor_activity_tick now m).1 = Ok tt
  ∧ (chat_completions_create (effects m) summarize_system context = Raise e →
     monitor_activity_tick now m =
     (Ok tt,
      set_effects (effects m ++ [OpenAIChat summarize_system context;
                                 LoggerError (str "Error in monitor loop") e]) m0))
  ∧ (∀ text first final,
     chat_completions_create (effects m) summarize_system context = Ok text →
     head (line_queue m) = Some first → last (line_queue m) = Some final →
     reason ∈ [PROMPT_DETECTED; TIMEOUT] →
     next_step_provider m = str "openai" →
     chat_completions_create (effects m ++ [OpenAIChat summarize_system context])
       next_step_system text = Raise e →
     monitor_activity_tick now m =
     (Ok tt,
      set_effects (effects m ++ [OpenAIChat summarize_system context;
                                 OpenAIChat next_step_system text;
                                 LoggerError (str "Error in monitor loop") e])
        (set_line_queue []
           (set_stats (incr_summaries_created (stats m))
              (set_summaries
                 (summaries m ++ [{| summary_content := text;
                                     start_line := line_number first;
                                     end_line := line_number final;
                                     summary_timestamp := now;
                                     line_count := length (line_queue m) |}])
                 m0))))).
Proof.
  intros m0 context Hreason Hq Hprov.
  unfold summarize_system, next_step_system.
  assert (monitor_activity_tick now m
          = try_except (process_queue reason) (str "Error in monitor loop") m0) as ->.
  { unfold monitor_activity_tick, mbind, M_bind, modify, try_except. simpl.
    fold m0. by rewrite monitor_activity_body_reason, Hreason. }
  split; [|split].
  - unfold try_except. by destruct (process_queue reason m0) as [[[]|] ?].
  - subst context m0. simpl. intros Hraise.
    unfold try_except, process_queue, summarize_activity, openai_chat,
      mbind, M_bind, mret, M_ret, get, emit, modify, raise. simpl.
    destruct (line_queue m) as [|first queue] eqn:Hqueue; [done |]. simpl.
    rewrite (bool_decide_true (summarization_provider m = _)) by done. simpl.
    rewrite Hraise. simpl. by rewrite <- (assoc_L (++)).
  - subst context m0. simpl.
    intros text first final Hok Hfirst Hfinal Hin Hnext Hraise.
    unfold try_except, process_queue, summarize_activity, generate_next_step,
      openai_chat, mbind, M_bind, mret, M_ret, get, emit, modify, raise.
    simpl.
    destruct (line_queue m) as [|first' queue] eqn:Hqueue; [done |]. simpl.
    rewrite (bool_decide_true (summarization_provider m = _)) by done. simpl.
    rewrite Hok. simpl. simpl in Hfirst. injection Hfirst as ->.
    rewrite Hfinal. simpl.
    rewrite (bool_decide_true (reason ∈ _)) by done. simpl.
    rewrite (bool_decide_true (next_step_provider m = _)) by done. simpl.
    rewrite Hraise. simpl. by rewrite <- !(assoc_L (++)).
Qed.

End WithCollaborators.

Import Fixtures.

Lemma process_queue_empty_noop_witness :
  line_queue (default_monitor empty_vault false) = []
  ∧ process_queue (openai_client := steady_client (str "summary"))
      TIMEOUT (default_monitor empty_vault false)
    = (Ok tt, default_monitor empty_vault false).
Proof.
  split; [reflexivity |]. apply process_queue_empty_noop. reflexivity.
Defined.

(** C1: at 125 s of idle time, with thresholds of 15 s and 120 s and one
    queued line that is no prompt, the pass of the idle monitor takes the
    pause branch, which is tested first: the queue is flushed with
    [PAUSE_DETECTED] (the summarizer is called, no next step is asked for)
    and not with [TIMEOUT]; a [TIMEOUT] flush of the same state would also
    ask for the next step and log the interaction. *)
Theorem idle_125s_flushes_with_pause :
  (pause_threshold idle_125s == 15)%Q ∧ (dead_threshold idle_125s == 120)%Q
  ∧ (time_since_activity idle_125s == 125)%Q
  ∧ content <$> line_queue idle_125s = [str "ls"]
  ∧ chosen_reason (re_module := Re.mini_re) idle_125s = Some PAUSE_DETECTED
  ∧ monitor_activity_body (re_module := Re.mini_re)
      (openai_client := steady_client (str "summary")) idle_125s
    = process_queue (openai_client := steady_client (str "summary"))
        PAUSE_DETECTED idle_125s
  ∧ drop 1 (effects (monitor_activity_body (re_module := Re.mini_re)
                       (openai_client := steady_client (str "summary"))
                       idle_125s).2)
    = [OpenAIChat summarize_system (str "ls")]
  ∧ drop 1 (effects (process_queue (openai_client := steady_client (str "summary"))
                       TIMEOUT idle_125s).2)
    = [OpenAIChat summarize_system (str "ls");
       OpenAIChat next_step_system (str "summary");
       LogInteraction (str "ls") (str "summary") (str "summary")].
Proof.
  split_and!; vm_compute; reflexivity.
Qed.

Lemma pause_flush_reason_witness :
  ((pause_threshold quiet_at_16s == 15)%Q ∧ (dead_threshold quiet_at_16s == 120)%Q
   ∧ (time_since_activity quiet_at_16s == 16)%Q
   ∧ length (line_queue quiet_at_16s) = 1)
  ∧ monitor_activity_body (re_module := Re.mini_re)
      (openai_client := steady_client (str "summary")) quiet_at_16s
    = process_queue (openai_client := steady_client (str "summary"))
        PAUSE_DETECTED quiet_at_16s
  ∧ monitor_activity_body (re_module := Re.mini_re)
      (openai_client := steady_client (str "summary")) prompt_at_16s
    = process_queue (openai_client := steady_client (str "summary"))
        PROMPT_DETECTED prompt_at_16s.
Proof.
  assert ((pause_threshold quiet_at_16s <= time_since_activity quiet_at_16s)%Q)
    as Hq1 by (by vm_compute).
  assert (line_queue quiet_at_16s ≠ []) as Hq2 by (by vm_compute).
  assert (Z.of_nat (length (line_queue quiet_at_16s))
          < max_context_lines quiet_at_16s)%Z as Hq3 by (by vm_compute).
  assert ((pause_threshold prompt_at_16s <= time_since_activity prompt_at_16s)%Q)
    as Hp1 by (by vm_compute).
  assert (line_queue prompt_at_16s ≠ []) as Hp2 by (by vm_compute).
  assert (Z.of_nat (length (line_queue prompt_at_16s))
          < max_context_lines prompt_at_16s)%Z as Hp3 by (by vm_compute).
  destruct (pause_flush_reason (re_module := Re.mini_re)
              (openai_client := steady_client (str "summary"))
              quiet_at_16s Hq1 Hq2 Hq3) as [_ Hquiet].
  destruct (pause_flush_reason (re_module := Re.mini_re)
              (openai_client := steady_client (str "summary"))
              prompt_at_16s Hp1 Hp2 Hp3) as [Hprompt _].
  split; [split_and!; vm_compute; reflexivity |]. split.
  - apply Hquiet.
    intros (line & pattern & Hline & Hin & Hmatch).
    vm_compute in Hline. injection Hline as <-.
    apply list_elem_of_singleton in Hin as ->.
    vm_compute in Hmatch. discriminate.
  - apply Hprompt.
    exists (str "user@host:~$ "), (str "\$ $").
    split; [vm_compute; reflexivity |].
    split; [by left | vm_compute; reflexivity].
Defined.

Lemma flush_context_cases_witness :
  (0 < max_context_lines second_flush_session)%Z
  ∧ flush_context second_flush_session CONTEXT_LIMIT (line_queue second_flush_session)
    = str "[Last Summary]: summary" ++ nl ++ nl
      ++ str "[Recent Activity]:" ++ nl ++ str "b".
Proof.
  assert (0 < max_context_lines second_flush_session)%Z as Hmax by (by vm_compute).
  split; [exact Hmax |].
  destruct (flush_context_cases second_flush_session CONTEXT_LIMIT
              (line_queue second_flush_session) Hmax) as (_ & Hone & _).
  rewrite (Hone {| summary_content := str "summary"; start_line := 0; end_line := 0;
                   summary_timestamp := seconds 1; line_count := 1 |});
    [| reflexivity | vm_compute; reflexivity].
  vm_compute. reflexivity.
Defined.

(** C5, as stated, fails: with a single earlier summary a [CONTEXT_LIMIT]
    flush already takes the rolling context, not the text of the queue. *)
Lemma rolling_context_after_one_summary :
  length (summaries second_flush_session) = 1
  ∧ chosen_reason (re_module := Re.mini_re)
      (set_clock (seconds 3) second_flush_session) = Some CONTEXT_LIMIT
  ∧ flush_context second_flush_session CONTEXT_LIMIT (line_queue second_flush_session)
    = str "[Last Summary]: summary" ++ nl ++ nl
      ++ str "[Recent Activity]:" ++ nl ++ str "b"
  ∧ flush_context second_flush_session CONTEXT_LIMIT (line_queue second_flush_session)
    ≠ join nl (content <$> line_queue second_flush_session).
Proof.
  split_and!; [vm_compute; reflexivity .. |].
  vm_compute. discriminate.
Qed.

Lemma overwrite_is_first_match :
  first_question_match (re_module := Re.mini_re) overwrite_question
    (str "Overwrite.*\?").
Proof.
  exists (take 3 question_patterns), (drop 4 question_patterns).
  split; [reflexivity |]. split; [|vm_compute; reflexivity].
  repeat constructor; vm_compute; reflexivity.
Defined.

Lemma auto_response_or_question_witness :
  automation_enabled (default_monitor overwrite_vault true) = true
  ∧ get_auto_response overwrite_vault (str "Overwrite.*\?") = Some (str "y")
  ∧ handle_interactive_prompt (re_module := Re.mini_re)
      (openai_client := steady_client (str "summary"))
      overwrite_question (default_monitor overwrite_vault true)
    = (Ok tt,
       set_stats
         (incr_auto_responses (stats (prompt_counted (default_monitor overwrite_vault true))))
         (set_effects [SendKeys (str "y")]
            (prompt_counted (default_monitor overwrite_vault true)))).
Proof.
  split; [reflexivity |]. split; [vm_compute; reflexivity |].
  destruct (auto_response_or_question (re_module := Re.mini_re)
              (openai_client := steady_client (str "summary"))
              (default_monitor overwrite_vault true) overwrite_question
              (str "Overwrite.*\?") eq_refl overwrite_is_first_match) as [Hsend _].
  apply (Hsend (str "y")); [vm_compute; reflexivity | vm_compute; discriminate].
Defined.

(** C7, as stated, fails for an answer registered as the empty string:
    nothing is sent, the counter stays at 0, and the summarizer is
    called. *)
Lemma blank_answer_is_not_sent :
  get_auto_response blank_answer_vault (str "Overwrite.*\?") = Some []
  ∧ drop 1 (effects blank_answer_session)
    = [OpenAIChat summarize_system overwrite_question]
  ∧ auto_responses (stats blank_answer_session) = 0%Z
  ∧ prompts_detected (stats blank_answer_session) = 1%Z.
Proof.
  split_and!; vm_compute; reflexivity.
Qed.

Lemma collaborator_failure_is_logged_witness :
  chosen_reason (re_module := Re.mini_re) quiet_at_16s = Some PAUSE_DETECTED
  ∧ monitor_activity_tick (re_module := Re.mini_re)
      (openai_client := failing_client (str "boom"))
      (seconds 16) (one_line_session (str "file1.txt"))
    = (Ok tt,
       set_effects
         (effects (one_line_session (str "file1.txt"))
          ++ [OpenAIChat summarize_system (str "file1.txt");
              LoggerError (str "Error in monitor loop") (ApiError (str "boom"))])
         quiet_at_16s).
Proof.
  assert (chosen_reason (re_module := Re.mini_re) quiet_at_16s
          = Some PAUSE_DETECTED) as Hreason by (vm_compute; reflexivity).
  split; [exact Hreason |].
  destruct (collaborator_failure_is_logged (re_module := Re.mini_re)
              (openai_client := failing_client (str "boom"))
              (one_line_session (str "file1.txt")) (seconds 16) PAUSE_DETECTED
              (ApiError (str "boom")) Hreason)
    as (_ & Hsummary & _).
  - vm_compute. discriminate.
  - vm_compute. reflexivity.
  - rewrite Hsummary by reflexivity.
    vm_compute. reflexivity.
Defined.

(** C6, as stated, fails: after a failed summarizer call there is no
    summary at all, and after a failed next-step call the summary holds the
    summarizer's text; the error only reaches the log. *)
Lemma failed_flush_leaves_no_error_summary :
  summaries failed_summary_session = []
  ∧ content <$> line_queue failed_summary_session = [str "ls"]
  ∧ drop 1 (effects failed_summary_session)
    = [OpenAIChat summarize_system (str "ls");
       LoggerError (str "Error in monitor loop") (ApiError (str "boom"))]
  ∧ summary_content <$> summaries failed_next_step_session = [str "summary"]
  ∧ drop 1 (effects failed_next_step_session)
    = [OpenAIChat summarize_system (str "user@host:~$ ");
       OpenAIChat next_step_system (str "summary");
       LoggerError (str "Error in monitor loop") (ApiError (str "boom"))].
Proof.
  split_and!; vm_compute; reflexivity.
Qed.

End MonitorV2Props.

(* ===================================================================== *)
(** ** Properties of the vault *)
(* ===================================================================== *)

Module VaultProps.
Import Py MonitorV2 Fixtures.

Lemma hex_word_length n x : length (Sha256.hex_word n x) = n.
Proof. induction n as [|n IH]; simpl; [done | by rewrite IH]. Qed.

Lemma hexdigest_length data : length (Sha256.hexdigest data) = 64.
Proof.
  unfold Sha256.hexdigest. cbv zeta.
  rewrite !length_app, !hex_word_length. done.
Qed.

Lemma context_hash_length context h : context_hash context = Ok h → length h = 16.
Proof.
  unfold context_hash. destruct (encode context) as [bytes|]; [|done].
  intros Hh. assert (h = take 16 (Sha256.hexdigest bytes)) as -> by congruence.
  rewrite length_take, hexdigest_length. done.
Qed.

Lemma section_insert (v : vault_data) name d : section (<[name := d]> v) name = d.
Proof. unfold section. by rewrite lookup_insert_eq. Qed.

(** C8 (as the code has it): a password is looked up under the first 16
    hexadecimal digits of the SHA-256 of its context and under nothing
    else; an auto-response is looked up under the pattern itself. *)
Theorem vault_lookup_keys (v : vault_data) :
  (∀ context h,
     context_hash context = Ok h →
     length h = 16
     ∧ get_password v context = Ok (section v (str "passwords") !! h)
     ∧ ∀ k value,
         k ≠ h →
         get_password
           (<[str "passwords" := <[k := value]> (section v (str "passwords"))]> v)
           context
         = get_password v context)
  ∧ (∀ pattern,
       get_auto_response v pattern = section v (str "auto_responses") !! pattern)
  ∧ (∀ pattern response,
       get_auto_response (add_auto_response v pattern response) pattern
       = Some response).
Proof.
  split; [|split].
  - intros context h Hh. split; [by eapply context_hash_length |].
    unfold get_password. rewrite Hh. split; [done |].
    intros k value Hk. by rewrite section_insert, lookup_insert_ne.
  - done.
  - intros pattern response. unfold get_auto_response, add_auto_response.
    by rewrite section_insert, lookup_insert_eq.
Qed.

Lemma vault_lookup_keys_witness :
  context_hash (str "prod-db" ++ [10095%N]) = Ok (str "808efea181bd8a02")
  ∧ get_password empty_vault (str "prod-db" ++ [10095%N])
    = Ok (section empty_vault (str "passwords") !! str "808efea181bd8a02").
Proof.
  assert (context_hash (str "prod-db" ++ [10095%N]) = Ok (str "808efea181bd8a02"))
    as Hh by (vm_compute; reflexivity).
  split; [exact Hh |].
  destruct (vault_lookup_keys empty_vault) as [Hpw _].
  destruct (Hpw _ _ Hh) as (_ & Hget & _). exact Hget.
Defined.

(** C8, as stated, fails for auto-responses: the answer stored under the
    pattern is found, and one stored under the hash of the pattern is
    not. *)
Lemma auto_response_key_is_plaintext :
  context_hash (str "Overwrite.*\?") = Ok (str "d3397069a1600c8b")
  ∧ get_auto_response overwrite_vault (str "Overwrite.*\?") = Some (str "y")
  ∧ section overwrite_vault (str "auto_responses") !! str "d3397069a1600c8b" = None
  ∧ section hashed_key_vault (str "auto_responses") !! str "d3397069a1600c8b"
    = Some (str "y")
  ∧ get_auto_response hashed_key_vault (str "Overwrite.*\?") = None.
Proof.
  split_and!; vm_compute; reflexivity.
Qed.

End VaultProps.

(* ===================================================================== *)
(** ** Line numbers over a run *)
(* ===================================================================== *)

Module NumberingProps.
Import Py MonitorV2 Fixtures.

Section WithCollaborators.
Context {re_module : Re.PyRe} {openai_client : OpenAIClient}.

(** A method keeps the numbering when it appends no entry and leaves the
    snapshot of the capture loop alone; the queue it leaves as it was or
    empties. *)
Definition keeps {A} (c : M A) : Prop :=
  ∀ m, appended (c m).2 = appended m
       ∧ last_content (c m).2 = last_content m
       ∧ (line_queue (c m).2 = line_queue m ∨ line_queue (c m).2 = []).

Lemma keeps_ret {A} (a : A) : keeps (mret a).
Proof. intros m. simpl. auto. Qed.

Lemma keeps_get : keeps get.
Proof. intros m. simpl. auto. Qed.

Lemma keeps_raise {A} e : keeps (raise (A := A) e).
Proof. intros m. simpl. auto. Qed.

Lemma keeps_bind {A B} (c : M A) (k : A → M B) :
  keeps c → (∀ a, keeps (k a)) → keeps (c ≫= k).
Proof.
  intros Hc Hk m. unfold mbind, M_bind.
  destruct (Hc m) as (Hca & Hcl & Hcq).
  destruct (c m) as [[a|e] m1]; simpl in *; [|done].
  destruct (Hk a m1) as (Ha & Hl & Hq).
  split_and!; [congruence | congruence |].
  destruct Hq as [Hq|Hq]; [|by right]. rewrite Hq. done.
Qed.

Lemma keeps_modify f :
  (∀ m, effects (f m) = effects m ∧ last_content (f m) = last_content m
        ∧ (line_queue (f m) = line_queue m ∨ line_queue (f m) = [])) →
  keeps (modify f).
Proof.
  intros Hf m. destruct (Hf m) as (He & Hl & Hq).
  unfold appended, modify. simpl. by rewrite He.
Qed.

Lemma keeps_emit e : (∀ entry, e ≠ Appended entry) → keeps (emit e).
Proof.
  intros He m. unfold appended, emit, modify. simpl.
  rewrite omap_app. simpl. split_and!; [| done | by left].
  destruct e; try by rewrite app_nil_r. by destruct (He entry).
Qed.

Lemma keeps_try_except body message : keeps body → keeps (try_except body message).
Proof.
  intros Hb m. unfold try_except. destruct (Hb m) as (Hba & Hbl & Hbq).
  destruct (body m) as [[[]|e] m1]; simpl in *; [done |].
  destruct (keeps_emit (LoggerError message e) ltac:(done) m1) as (Ha & Hl & _).
  unfold emit, modify in Ha, Hl. simpl in Ha, Hl.
  split_and!; [congruence | congruence | done].
Qed.

Create HintDb keeps discriminated.
Hint Resolve keeps_ret keeps_get keeps_raise : keeps.

(** One step through a method: a bind, a primitive, or a case split. *)
Ltac keeps_step :=
  first
    [ apply keeps_bind; [|intros ?]
    | apply keeps_try_except
    | apply keeps_modify; intros ?;
      split_and!; [reflexivity | reflexivity | (by left) || (by right)]
    | apply keeps_emit; intros ?; discriminate
    | solve [eauto with keeps]
    | match goal with
      | |- keeps (if ?b then _ else _) => destruct b
      | |- keeps (match ?x with _ => _ end) => destruct x
      end ].

Lemma keeps_openai_chat system user : keeps (openai_chat system user).
Proof. unfold openai_chat. repeat keeps_step. Qed.
Hint Resolve keeps_openai_chat : keeps.

Lemma keeps_summarize_activity activity : keeps (summarize_activity activity).
Proof. unfold summarize_activity. repeat keeps_step. Qed.

Lemma keeps_generate_next_step summary : keeps (generate_next_step summary).
Proof. unfold generate_next_step. repeat keeps_step. Qed.
Hint Resolve keeps_summarize_activity keeps_generate_next_step : keeps.

(** A flush, which clears the queue, keeps the numbering. *)
Lemma keeps_process_queue reason : keeps (process_queue reason).
Proof. unfold process_queue. cbv zeta. repeat keeps_step. Qed.
Hint Resolve keeps_process_queue : keeps.

Lemma keeps_detect_in patterns line : keeps (detect_in patterns line).
Proof.
  induction patterns as [|pattern rest IH]; simpl; repeat keeps_step.
Qed.

Lemma keeps_detect_interactive_prompt line : keeps (detect_interactive_prompt line).
Proof. apply keeps_detect_in. Qed.
Hint Resolve keeps_detect_interactive_prompt : keeps.

Lemma keeps_handle_interactive_prompt line : keeps (handle_interactive_prompt line).
Proof. unfold handle_interactive_prompt. repeat keeps_step. Qed.
Hint Resolve keeps_handle_interactive_prompt : keeps.

Lemma keeps_monitor_activity_tick now : keeps (monitor_activity_tick now).
Proof.
  unfold monitor_activity_tick, monitor_activity_body. repeat keeps_step.
Qed.

(** The line numbers handed out so far, oldest first. *)
Definition numbers (m : Monitor) : list nat := line_number <$> appended m.

(** A completed loop over the new lines numbers them from [base + i]. *)
Lemma capture_new_lines_ok base new_lines : ∀ i m m',
  capture_new_lines base i new_lines m = (Ok tt, m') →
  numbers m' = numbers m ++ seq (base + i) (length new_lines)
  ∧ last_content m' = last_content m.
Proof.
  induction new_lines as [|line rest IH]; intros i m m'; simpl.
  - intros [= <-]. by rewrite app_nil_r.
  - unfold mbind at 1 2 3 4. unfold M_bind at 1 2 3 4.
    unfold get, modify at 1 2, emit, modify. cbv zeta. simpl.
    set (entry := {| content := line; timestamp := clock m;
                     line_number := base + i |}).
    set (m1 := set_last_activity_time _ _).
    assert (numbers m1 = numbers m ++ [base + i]
            ∧ last_content m1 = last_content m) as [Hn1 Hl1].
    { unfold numbers, appended, m1. simpl.
      by rewrite omap_app, fmap_app. }
    intros Hrun. unfold mbind, M_bind in Hrun.
    destruct (keeps_detect_interactive_prompt line m1) as (Ha2 & Hl2 & _).
    destruct (detect_interactive_prompt line m1) as [[prompt|e] m2];
      simpl in *; [|done].
    assert (∃ m3, (if prompt is Some _ then handle_interactive_prompt line
                   else mret tt) m2 = (Ok tt, m3)
                  ∧ capture_new_lines base (S i) rest m3 = (Ok tt, m'))
      as (m3 & Hhandle & Hrest).
    { destruct ((if prompt is Some _ then handle_interactive_prompt line
                 else mret tt) m2) as [[[]|e] m3]; [by eexists | done]. }
    assert (appended m3 = appended m2 ∧ last_content m3 = last_content m2)
      as [Ha3 Hl3].
    { destruct prompt.
      - destruct (keeps_handle_interactive_prompt line m2) as (Ha & Hl & _).
        rewrite Hhandle in Ha, Hl. done.
      - by injection Hhandle as <-. }
    destruct (IH _ _ _ Hrest) as [Hn Hl].
    split; [|congruence].
    rewrite Hn. unfold numbers in *. rewrite Ha3, Ha2, Hn1.
    rewrite <- (assoc_L (++)). simpl. do 3 f_equal. lia.
Qed.

(** The pass over one snapshot, when it runs to its end. *)
Lemma capture_body_ok current_content m m' :
  capture_body current_content m = (Ok tt, m') →
  numbers m' =
    numbers m ++ seq (length (last_content m))
                     (length current_content - length (last_content m))
  ∧ last_content m' = current_content.
Proof.
  unfold capture_body. unfold mbind at 1. unfold M_bind at 1, get at 1.
  cbv zeta. unfold mbind at 1. unfold M_bind at 1.
  case_bool_decide as Hlt.
  - destruct (capture_new_lines _ _ _ m) as [[[]|e] m1] eqn:Hloop; [|done].
    intros [= <-]. apply capture_new_lines_ok in Hloop as [Hn Hl].
    rewrite length_drop, Nat.add_0_r in Hn. done.
  - replace (length current_content - length (last_content m)) with 0 by lia.
    rewrite app_nil_r.
    case_bool_decide.
    + intros [= <-]. unfold numbers, appended. simpl.
      rewrite omap_app. simpl. by rewrite app_nil_r.
    + by intros [= <-].
Qed.

(** The lengths of the snapshots a run sees. *)
Definition pane_lengths (ticks : list Tick) : list nat :=
  omap (λ t, if t is Capture _ current_content
             then Some (length current_content) else None) ticks.

(** No pass of the capture loop is cut short by an exception. *)
Fixpoint uninterrupted (ticks : list Tick) (m : Monitor) : Prop :=
  match ticks with
  | [] => True
  | t :: rest =>
      (if t is Capture now current_content
       then (capture_body current_content (set_clock now m)).1 = Ok tt
       else True)
      ∧ uninterrupted rest (tick t m).2
  end.

(** Every number handed out is below the length of the last snapshot, and
    the numbers increase. *)
Definition numbered (m : Monitor) : Prop :=
  StronglySorted lt (numbers m)
  ∧ Forall (λ n, n < length (last_content m)) (numbers m).

Lemma seq_increasing start len : StronglySorted lt (seq start len).
Proof.
  revert start. induction len as [|len IH]; intros start; simpl.
  - constructor.
  - constructor; [apply IH |].
    apply Forall_seq. intros j Hj. lia.
Qed.

Lemma numbered_tick t m :
  numbered m →
  (if t is Capture now current_content
   then length (last_content m) ≤ length current_content
        ∧ (capture_body current_content (set_clock now m)).1 = Ok tt
   else True) →
  numbered (tick t m).2.
Proof.
  intros [Hsorted Hbelow] Ht. destruct t as [now current_content | now]; simpl.
  - destruct Ht as [Hgrow Hok].
    unfold capture_tick, mbind, M_bind, modify, try_except. simpl.
    destruct (capture_body current_content (set_clock now m)) as [[[]|e] m1]
      eqn:Hbody; [|done].
    apply capture_body_ok in Hbody as [Hn Hl]. simpl in Hn.
    change (numbers (set_clock now m)) with (numbers m) in Hn.
    unfold numbered. simpl. rewrite Hn, Hl. split.
    + apply StronglySorted_app_2; [| done | apply seq_increasing].
      intros x1 x2 Hx1 Hx2. apply elem_of_seq in Hx2.
      rewrite Forall_forall in Hbelow. specialize (Hbelow _ Hx1). lia.
    + apply Forall_app. split.
      * eapply Forall_impl; [exact Hbelow |]. simpl. lia.
      * apply Forall_seq. intros j Hj. lia.
  - destruct (keeps_monitor_activity_tick now m) as (Ha & Hl & _).
    unfold numbered, numbers. by rewrite Ha, Hl.
Qed.

Lemma numbered_run ticks : ∀ m,
  numbered m →
  StronglySorted le (length (last_content m) :: pane_lengths ticks) →
  uninterrupted ticks m →
  numbered (run ticks m).
Proof.
  induction ticks as [|t rest IH]; intros m Hm Hgrow Hclean; [done |].
  destruct Hclean as [Ht Hrest].
  change (run (t :: rest) m) with (run rest (tick t m).2).
  apply StronglySorted_inv in Hgrow as [Hlengths Hfirst].
  apply IH; [| | done].
  - apply numbered_tick; [done |].
    destruct t; [|done]. split; [|done].
    simpl in Hfirst. by apply Forall_cons_1 in Hfirst as [? _].
  - destruct t as [now current_content | now]; simpl in *.
    + unfold capture_tick, mbind, M_bind, modify, try_except. simpl.
      destruct (capture_body current_content (set_clock now m)) as [[[]|e] m1]
        eqn:Hbody; [|done].
      apply capture_body_ok in Hbody as [_ Hl]. simpl. rewrite Hl. done.
    + destruct (keeps_monitor_activity_tick now m) as (_ & Hl & _). rewrite Hl.
      by constructor.
Qed.

(** The queue of the monitor holds at most [line_queue_maxlen] entries,
    whatever the passes. *)
Definition within_capacity (m : Monitor) : Prop :=
  length (line_queue m) ≤ line_queue_maxlen.

Lemma keeps_within_capacity {A} (c : M A) m :
  keeps c → within_capacity m → within_capacity (c m).2.
Proof.
  intros Hc Hm. destruct (Hc m) as (_ & _ & [Hq|Hq]);
    unfold within_capacity; rewrite Hq; [done | simpl; lia].
Qed.

Lemma capture_new_lines_within_capacity base new_lines : ∀ i m,
  within_capacity m → within_capacity (capture_new_lines base i new_lines m).2.
Proof.
  induction new_lines as [|line rest IH]; intros i m Hm; [done |].
  simpl. unfold mbind at 1 2 3 4. unfold M_bind at 1 2 3 4.
  unfold get, modify at 1 2, emit, modify. cbv zeta. simpl.
  set (m1 := set_last_activity_time _ _).
  assert (within_capacity m1) as Hm1
    by (by apply DequeProps.append_length_le).
  unfold mbind, M_bind.
  pose proof (keeps_within_capacity _ m1
                (keeps_detect_interactive_prompt line) Hm1) as Hm2.
  destruct (detect_interactive_prompt line m1) as [[prompt|e] m2]; [|done].
  simpl in Hm2.
  assert (within_capacity
            ((if prompt is Some _ then handle_interactive_prompt line
              else mret tt) m2).2) as Hm3.
  { destruct prompt; [|done].
    by apply keeps_within_capacity; [apply keeps_handle_interactive_prompt |]. }
  destruct ((if prompt is Some _ then handle_interactive_prompt line
             else mret tt) m2) as [[[]|e] m3]; [|done].
  by apply IH.
Qed.

Lemma tick_within_capacity t m :
  within_capacity m → within_capacity (tick t m).2.
Proof.
  intros Hm. destruct t as [now current_content | now]; simpl.
  - unfold capture_tick, capture_body, try_except, mbind, M_bind, modify, get.
    simpl. case_bool_decide.
    + pose proof (capture_new_lines_within_capacity
                    (length (last_content m)) (drop (length (last_content m))
                                                    current_content)
                    0 (set_clock now m) Hm) as Hloop.
      by destruct (capture_new_lines _ _ _ _) as [[[]|e] m1].
    + by case_bool_decide.
  - by apply keeps_within_capacity; [apply keeps_monitor_activity_tick |].
Qed.

Lemma run_within_capacity ticks : ∀ m,
  within_capacity m → within_capacity (run ticks m).
Proof.
  induction ticks as [|t rest IH]; intros m Hm; [done |].
  apply (IH (tick t m).2). by apply tick_within_capacity.
Qed.

(** C3 (as the code has it): a line number is the position of the line in
    the snapshot of the pane.  Over a run of capture passes and idle passes
    (whose flushes clear the queue) in which the pane never gets shorter and
    no capture pass is cut short by an exception, every entry appended later
    has a larger line number than every entry appended before; a flush
    changes neither the numbers handed out nor the snapshot that the next
    ones are counted from. *)
Theorem line_numbers_increase_while_pane_grows ticks m :
  numbers m = [] → last_content m = [] →
  StronglySorted le (pane_lengths ticks) →
  uninterrupted ticks m →
  StronglySorted lt (numbers (run ticks m))
  ∧ ∀ reason m',
      numbers (process_queue reason m').2 = numbers m'
      ∧ last_content (process_queue reason m').2 = last_content m'.
Proof.
  intros Hnone Hlast Hgrow Hclean. split.
  - apply numbered_run; [| | done].
    + unfold numbered. rewrite Hnone. split; constructor.
    + rewrite Hlast. constructor; [done |].
      apply Forall_forall. intros n _. simpl. lia.
  - intros reason m'. destruct (keeps_process_queue reason m') as (Ha & Hl & _).
    unfold numbers. by rewrite Ha.
Qed.

End WithCollaborators.

Lemma line_numbers_increase_while_pane_grows_witness :
  StronglySorted le (pane_lengths growing_pane_ticks)
  ∧ numbers (run (re_module := Re.mini_re)
               (openai_client := steady_client (str "summary"))
               growing_pane_ticks (default_monitor empty_vault false))
    = [0; 1; 2]
  ∧ StronglySorted lt
      (numbers (run (re_module := Re.mini_re)
                  (openai_client := steady_client (str "summary"))
                  growing_pane_ticks (default_monitor empty_vault false))).
Proof.
  assert (StronglySorted le (pane_lengths growing_pane_ticks)) as Hgrow.
  { vm_compute. repeat constructor. }
  split; [exact Hgrow |]. split; [vm_compute; reflexivity |].
  apply (line_numbers_increase_while_pane_grows (re_module := Re.mini_re)
           (openai_client := steady_client (str "summary"))
           growing_pane_ticks (default_monitor empty_vault false)
           eq_refl eq_refl Hgrow).
  vm_compute. repeat split.
Defined.

(** C3, as stated, fails: when the pane is cleared and fills again, the
    numbers start over from the length of the shorter snapshot. *)
Lemma line_numbers_restart_after_clear :
  numbers (run (re_module := Re.mini_re)
             (openai_client := steady_client (str "summary"))
             cleared_pane_ticks (default_monitor empty_vault false))
  = [0; 1; 2; 1]
  ∧ ¬ StronglySorted lt
        (numbers (run (re_module := Re.mini_re)
                    (openai_client := steady_client (str "summary"))
                    cleared_pane_ticks (default_monitor empty_vault false))).
Proof.
  assert (numbers (run (re_module := Re.mini_re)
                     (openai_client := steady_client (str "summary"))
                     cleared_pane_ticks (default_monitor empty_vault false))
          = [0; 1; 2; 1]) as Hn by (vm_compute; reflexivity).
  split; [exact Hn |]. rewrite Hn. intros Hsorted.
  apply StronglySorted_inv in Hsorted as [Hsorted _].
  apply StronglySorted_inv in Hsorted as [Hsorted _].
  apply StronglySorted_inv in Hsorted as [_ Hlt].
  apply Forall_cons_1 in Hlt as [Hlt _]. lia.
Qed.

(** Why the passes have to run to their end: a pass cut short by an
    exception does not record the snapshot, so the next pass reads the same
    lines again under the same numbers. *)
Example interrupted_pass_repeats_numbers :
  numbers (run (re_module := Re.mini_re)
             (openai_client := failing_client (str "boom"))
             unanswered_question_ticks (default_monitor empty_vault true))
  = [0; 0]
  ∧ ¬ uninterrupted (re_module := Re.mini_re)
        (openai_client := failing_client (str "boom"))
        unanswered_question_ticks (default_monitor empty_vault true).
Proof.
  split; [vm_compute; reflexivity |].
  intros [Hfirst _]. vm_compute in Hfirst. discriminate.
Qed.

End NumberingProps.

(* ===================================================================== *)
(** ** The learning heuristic *)
(* ===================================================================== *)

Module LearningProps.
Import Py MonitorV1 Fixtures.

(** What the loops compute, said with list functions: the ten most recent
    lines that are not blank, their endings that pass the two tests, and
    how often an ending occurs among them. *)
Definition recent_lines (lines : list pystr) : list pystr :=
  take 10 (filter (λ line, truthy (strip line)) (reverse lines)).

Definition candidate_endings (lines : list pystr) : list pystr :=
  filter (λ ending, is_candidate ending) (ending_of <$> recent_lines lines).

Definition occurrences (ending : pystr) (lines : list pystr) : nat :=
  length (filter (λ e, e = ending) (candidate_endings lines)).

Lemma collect_recent_take reversed_lines : ∀ recent,
  length recent < 10 →
  collect_recent recent reversed_lines =
  recent ++ take (10 - length recent)
                 (filter (λ line, truthy (strip line)) reversed_lines).
Proof.
  induction reversed_lines as [|line rest IH]; intros recent Hlen; simpl.
  - by rewrite filter_nil, take_nil, app_nil_r.
  - rewrite filter_cons. simpl. destruct (truthy (strip line)); simpl.
    + rewrite length_app. simpl. case_bool_decide as Hfull.
      * replace (10 - length recent) with 1 by lia. done.
      * rewrite IH by (rewrite length_app; simpl; lia).
        rewrite length_app, <- (assoc_L (++)). simpl.
        replace (10 - length recent) with (S (10 - (length recent + 1))) by lia.
        done.
    + by apply IH.
Qed.

Lemma collect_recent_recent_lines lines :
  collect_recent [] (reverse lines) = recent_lines lines.
Proof. by rewrite collect_recent_take by (simpl; lia). Qed.

(** The count a dictionary holds for an ending (0 when absent). *)
Fixpoint tally_get (ending : pystr) (d : list (pystr * nat)) : nat :=
  match d with
  | [] => 0
  | (k, n) :: rest => if bool_decide (k = ending) then n else tally_get ending rest
  end.

Lemma tally_get_bump e e' d :
  tally_get e (bump e' d) =
  if bool_decide (e' = e) then S (tally_get e d) else tally_get e d.
Proof.
  induction d as [|[k n] rest IH]; simpl.
  - done.
  - destruct (decide (k = e')) as [->|Hne].
    + rewrite bool_decide_true by done. simpl. by case_bool_decide.
    + rewrite (bool_decide_false (k = e')) by done. simpl. rewrite IH.
      repeat case_bool_decide; congruence.
Qed.

Lemma bump_keys e d :
  (bump e d).*1 = if bool_decide (e ∈ d.*1) then d.*1 else d.*1 ++ [e].
Proof.
  induction d as [|[k n] rest IH]; [done |].
  cbn [bump]. destruct (decide (k = e)) as [->|Hne].
  - rewrite bool_decide_true by done. rewrite !fmap_cons. cbn [fst].
    by rewrite bool_decide_true by (by left).
  - rewrite (bool_decide_false (k = e)) by done.
    rewrite !fmap_cons, IH. cbn [fst].
    destruct (decide (e ∈ rest.*1)) as [Hin|Hin].
    + rewrite (bool_decide_true (e ∈ rest.*1)) by done.
      by rewrite bool_decide_true by (by right).
    + rewrite (bool_decide_false (e ∈ rest.*1)) by done.
      rewrite bool_decide_false; [done |].
      intros Hin'. apply elem_of_cons in Hin' as [?|?]; congruence.
Qed.

Lemma bump_NoDup e d : NoDup d.*1 → NoDup (bump e d).*1.
Proof.
  intros Hd. rewrite bump_keys. case_bool_decide as Hin; [done |].
  apply NoDup_app. split; [done |]. split; [|apply NoDup_singleton].
  intros x Hx Hx'. apply list_elem_of_singleton in Hx' as ->. done.
Qed.

Lemma bump_positive e d :
  Forall (λ kv, 0 < kv.2) d → Forall (λ kv, 0 < kv.2) (bump e d).
Proof.
  induction 1 as [|[k n] rest Hn Hrest IH]; simpl.
  - repeat constructor.
  - case_bool_decide; constructor; simpl in *; try done; lia.
Qed.

(** The dictionary of the second loop, from the empty one. *)
Definition count_from (d : list (pystr * nat)) (recent : list pystr) : list (pystr * nat) :=
  fold_left (λ line_endings line,
               let ending := ending_of line in
               if is_candidate ending then bump ending line_endings
               else line_endings)
            recent d.

Lemma count_from_get e recent : ∀ d,
  tally_get e (count_from d recent) =
  tally_get e d
  + length (filter (λ x, x = e)
              (filter (λ ending, is_candidate ending) (ending_of <$> recent))).
Proof.
  induction recent as [|line rest IH]; intros d.
  { simpl. lia. }
  unfold count_from in *. rewrite fmap_cons. cbn [fold_left]. rewrite IH.
  rewrite (filter_cons _ (ending_of line)). cbv zeta.
  destruct (is_candidate (ending_of line)); simpl; [|done].
  rewrite tally_get_bump, filter_cons.
  destruct (decide (ending_of line = e)) as [Heq|Hne].
  - rewrite bool_decide_true by done. simpl. lia.
  - by rewrite bool_decide_false by done.
Qed.

Lemma count_from_wf recent : ∀ d,
  NoDup d.*1 → Forall (λ kv, 0 < kv.2) d →
  NoDup (count_from d recent).*1 ∧ Forall (λ kv, 0 < kv.2) (count_from d recent).
Proof.
  induction recent as [|line rest IH]; intros d Hnd Hpos; [done |].
  unfold count_from in *. simpl.
  destruct (is_candidate (ending_of line)); [|by apply IH].
  apply IH; [by apply bump_NoDup | by apply bump_positive].
Qed.

Lemma tally_get_elem_of k n d :
  NoDup d.*1 → (k, n) ∈ d → tally_get k d = n.
Proof.
  induction d as [|[k' n'] rest IH]; simpl; intros Hnd Hin.
  - by apply elem_of_nil in Hin.
  - apply NoDup_cons in Hnd as [Hk' Hnd].
    apply elem_of_cons in Hin as [[= <- <-]|Hin].
    + by rewrite bool_decide_true.
    + rewrite bool_decide_false; [by apply IH |].
      intros ->. apply Hk'. apply list_elem_of_fmap. by exists (k, n).
Qed.

Lemma tally_get_positive_elem_of k d :
  0 < tally_get k d → (k, tally_get k d) ∈ d.
Proof.
  induction d as [|[k' n'] rest IH]; simpl; [lia |].
  case_bool_decide as Hk; intros Hpos.
  - subst. by left.
  - right. by apply IH.
Qed.

Lemma count_endings_occurrences lines e :
  tally_get e (count_endings (recent_lines lines)) = occurrences e lines.
Proof.
  change (count_endings (recent_lines lines))
    with (count_from [] (recent_lines lines)).
  by rewrite count_from_get.
Qed.

Lemma count_endings_elem_of lines k n :
  (k, n) ∈ count_endings (recent_lines lines) → n = occurrences k lines ∧ 0 < n.
Proof.
  intros Hin.
  destruct (count_from_wf (recent_lines lines) [] (NoDup_nil_2) (Forall_nil_2 _))
    as [Hnd Hpos].
  change (count_from [] (recent_lines lines))
    with (count_endings (recent_lines lines)) in Hnd, Hpos.
  split.
  - rewrite <- count_endings_occurrences. symmetry. by apply tally_get_elem_of.
  - rewrite Forall_forall in Hpos. by apply (Hpos (k, n)).
Qed.

(** The sort is a rearrangement, and its first item has the largest
    count. *)
Lemma insert_desc_perm x l : insert_desc x l ≡ₚ x :: l.
Proof.
  induction l as [|y l IH]; simpl; [done |].
  case_bool_decide; [|done]. rewrite IH. apply Permutation_swap.
Qed.

Lemma sorted_desc_perm l : sorted_desc l ≡ₚ l.
Proof.
  induction l as [|x l IH]; simpl; [done |].
  by rewrite insert_desc_perm, IH.
Qed.

Definition head_is_largest (l : list (pystr * nat)) : Prop :=
  match l with
  | [] => True
  | x :: rest => Forall (λ y, y.2 ≤ x.2) rest
  end.

Lemma insert_desc_head x l : head_is_largest l → head_is_largest (insert_desc x l).
Proof.
  destruct l as [|y l]; simpl; [by constructor |].
  intros Hy. case_bool_decide as Hlt; simpl.
  - rewrite insert_desc_perm. constructor; [lia | done].
  - constructor; [lia |]. eapply Forall_impl; [exact Hy |]. simpl. lia.
Qed.

Lemma sorted_desc_head l : head_is_largest (sorted_desc l).
Proof.
  induction l as [|x l IH]; simpl; [done |]. by apply insert_desc_head.
Qed.

Section WithRe.
Context {re_module : Re.PyRe}.

Lemma learned_pattern_nonempty ending : learned_pattern ending ≠ [].
Proof.
  unfold learned_pattern.
  replace (str "\s*$") with [92; 115; 42; 36]%N by reflexivity.
  by destruct (Re.escape ending).
Qed.

(** Whatever the heuristic returns comes from an ending that passed the
    tests at least three times and is not known yet. *)
Lemma analyze_sound m lines pattern :
  analyze_for_prompt_pattern m lines = Some pattern →
  ∃ ending,
    pattern = learned_pattern ending
    ∧ 3 ≤ occurrences ending lines
    ∧ (pattern ∉ prompt_patterns m) ∧ (pattern ∉ learned_prompts m)
    ∧ Re.re_compile pattern = true.
Proof.
  unfold analyze_for_prompt_pattern.
  destruct (prompt_learning_enabled m); simpl; [|done].
  rewrite collect_recent_recent_lines.
  assert (∀ items,
            (∀ k n, (k, n) ∈ items → n = occurrences k lines) →
            first_new_pattern m items = Some pattern →
            ∃ ending, pattern = learned_pattern ending
                      ∧ 3 ≤ occurrences ending lines
                      ∧ (pattern ∉ prompt_patterns m)
                      ∧ (pattern ∉ learned_prompts m)
                      ∧ Re.re_compile pattern = true) as Hloop.
  { induction items as [|[k n] rest IH]; intros Hitems; simpl; [done |].
    assert (∀ k' n', (k', n') ∈ rest → n' = occurrences k' lines) as Hrest
      by (intros ???; apply Hitems; by right).
    case_bool_decide as Hn; [|by apply IH].
    destruct (bool_decide (learned_pattern k ∉ prompt_patterns m)) eqn:Hp;
      simpl; [|by apply IH].
    destruct (bool_decide (learned_pattern k ∉ learned_prompts m)) eqn:Hl;
      simpl; [|by apply IH].
    destruct (Re.re_compile (learned_pattern k)) eqn:Hc; [|by apply IH].
    intros [= <-]. exists k.
    apply bool_decide_eq_true in Hp, Hl.
    rewrite <- (Hitems k n) by (by left). done. }
  apply Hloop. intros k n Hin.
  rewrite sorted_desc_perm in Hin.
  by apply count_endings_elem_of in Hin as [-> _].
Qed.

(** C9 (as the code has it): over the ten most recent non-blank lines,
    the ending of a line is its last 20 characters without the surrounding
    blanks, counted when it is 1 to 14 characters long and holds a prompt
    indicator.  When one ending occurs at least 3 times and more often than
    every other, and its pattern is not known yet and compiles, the
    heuristic returns that pattern, the escaped ending followed by [\s*$];
    away from a prompt the pass adds it once to the prompt patterns and to
    the learned set. *)
Theorem learning_proposes_most_frequent_ending m lines ending :
  prompt_learning_enabled m = true →
  3 ≤ occurrences ending lines →
  (∀ other, other ≠ ending → occurrences other lines < occurrences ending lines) →
  learned_pattern ending ∉ prompt_patterns m →
  learned_pattern ending ∉ learned_prompts m →
  Re.re_compile (learned_pattern ending) = true →
  analyze_for_prompt_pattern m lines = Some (learned_pattern ending)
  ∧ (is_at_prompt m lines = false →
     prompt_patterns (learning_pass lines m)
     = prompt_patterns m ++ [learned_pattern ending]
     ∧ learned_prompts (learning_pass lines m)
       = {[learned_pattern ending]} ∪ learned_prompts m).
Proof.
  intros Hon Hocc Hmost Hnew1 Hnew2 Hcompiles.
  assert (analyze_for_prompt_pattern m lines = Some (learned_pattern ending))
    as Hanalyze.
  { unfold analyze_for_prompt_pattern. rewrite Hon. simpl.
    rewrite collect_recent_recent_lines.
    set (d := count_endings (recent_lines lines)).
    assert ((ending, occurrences ending lines) ∈ sorted_desc d) as Hin.
    { rewrite sorted_desc_perm. unfold d.
      rewrite <- count_endings_occurrences.
      apply tally_get_positive_elem_of.
      rewrite count_endings_occurrences. lia. }
    pose proof (sorted_desc_head d) as Hhead.
    destruct (sorted_desc d) as [|[k n] rest] eqn:Hsorted;
      [by apply elem_of_nil in Hin |].
    assert ((k, n) ∈ d) as Hkn
      by (rewrite <- (sorted_desc_perm d), Hsorted; by left).
    apply count_endings_elem_of in Hkn as [Hn _].
    assert (k = ending) as ->.
    { destruct (decide (k = ending)) as [|Hne]; [done |].
      specialize (Hmost k Hne).
      apply elem_of_cons in Hin as [[= ? ?]|Hin]; [done |].
      simpl in Hhead. rewrite Forall_forall in Hhead.
      specialize (Hhead _ Hin). simpl in Hhead. lia. }
    simpl. rewrite Hn.
    rewrite bool_decide_true by done.
    rewrite !bool_decide_true by done. simpl. by rewrite Hcompiles. }
  split; [done |].
  intros Hprompt. unfold learning_pass. rewrite Hprompt, Hon, Hanalyze.
  pose proof (learned_pattern_nonempty ending) as Hne.
  destruct (learned_pattern ending) as [|c pattern] eqn:Hpattern; [done |].
  unfold add_prompt_pattern. rewrite Hcompiles.
  by rewrite bool_decide_true by done.
Qed.

End WithRe.

Lemma learning_proposes_most_frequent_ending_witness :
  occurrences (str "[a@b ~]%") percent_prompt_lines = 3
  ∧ is_at_prompt (re_module := Re.mini_re) learner percent_prompt_lines = false
  ∧ analyze_for_prompt_pattern (re_module := Re.mini_re) learner percent_prompt_lines
    = Some (str "\[a@b\ \~\]%\s*$").
Proof.
  assert (candidate_endings percent_prompt_lines
          = replicate 3 (str "[a@b ~]%")) as Hcandidates
    by (vm_compute; reflexivity).
  assert (occurrences (str "[a@b ~]%") percent_prompt_lines = 3) as Hocc
    by (vm_compute; reflexivity).
  split; [exact Hocc |]. split; [vm_compute; reflexivity |].
  replace (str "\[a@b\ \~\]%\s*$") with (learned_pattern (str "[a@b ~]%"))
    by (vm_compute; reflexivity).
  apply (learning_proposes_most_frequent_ending (re_module := Re.mini_re)
           learner percent_prompt_lines (str "[a@b ~]%")).
  - reflexivity.
  - rewrite Hocc. lia.
  - intros other Hne. rewrite Hocc. unfold occurrences. rewrite Hcandidates.
    simpl. rewrite !filter_cons, !decide_False by done. simpl. lia.
  - vm_compute. intros Hin. by repeat (apply elem_of_cons in Hin as [?|Hin]; [done |]);
      apply elem_of_nil in Hin.
  - apply not_elem_of_empty.
  - vm_compute. reflexivity.
Defined.

(** C9, as stated, fails: the ending is stripped, so ["] $ "] is counted
    as ["] $"] and the pattern ends in [\s*$], not in the escaped blank and
    [$]; and an ending of 15 characters is never counted. *)
Lemma learned_pattern_is_not_the_exact_ending :
  analyze_for_prompt_pattern (re_module := Re.mini_re) learner bracket_dollar_lines
  = Some (str "\]\ \$\s*$")
  ∧ str "\]\ \$\s*$" ≠ Re.escape (str "] $ ") ++ str "$"
  ∧ length (str "abcdefghijklmn$") = 15
  ∧ analyze_for_prompt_pattern (re_module := Re.mini_re) learner fifteen_char_lines
    = None.
Proof.
  split_and!; [vm_compute; reflexivity | | vm_compute; reflexivity ..].
  vm_compute. discriminate.
Qed.

End LearningProps.

(* ===================================================================== *)
(** ** Checks of the library models against known values *)
(* ===================================================================== *)

Module Checks.
Import Py.

(** SHA-256 on the standard test messages. *)
Example sha256_abc :
  Sha256.hexdigest (str "abc")
  = str "ba7816bf8f01cfea414140de5dae2223b00361a396177a9cb410ff61f20015ad".
Proof. vm_compute. reflexivity. Qed.

Example sha256_empty :
  Sha256.hexdigest []
  = str "e3b0c44298fc1c149afbf4c8996fb92427ae41e4649b934ca495991b7852b855".
Proof. vm_compute. reflexivity. Qed.

(** Seventy letters: two blocks. *)
Example sha256_two_blocks :
  Sha256.hexdigest (replicate 70 97%N)
  = str "6bd5e5034855a11241f0dee8fc72850ffd9955b28347a86428b5fa19119f6ad0".
Proof. vm_compute. reflexivity. Qed.

(** The prompt pattern of the shell on three queued lines. *)
Example shell_prompt_detected :
  (λ line, Re.re_search (PyRe := Re.mini_re) false (str "\$ $") line)
  <$> [str "ls"; str "file1.txt"; str "user@host:~$ "]
  = [Some false; Some false; Some true].
Proof. vm_compute. reflexivity. Qed.

Example ipython_prompt_detected :
  Re.re_search (PyRe := Re.mini_re) false (str "In \[\d+\]: $") (str "In [12]: ")
  = Some true.
Proof. vm_compute. reflexivity. Qed.

Example sudo_prompt_is_password :
  MonitorV2.detect_interactive_prompt (re_module := Re.mini_re)
    (str "[sudo] password for alice:")
    (Fixtures.default_monitor MonitorV2.empty_vault false)
  = (MonitorV2.Ok (Some {| MonitorV2.pattern := str "\[sudo\] password for";
                           MonitorV2.prompt_type := str "password";
                           MonitorV2.detected_at := 0;
                           MonitorV2.full_line := str "[sudo] password for alice:" |}),
     Fixtures.default_monitor MonitorV2.empty_vault false).
Proof. vm_compute. reflexivity. Qed.

Example escape_bracket_dollar : Re.escape (str "] $") = str "\]\ \$".
Proof. vm_compute. reflexivity. Qed.

Example strip_unicode_blanks :
  strip ([160; 9]%N ++ str "a b" ++ [12288; 10]%N) = str "a b".
Proof. vm_compute. reflexivity. Qed.

Example slice_last_twenty :
  slice_from (-20) (str "0123456789012345678901234") = str "56789012345678901234".
Proof. vm_compute. reflexivity. Qed.

End Checks.

(* ===================================================================== *)
(** ** The queue processor and the prompt handler, case by case *)
(* ===================================================================== *)

Module FlushProps.
Import Py MonitorV2 Fixtures MonitorV2Props.

(** The monitor after one more entry in the record of outside calls. *)
Definition noted (e : Effect) (m : Monitor) : Monitor :=
  set_effects (effects m ++ [e]) m.

(** The monitor after a flush has recorded its summary: the summary is
    appended, the counter moved, the queue cleared. *)
Definition flushed (text : pystr) (first final : LineEntry) (m : Monitor) : Monitor :=
  set_line_queue []
    (set_stats (incr_summaries_created (stats m))
       (set_summaries
          (summaries m ++ [{| summary_content := text;
                              start_line := line_number first;
                              end_line := line_number final;
                              summary_timestamp := clock m;
                              line_count := length (line_queue m) |}])
          m)).

Section WithCollaborators.
Context {re_module : Re.PyRe} {openai_client : OpenAIClient}.

Lemma summarize_activity_cases activity m :
  (summarization_provider m ≠ str "openai"
   ∧ summarize_activity activity m
     = (Ok (str "Summary not implemented for this provider"), m))
  ∨ (summarization_provider m = str "openai"
     ∧ summarize_activity activity m
       = (chat_completions_create (effects m) summarize_system activity,
          noted (OpenAIChat summarize_system activity) m)).
Proof.
  unfold summarize_activity, openai_chat, summarize_system, noted,
    mbind, M_bind, mret, M_ret, get, emit, modify, raise. simpl.
  case_bool_decide as Hprov; [right | left]; split; try done.
  simpl. by destruct (chat_completions_create _ _ _).
Qed.

Lemma generate_next_step_cases summary m :
  (next_step_provider m ≠ str "openai"
   ∧ generate_next_step summary m
     = (Ok (str "Next step generation not implemented for this provider"), m))
  ∨ (next_step_provider m = str "openai"
     ∧ generate_next_step summary m
       = (chat_completions_create (effects m) next_step_system summary,
          noted (OpenAIChat next_step_system summary) m)).
Proof.
  unfold generate_next_step, openai_chat, next_step_system, noted,
    mbind, M_bind, mret, M_ret, get, emit, modify, raise. simpl.
  case_bool_decide as Hprov; [right | left]; split; try done.
  simpl. by destruct (chat_completions_create _ _ _).
Qed.

(** A flush of a queue that is not empty, as one expression: the
    summarizer, the record, then for the two prompt reasons the next step
    and the interaction log. *)
Lemma process_queue_nonempty reason m first final :
  head (line_queue m) = Some first → last (line_queue m) = Some final →
  process_queue reason m =
  let context := flush_context m reason (line_queue m) in
  match summarize_activity context m with
  | (Raise e, m1) => (Raise e, m1)
  | (Ok text, m1) =>
      if bool_decide (reason ∈ [PROMPT_DETECTED; TIMEOUT]) then
        match generate_next_step text (flushed text first final m1) with
        | (Ok next_steps, m2) =>
            (Ok tt, noted (LogInteraction context text next_steps) m2)
        | (Raise e, m2) => (Raise e, m2)
        end
      else (Ok tt, flushed text first final m1)
  end.
Proof.
  intros Hfirst Hfinal. unfold process_queue at 1.
  unfold mbind at 1. unfold M_bind at 1, get at 1.
  destruct (line_queue m) as [|entry queue] eqn:Hqueue; [done |].
  cbv zeta. cbn [negb truthy]. cbv beta.
  unfold mbind at 1. unfold M_bind at 1.
  destruct (summarize_activity_cases
              (flush_context m reason (entry :: queue)) m) as [[_ Hs]|[_ Hs]];
    rewrite Hs; clear Hs.
  - rewrite Hfirst, Hfinal.
    unfold flushed, noted, mbind, M_bind, get, modify, emit, mret, M_ret.
    simpl. rewrite Hqueue.
    case_bool_decide; [|done].
    by destruct (generate_next_step _ _) as [[next|e] m2].
  - destruct (chat_completions_create _ _ _) as [text|e]; [|done].
    rewrite Hfirst, Hfinal.
    unfold flushed, noted, mbind, M_bind, get, modify, emit, mret, M_ret.
    simpl. rewrite Hqueue.
    case_bool_decide; [|done].
    by destruct (generate_next_step _ _) as [[next|e] m2].
Qed.

(** X5: A flush that returns normally has recorded exactly one summary, built
    from the first and the last queued entry, and has cleared the queue; for
    the two prompt reasons its last outside call is the interaction log. *)
Theorem flush_returns_after_recording reason m first final :
  head (line_queue m) = Some first → last (line_queue m) = Some final →
  (process_queue reason m).1 = Ok tt →
  ∃ text,
    summaries (process_queue reason m).2
    = summaries m ++ [{| summary_content := text;
                         start_line := line_number first;
                         end_line := line_number final;
                         summary_timestamp := clock m;
                         line_count := length (line_queue m) |}]
    ∧ line_queue (process_queue reason m).2 = []
    ∧ summaries_created (stats (process_queue reason m).2)
      = (summaries_created (stats m) + 1)%Z
    ∧ (reason ∈ [PROMPT_DETECTED; TIMEOUT] →
       ∃ next_steps,
         last (effects (process_queue reason m).2)
         = Some (LogInteraction (flush_context m reason (line_queue m))
                   text next_steps)).
Proof.
  intros Hfirst Hfinal.
  rewrite (process_queue_nonempty reason m first final) by done. cbv zeta.
  destruct (summarize_activity_cases
              (flush_context m reason (line_queue m)) m) as [[_ ->]|[_ ->]].
  - case_bool_decide as Hreason.
    + destruct (generate_next_step_cases
                  (str "Summary not implemented for this provider")
                  (flushed (str "Summary not implemented for this provider")
                     first final m)) as [[_ ->]|[_ ->]].
      * intros _. eexists. split_and!; try reflexivity.
        intros _. eexists. simpl. by rewrite last_snoc.
      * destruct (chat_completions_create _ _ _) as [next|e]; [|done].
        intros _. eexists. split_and!; try reflexivity.
        intros _. eexists. simpl. by rewrite last_snoc.
    + intros _. eexists. split_and!; try reflexivity. done.
  - destruct (chat_completions_create _ _ _) as [text|e]; [|done].
    case_bool_decide as Hreason.
    + destruct (generate_next_step_cases text
                  (flushed text first final
                     (noted (OpenAIChat summarize_system
                               (flush_context m reason (line_queue m))) m)))
        as [[_ ->]|[_ ->]].
      * intros _. eexists. split_and!; try reflexivity.
        intros _. eexists. simpl. by rewrite last_snoc.
      * destruct (chat_completions_create _ _ _) as [next|e]; [|done].
        intros _. eexists. split_and!; try reflexivity.
        intros _. eexists. simpl. by rewrite last_snoc.
    + intros _. eexists. split_and!; try reflexivity. done.
Qed.

(** X6: A flush for a pause, the context limit or an unanswered question makes
    at most one outside call, the summarizer's: it never asks for a next
    step and never writes the interaction log. *)
Theorem quiet_reasons_call_the_summarizer_only reason m :
  reason ∉ [PROMPT_DETECTED; TIMEOUT] →
  effects (process_queue reason m).2 = effects m
  ∨ effects (process_queue reason m).2
    = effects m ++ [OpenAIChat summarize_system
                      (flush_context m reason (line_queue m))].
Proof.
  intros Hreason.
  destruct (line_queue m) as [|entry queue] eqn:Hqueue.
  - left. unfold process_queue, mbind, M_bind, get. simpl. by rewrite Hqueue.
  - destruct (proj2 (last_is_Some (entry :: queue)) ltac:(done)) as [final Hfinal].
    rewrite (process_queue_nonempty reason m entry final)
      by (by rewrite Hqueue). cbv zeta. rewrite Hqueue.
    rewrite bool_decide_false by done.
    destruct (summarize_activity_cases
                (flush_context m reason (entry :: queue)) m) as [[_ ->]|[_ ->]].
    + by left.
    + right. by destruct (chat_completions_create _ _ _).
Qed.

(** X8: A pass of the idle monitor over an empty queue only moves the clock,
    whatever the thresholds and the idle time. *)
Theorem idle_pass_on_empty_queue now m :
  line_queue m = [] → monitor_activity_tick now m = (Ok tt, set_clock now m).
Proof.
  intros Hq.
  unfold monitor_activity_tick, mbind, M_bind, modify, try_except.
  rewrite monitor_activity_body_reason.
  destruct (chosen_reason (set_clock now m)) as [reason|]; [|done].
  unfold process_queue, mbind, M_bind, get. simpl. by rewrite Hq.
Qed.

(** X7: The lines that a rolling context shows under [Recent Activity] are the
    last [max_context_lines] of the queue; with a limit of 0 the slice
    [[-0:]] keeps every line. *)
Theorem rolling_context_recent_lines m lines :
  ∃ parts recent,
    _build_rolling_context m lines
    = join (nl ++ nl)
        (parts ++ [str "[Recent Activity]:" ++ nl ++ join nl (content <$> recent)])
    ∧ length parts = length (summaries m) `min` 2
    ∧ recent `suffix_of` lines
    ∧ ((0 < max_context_lines m)%Z →
       length recent = length lines `min` Z.to_nat (max_context_lines m))
    ∧ (max_context_lines m = 0%Z → recent = lines).
Proof.
  unfold _build_rolling_context. cbv zeta.
  eexists _, (slice_from (- max_context_lines m) lines).
  split; [reflexivity |]. split_and!.
  - rewrite length_app.
    destruct (summaries m) as [|s1 [|s2 rest]] eqn:Hs; [done | done |].
    rewrite bool_decide_true by (simpl; lia).
    assert (is_Some (reverse (s1 :: s2 :: rest) !! 1)) as [s ->].
    { apply lookup_lt_is_Some. rewrite length_reverse. simpl. lia. }
    destruct (proj2 (last_is_Some (s1 :: s2 :: rest)) ltac:(done)) as [s' ->].
    simpl. lia.
  - unfold slice_from. destruct (_ <? 0)%Z; apply suffix_drop.
  - intros Hmax. rewrite slice_from_last by done. rewrite length_drop. lia.
  - intros ->. unfold slice_from. simpl. by rewrite drop_0.
Qed.

(** *** Prompts *)

Lemma detect_in_inv patterns line : ∀ m r m',
  detect_in patterns line m = (r, m') →
  m' = m
  ∧ match r with
    | Ok (Some prompt) =>
        ∃ before after,
          patterns = before ++ pattern prompt :: after
          ∧ Forall (λ q, Re.re_search true q line = Some false) before
          ∧ Re.re_search true (pattern prompt) line = Some true
          ∧ prompt = {| pattern := pattern prompt;
                        prompt_type := classify_prompt (pattern prompt);
                        detected_at := clock m; full_line := line |}
    | Ok None => Forall (λ q, Re.re_search true q line = Some false) patterns
    | Raise e =>
        ∃ before q after,
          patterns = before ++ q :: after
          ∧ Forall (λ q, Re.re_search true q line = Some false) before
          ∧ Re.re_search true q line = None ∧ e = ReError q
    end.
Proof.
  induction patterns as [|p rest IH]; intros m r m'; simpl.
  - intros [= <- <-]. split; [done | constructor].
  - destruct (Re.re_search true p line) as [[]|] eqn:Hp.
    + intros [= <- <-]. split; [done |]. by exists [], rest.
    + intros Hrest. destruct (IH _ _ _ Hrest) as [-> Hr]. split; [done |].
      destruct r as [[prompt|]|e].
      * destruct Hr as (before & after & -> & Hb & Hm & Hprompt).
        exists (p :: before), after. split_and!; try done. by constructor.
      * by constructor.
      * destruct Hr as (before & q & after & -> & Hb & Hq & ->).
        exists (p :: before), q, after. split_and!; try done. by constructor.
    + intros [= <- <-]. split; [done |]. by exists [], p, rest.
Qed.

Lemma detect_in_none patterns line m :
  Forall (λ q, Re.re_search true q line = Some false) patterns →
  detect_in patterns line m = (Ok None, m).
Proof.
  induction 1 as [|q rest Hq _ IH]; simpl; [done |]. by rewrite Hq.
Qed.

(** X3: Prompt detection leaves the monitor alone; it reports the first
    question pattern that matches the line, with the type of that pattern,
    and reports nothing exactly when every pattern fails to match. *)
Theorem detect_interactive_prompt_first_match line m :
  (detect_interactive_prompt line m).2 = m
  ∧ (∀ prompt,
       (detect_interactive_prompt line m).1 = Ok (Some prompt) ↔
       first_question_match line (pattern prompt)
       ∧ prompt = {| pattern := pattern prompt;
                     prompt_type := classify_prompt (pattern prompt);
                     detected_at := clock m; full_line := line |})
  ∧ ((detect_interactive_prompt line m).1 = Ok None ↔
     Forall (λ q, Re.re_search true q line = Some false) question_patterns).
Proof.
  unfold detect_interactive_prompt.
  destruct (detect_in question_patterns line m) as [r m'] eqn:Hd.
  destruct (detect_in_inv _ _ _ _ _ Hd) as [-> Hr]. simpl.
  split; [done |]. split.
  - intros prompt. split.
    + intros ->. destruct Hr as (before & after & Hp & Hb & Hm & Hprompt).
      split; [by exists before, after | done].
    + intros [(before & after & Hp & Hb & Hm) Hprompt].
      rewrite Hp, (detect_in_first_match before _ after) in Hd by done.
      injection Hd as <-. by rewrite Hprompt.
  - split.
    + by intros ->.
    + intros Hnone. rewrite detect_in_none in Hd by done. by injection Hd as <-.
Qed.

(** The monitor after an answer was typed into the pane and counted. *)
Definition answered (response : pystr) (m : Monitor) : Monitor :=
  set_stats (incr_auto_responses (stats m)) (noted (SendKeys response) m).

Lemma handle_interactive_prompt_eq line m :
  handle_interactive_prompt line m =
  match detect_in question_patterns line m with
  | (Ok (Some prompt), m1) =>
      if automation_enabled m1 then
        match get_auto_response (vault m1) (pattern prompt) with
        | Some ((_ :: _) as response) =>
            (Ok tt, answered response (prompt_counted m1))
        | _ => process_queue QUESTION_DETECTED (prompt_counted m1)
        end
      else (Ok tt, prompt_counted m1)
  | (Ok None, m1) => (Ok tt, m1)
  | (Raise e, m1) => (Raise e, m1)
  end.
Proof.
  unfold handle_interactive_prompt, detect_interactive_prompt.
  unfold mbind at 1. unfold M_bind at 1.
  destruct (detect_in question_patterns line m) as [[[prompt|]|e] m1];
    [| done | done].
  unfold mbind, M_bind, mret, M_ret, get, modify, emit. simpl.
  destruct (automation_enabled m1); [|done].
  by destruct (get_auto_response (vault m1) (pattern prompt)) as [[|c response]|].
Qed.

Lemma handle_interactive_prompt_cases line m :
  (handle_interactive_prompt line m).2 = m
  ∨ (automation_enabled m = false
     ∧ handle_interactive_prompt line m = (Ok tt, prompt_counted m))
  ∨ (∃ pattern response,
       automation_enabled m = true ∧ pattern ∈ question_patterns
       ∧ get_auto_response (vault m) pattern = Some response ∧ response ≠ []
       ∧ handle_interactive_prompt line m
         = (Ok tt, answered response (prompt_counted m)))
  ∨ (automation_enabled m = true
     ∧ handle_interactive_prompt line m
       = process_queue QUESTION_DETECTED (prompt_counted m)).
Proof.
  rewrite handle_interactive_prompt_eq.
  destruct (detect_in question_patterns line m) as [r m'] eqn:Hd.
  destruct (detect_in_inv _ _ _ _ _ Hd) as [-> Hr].
  destruct r as [[prompt|]|e]; [| by left | by left].
  destruct Hr as (before & after & Hp & _ & _ & _).
  assert (pattern prompt ∈ question_patterns) as Hin
    by (rewrite Hp; apply elem_of_app; right; by left).
  destruct (automation_enabled m) eqn:Hauto; [|right; left; done].
  right; right.
  destruct (get_auto_response (vault m) (pattern prompt))
    as [[|c response]|] eqn:Hresp; [by right | | by right].
  left. by exists (pattern prompt), (c :: response).
Qed.

(** X4: With automation off, handling a line only counts the prompt, when
    there is one: nothing is typed, nothing is summarized, the queue stays. *)
Theorem handle_without_automation line m :
  automation_enabled m = false →
  ((handle_interactive_prompt line m).2 = m
   ∨ handle_interactive_prompt line m = (Ok tt, prompt_counted m))
  ∧ (∀ pattern,
       first_question_match line pattern →
       handle_interactive_prompt line m = (Ok tt, prompt_counted m)).
Proof.
  intros Hauto. split.
  - destruct (handle_interactive_prompt_cases line m)
      as [?|[[_ ?]|[(? & ? & ? & _)|[? _]]]]; auto; congruence.
  - intros pattern (before & after & Hp & Hbefore & Hmatch).
    rewrite handle_interactive_prompt_eq, Hp.
    rewrite detect_in_first_match by done. by rewrite Hauto.
Qed.

End WithCollaborators.

Lemma flush_returns_after_recording_witness :
  head (line_queue quiet_at_16s)
  = Some {| content := str "file1.txt"; timestamp := 0; line_number := 0 |}
  ∧ (process_queue (openai_client := steady_client (str "summary"))
       PAUSE_DETECTED quiet_at_16s).1 = Ok tt
  ∧ line_queue (process_queue (openai_client := steady_client (str "summary"))
                  PAUSE_DETECTED quiet_at_16s).2 = [].
Proof.
  assert (head (line_queue quiet_at_16s)
          = Some {| content := str "file1.txt"; timestamp := 0;
                    line_number := 0 |}) as Hfirst by (vm_compute; reflexivity).
  assert (last (line_queue quiet_at_16s)
          = Some {| content := str "file1.txt"; timestamp := 0;
                    line_number := 0 |}) as Hfinal by (vm_compute; reflexivity).
  assert ((process_queue (openai_client := steady_client (str "summary"))
             PAUSE_DETECTED quiet_at_16s).1 = Ok tt) as Hok
    by (vm_compute; reflexivity).
  split; [exact Hfirst |]. split; [exact Hok |].
  destruct (flush_returns_after_recording
              (openai_client := steady_client (str "summary"))
              PAUSE_DETECTED quiet_at_16s _ _ Hfirst Hfinal Hok)
    as (text & _ & Hqueue & _).
  exact Hqueue.
Defined.

Lemma quiet_reasons_call_the_summarizer_only_witness :
  (QUESTION_DETECTED ∉ [PROMPT_DETECTED; TIMEOUT])
  ∧ (effects (process_queue (openai_client := steady_client (str "summary"))
                QUESTION_DETECTED quiet_at_16s).2
     = effects quiet_at_16s
     ∨ effects (process_queue (openai_client := steady_client (str "summary"))
                  QUESTION_DETECTED quiet_at_16s).2
       = effects quiet_at_16s
         ++ [OpenAIChat summarize_system
               (flush_context quiet_at_16s QUESTION_DETECTED
                  (line_queue quiet_at_16s))]).
Proof.
  assert (QUESTION_DETECTED ∉ [PROMPT_DETECTED; TIMEOUT]) as Hreason.
  { intros Hin. apply elem_of_cons in Hin as [?|Hin]; [done |].
    apply elem_of_cons in Hin as [?|Hin]; [done |]. by apply elem_of_nil in Hin. }
  split; [exact Hreason |].
  exact (quiet_reasons_call_the_summarizer_only
           (openai_client := steady_client (str "summary"))
           QUESTION_DETECTED quiet_at_16s Hreason).
Defined.

Lemma idle_pass_on_empty_queue_witness :
  line_queue (default_monitor empty_vault false) = []
  ∧ monitor_activity_tick (re_module := Re.mini_re)
      (openai_client := steady_client (str "summary"))
      (seconds 125) (default_monitor empty_vault false)
    = (Ok tt, set_clock (seconds 125) (default_monitor empty_vault false)).
Proof.
  split; [reflexivity |].
  exact (idle_pass_on_empty_queue (re_module := Re.mini_re)
           (openai_client := steady_client (str "summary"))
           (seconds 125) (default_monitor empty_vault false) eq_refl).
Defined.

Lemma handle_without_automation_witness :
  automation_enabled (default_monitor overwrite_vault false) = false
  ∧ first_question_match (re_module := Re.mini_re)
      overwrite_question (str "Overwrite.*\?")
  ∧ handle_interactive_prompt (re_module := Re.mini_re)
      (openai_client := steady_client (str "summary"))
      overwrite_question (default_monitor overwrite_vault false)
    = (Ok tt, prompt_counted (default_monitor overwrite_vault false)).
Proof.
  assert (first_question_match (re_module := Re.mini_re)
            overwrite_question (str "Overwrite.*\?")) as Hmatch.
  { exists (take 3 question_patterns), (drop 4 question_patterns).
    split_and!; [vm_compute; reflexivity | | vm_compute; reflexivity].
    repeat (constructor; [vm_compute; reflexivity |]). constructor. }
  split; [reflexivity |]. split; [exact Hmatch |].
  destruct (handle_without_automation (re_module := Re.mini_re)
              (openai_client := steady_client (str "summary"))
              overwrite_question (default_monitor overwrite_vault false)
              eq_refl) as [_ Hcounted].
  exact (Hcounted _ Hmatch).
Defined.

End FlushProps.

(* ===================================================================== *)
(** ** Whole runs of the two loops *)
(* ===================================================================== *)

Module RunProps.
Import Py MonitorV2 Fixtures MonitorV2Props FlushProps NumberingProps.

(** The monitor after one new line went through lines 242-249: queued,
    recorded, and the time of the last activity moved to now. *)
Definition queued (entry : LineEntry) (m : Monitor) : Monitor :=
  set_last_activity_time (clock m)
    (noted (Appended entry)
       (set_line_queue (Deque.append line_queue_maxlen (line_queue m) entry) m)).

(** The changes of state the methods are made of. *)
Inductive Step : Monitor → Monitor → Prop :=
  | step_clock now m : Step m (set_clock now m)
  | step_note e m :
      (∀ entry, e ≠ Appended entry) → (∀ keys, e ≠ SendKeys keys) →
      Step m (noted e m)
  | step_queued entry m : Step m (queued entry m)
  | step_prompt m : Step m (prompt_counted m)
  | step_answered pattern response m :
      automation_enabled m = true → pattern ∈ question_patterns →
      get_auto_response (vault m) pattern = Some response → response ≠ [] →
      Step m (answered response (prompt_counted m))
  | step_flushed text first final m :
      head (line_queue m) = Some first → last (line_queue m) = Some final →
      Step m (flushed text first final m)
  | step_snapshot current_content m : Step m (set_last_content current_content m).

(** The texts typed into the pane, oldest first. *)
Definition sent_keys (l : list Effect) : list pystr :=
  omap (λ e, if e is SendKeys keys then Some keys else None) l.

(** What is fixed when the monitor is built, with the two counters that no
    method writes. *)
Definition settings (m : Monitor) :=
  (max_context_lines m, pause_threshold m, dead_threshold m,
   summarization_provider m, next_step_provider m, prompt_patterns m,
   vault m, automation_enabled m,
   lines_processed (stats m), questions_answered (stats m)).

(** The summaries [sums] were cut, in this order, out of the entries [l]:
    each one spans a run of consecutive entries; between the runs lie the
    entries that the bounded queue dropped. *)
Inductive Segs : list Summary → list LineEntry → Prop :=
  | segs_nil dropped : Segs [] dropped
  | segs_snoc sums l chunk first final dropped s :
      Segs sums l →
      head chunk = Some first → last chunk = Some final →
      start_line s = line_number first → end_line s = line_number final →
      line_count s = length chunk →
      Segs (sums ++ [s]) (l ++ chunk ++ dropped).

(** The entries appended so far are the ones already summarized or
    dropped, followed by the queue. *)
Definition accounted (m : Monitor) : Prop :=
  ∃ done, appended m = done ++ line_queue m ∧ Segs (summaries m) done.

(** Lines arrive, the queue is flushed; more lines arrive, it is flushed
    again. *)
Definition two_flush_ticks : list Tick :=
  [Capture 0 [str "a"; str "b"];
   Idle (seconds 16);
   Capture (seconds 17) [str "a"; str "b"; str "c"; str "d"];
   Idle (seconds 40)].

(** A listing and the overwrite question, then a quiet pass. *)
Definition answered_question_ticks : list Tick :=
  [Capture 0 [str "ls"; overwrite_question]; Idle (seconds 16)].

Ltac step_back :=
  lazymatch goal with
  | |- rtc Step ?m ?m => reflexivity
  | |- rtc Step _ (noted _ _) => eapply rtc_r; [| by apply step_note]
  | |- rtc Step _ (flushed _ _ _ _) => eapply rtc_r; [| by apply step_flushed]
  | |- rtc Step _ (prompt_counted _) => eapply rtc_r; [| apply step_prompt]
  | |- rtc Step _ (set_clock _ _) => eapply rtc_r; [| apply step_clock]
  | |- rtc Step _ (set_last_content _ _) => eapply rtc_r; [| apply step_snapshot]
  end.

Section WithCollaborators.
Context {re_module : Re.PyRe} {openai_client : OpenAIClient}.

(** *** Every method is a sequence of steps *)

Lemma steps_process_queue reason m : rtc Step m (process_queue reason m).2.
Proof.
  destruct (line_queue m) as [|entry queue] eqn:Hqueue.
  - replace (process_queue reason m) with (Ok tt, m); [done |].
    unfold process_queue, mbind, M_bind, get. simpl. by rewrite Hqueue.
  - destruct (proj2 (last_is_Some (entry :: queue)) ltac:(done)) as [final Hfinal].
    assert (head (line_queue m) = Some entry) as Hhead by (by rewrite Hqueue).
    rewrite <- Hqueue in Hfinal.
    rewrite (process_queue_nonempty reason m entry final) by done. cbv zeta.
    destruct (summarize_activity_cases
                (flush_context m reason (line_queue m)) m) as [[_ ->]|[_ ->]].
    + case_bool_decide.
      * destruct (generate_next_step_cases
                    (str "Summary not implemented for this provider")
                    (flushed (str "Summary not implemented for this provider")
                       entry final m)) as [[_ ->]|[_ ->]]; simpl.
        -- repeat step_back.
        -- destruct (chat_completions_create _ _ _); simpl; repeat step_back.
      * simpl. repeat step_back.
    + destruct (chat_completions_create _ _ _) as [text|e]; simpl;
        [| repeat step_back].
      case_bool_decide.
      * destruct (generate_next_step_cases text
                    (flushed text entry final
                       (noted (OpenAIChat summarize_system
                                 (flush_context m reason (line_queue m))) m)))
          as [[_ ->]|[_ ->]]; simpl.
        -- repeat step_back.
        -- destruct (chat_completions_create _ _ _); simpl; repeat step_back.
      * simpl. repeat step_back.
Qed.

Lemma steps_handle_interactive_prompt line m :
  rtc Step m (handle_interactive_prompt line m).2.
Proof.
  destruct (handle_interactive_prompt_cases line m)
    as [->|[[_ ->]|[(pattern & response & ? & ? & ? & ? & ->)|[_ ->]]]].
  - done.
  - simpl. repeat step_back.
  - simpl. by eapply rtc_once, step_answered.
  - etrans; [apply rtc_once, step_prompt | apply steps_process_queue].
Qed.

Lemma steps_capture_new_lines base new_lines : ∀ i m,
  rtc Step m (capture_new_lines base i new_lines m).2.
Proof.
  induction new_lines as [|line rest IH]; intros i m; [done |].
  simpl. unfold mbind at 1 2 3 4. unfold M_bind at 1 2 3 4.
  unfold get, modify at 1 2, emit, modify. cbv zeta. simpl.
  set (entry := {| content := line; timestamp := clock m;
                   line_number := base + i |}).
  set (m1 := set_last_activity_time _ _).
  assert (rtc Step m m1) as Hm1 by apply rtc_once, (step_queued entry m).
  unfold mbind, M_bind, detect_interactive_prompt.
  destruct (detect_in question_patterns line m1) as [r m2] eqn:Hd.
  destruct (detect_in_inv _ _ _ _ _ Hd) as [-> _].
  destruct r as [prompt|e]; [|done].
  assert (rtc Step m1 ((if prompt is Some _ then handle_interactive_prompt line
                        else mret tt) m1).2) as Hm3.
  { destruct prompt; [apply steps_handle_interactive_prompt | done]. }
  destruct ((if prompt is Some _ then handle_interactive_prompt line
             else mret tt) m1) as [[[]|e] m3]; simpl in Hm3.
  - etrans; [exact Hm1 |]. etrans; [exact Hm3 | apply IH].
  - by etrans.
Qed.

Lemma steps_try_except body message m :
  rtc Step m (body m).2 → rtc Step m (try_except body message m).2.
Proof.
  unfold try_except. destruct (body m) as [[[]|e] m1]; simpl; [done |].
  intros Hbody. unfold emit, modify. simpl.
  eapply rtc_r; [exact Hbody |]. by apply (step_note (LoggerError message e)).
Qed.

Lemma steps_tick t m : rtc Step m (tick t m).2.
Proof.
  destruct t as [now current_content | now]; simpl.
  - unfold capture_tick, mbind, M_bind, modify.
    etrans; [apply rtc_once, (step_clock now) |].
    apply steps_try_except.
    unfold capture_body, mbind, M_bind, get, modify. cbv zeta.
    case_bool_decide.
    + pose proof (steps_capture_new_lines
                    (length (last_content (set_clock now m)))
                    (drop (length (last_content (set_clock now m)))
                          current_content) 0 (set_clock now m)) as Hloop.
      destruct (capture_new_lines _ _ _ _) as [[[]|e] m1]; simpl in *;
        [| done].
      eapply rtc_r; [exact Hloop | apply step_snapshot].
    + case_bool_decide.
      * change (rtc Step (set_clock now m)
                  (set_last_content current_content
                     (noted (LoggerInfo
                               (str "Pane content changed significantly, resetting"))
                        (set_clock now m)))).
        repeat step_back.
      * apply rtc_once, step_snapshot.
  - unfold monitor_activity_tick, mbind, M_bind, modify.
    etrans; [apply rtc_once, (step_clock now) |].
    apply steps_try_except. rewrite monitor_activity_body_reason.
    destruct (chosen_reason (set_clock now m));
      [apply steps_process_queue | done].
Qed.

Lemma steps_run ticks : ∀ m, rtc Step m (run ticks m).
Proof.
  induction ticks as [|t rest IH]; intros m; [done |].
  change (run (t :: rest) m) with (run rest (tick t m).2).
  etrans; [apply steps_tick | apply IH].
Qed.

End WithCollaborators.

(** *** What a step keeps *)

Lemma Step_settings m m' : Step m m' → settings m' = settings m.
Proof. by destruct 1. Qed.

Lemma Steps_settings m m' : rtc Step m m' → settings m' = settings m.
Proof.
  induction 1 as [|m m1 m' Hstep _ IH]; [done |].
  rewrite IH. by apply Step_settings.
Qed.

Lemma Steps_summaries m m' :
  rtc Step m m' →
  ∃ new, summaries m' = summaries m ++ new
         ∧ summaries_created (stats m')
           = (summaries_created (stats m) + Z.of_nat (length new))%Z.
Proof.
  induction 1 as [m|m m1 m' Hstep _ (new & Hnew & Hcount)].
  - exists []. rewrite app_nil_r. simpl. split; [done | lia].
  - destruct Hstep; try by exists new.
    eexists (_ :: new). simpl in *.
    rewrite Hnew, Hcount, <- (assoc_L (++)). simpl. split; [done | lia].
Qed.

Lemma sent_keys_app l1 l2 : sent_keys (l1 ++ l2) = sent_keys l1 ++ sent_keys l2.
Proof. apply omap_app. Qed.

(** A registered, non-empty answer to one of the question patterns. *)
Definition registered_answer (m : Monitor) (keys : pystr) : Prop :=
  keys ≠ [] ∧ ∃ pattern, pattern ∈ question_patterns
                         ∧ get_auto_response (vault m) pattern = Some keys.

Lemma Steps_answers m m' :
  rtc Step m m' →
  ∃ new, effects m' = effects m ++ new
         ∧ auto_responses (stats m')
           = (auto_responses (stats m) + Z.of_nat (length (sent_keys new)))%Z
         ∧ (prompts_detected (stats m) + Z.of_nat (length (sent_keys new))
            ≤ prompts_detected (stats m'))%Z
         ∧ Forall (registered_answer m) (sent_keys new)
         ∧ (automation_enabled m = false → sent_keys new = []).
Proof.
  induction 1 as [m|m m1 m' Hstep Hrest (new & Hnew & Hcount & Hle & Hreg & Hoff)].
  - exists []. rewrite app_nil_r. simpl. split_and!; [done | lia | lia | done | done].
  - pose proof (Step_settings _ _ Hstep) as Hsame.
    assert (vault m1 = vault m ∧ automation_enabled m1 = automation_enabled m)
      as [Hvault Hauto] by (unfold settings in Hsame; by simplify_eq).
    assert (Forall (registered_answer m) (sent_keys new)) as Hreg'.
    { eapply Forall_impl; [exact Hreg |]. intros keys. unfold registered_answer.
      by rewrite Hvault. }
    rewrite Hauto in Hoff.
    destruct Hstep as [now m|e m Happ Hkeys| entry m| m
                       |pattern response m Hon Hin Hget Hne
                       |text first final m Hfirst Hfinal|content m];
      simpl in *.
    + by exists new.
    + exists (e :: new). rewrite Hnew, <- (assoc_L (++)). simpl.
      destruct e as [| text | | | |]; try done. by destruct (Hkeys text).
    + exists (Appended entry :: new). rewrite Hnew, <- (assoc_L (++)). done.
    + exists new. split_and!; [done | done | lia | done | done].
    + exists (SendKeys response :: new). rewrite Hnew, <- (assoc_L (++)).
      simpl. split_and!; [done | lia | lia | | congruence].
      constructor; [|done]. split; [done |]. by exists pattern.
    + by exists new.
    + by exists new.
Qed.

Lemma appended_noted e m :
  (∀ entry, e ≠ Appended entry) → appended (noted e m) = appended m.
Proof.
  intros He. unfold appended, noted. simpl. rewrite omap_app. simpl.
  destruct e; try by rewrite app_nil_r. by destruct (He entry).
Qed.

Lemma append_keeps_suffix {A} maxlen (d : list A) x :
  maxlen ≠ 0 → ∃ dropped, d ++ [x] = dropped ++ Deque.append maxlen d x.
Proof.
  intros Hmax. unfold Deque.append. rewrite decide_False by done. cbv zeta.
  destruct (decide (maxlen < length (d ++ [x]))).
  - destruct (d ++ [x]) as [|y rest]; [by exists [] | by exists [y]].
  - by exists [].
Qed.

Lemma Segs_dropped sums l dropped : Segs sums l → Segs sums (l ++ dropped).
Proof.
  destruct 1 as [|sums l chunk first final dropped' s]; [constructor |].
  rewrite <- !(assoc_L (++)). by econstructor.
Qed.

Lemma Step_accounted m m' : Step m m' → accounted m → accounted m'.
Proof.
  intros Hstep (done & Happ & Hsegs).
  destruct Hstep as [now m|e m Hne Hkeys| entry m| m
                     |pattern response m Hon Hin Hget Hne
                     |text first final m Hfirst Hfinal|content m].
  - by exists done.
  - exists done. by rewrite appended_noted.
  - destruct (append_keeps_suffix line_queue_maxlen (line_queue m) entry)
      as [dropped Hdropped]; [done |].
    exists (done ++ dropped). split; [|by apply Segs_dropped].
    unfold appended, queued, noted. simpl. rewrite omap_app. simpl.
    fold (appended m). rewrite Happ, <- !(assoc_L (++)). by rewrite Hdropped.
  - by exists done.
  - exists done. split; [|done]. unfold appended in *. simpl.
    rewrite omap_app. simpl. by rewrite app_nil_r.
  - exists (done ++ line_queue m ++ []). split.
    + simpl. rewrite !app_nil_r. exact Happ.
    + by econstructor.
  - by exists done.
Qed.

Lemma Steps_accounted m m' : rtc Step m m' → accounted m → accounted m'.
Proof. induction 1; eauto using Step_accounted. Qed.

(** A run of increasing numbers spans at least its length. *)
Lemma increasing_span (l : list nat) : ∀ a b,
  StronglySorted lt l → head l = Some a → last l = Some b →
  a + length l ≤ S b.
Proof.
  induction l as [|x [|y rest] IH]; intros a b Hsorted Hhead Hlast; [done | |].
  - simpl in *. simplify_eq. lia.
  - injection Hhead as ->.
    apply StronglySorted_inv in Hsorted as [Hsorted Hall].
    apply Forall_cons_1 in Hall as [Hay _].
    specialize (IH y b Hsorted eq_refl Hlast). simpl in *. lia.
Qed.

Lemma Segs_ranges sums l :
  Segs sums l → StronglySorted lt (line_number <$> l) →
  StronglySorted (λ s1 s2, end_line s1 < start_line s2) sums
  ∧ Forall (λ s, 1 ≤ line_count s
                 ∧ start_line s + line_count s ≤ S (end_line s)) sums
  ∧ Forall (λ s, end_line s ∈ line_number <$> l) sums.
Proof.
  induction 1 as [|sums l chunk first final dropped s _ IH Hfirst Hfinal
                    Hstart Hend Hcount]; intros Hsorted.
  - split_and!; constructor.
  - rewrite !fmap_app in Hsorted.
    apply StronglySorted_app in Hsorted as (Hcross & Hl & Hrest).
    apply StronglySorted_app_1_l in Hrest as Hchunk.
    destruct (IH Hl) as (Hsums & Hspans & Hin).
    assert (first ∈ chunk) as Hfirst_in by (by apply head_Some_elem_of).
    assert (final ∈ chunk) as Hfinal_in by (by apply last_Some_elem_of).
    split_and!.
    + apply StronglySorted_app_2; [| done | repeat constructor].
      intros s1 s2 Hs1 Hs2. apply list_elem_of_singleton in Hs2 as ->.
      rewrite Forall_forall in Hin. rewrite Hstart.
      apply Hcross; [by apply Hin |].
      apply elem_of_app. left. by apply list_elem_of_fmap_2.
    + apply Forall_app. split; [done |]. constructor; [|done].
      rewrite Hstart, Hend, Hcount, <- (length_fmap line_number). split.
      * destruct chunk; [done | simpl; lia].
      * apply increasing_span; [done | |].
        -- destruct chunk; simpl in *; congruence.
        -- by rewrite fmap_last, Hfinal.
    + rewrite !fmap_app. apply Forall_app. split.
      * eapply Forall_impl; [exact Hin |]. intros s' Hs'. simpl in Hs'.
        apply elem_of_app. by left.
      * constructor; [|done]. rewrite Hend.
        apply elem_of_app. right. apply elem_of_app. left.
        by apply list_elem_of_fmap_2.
Qed.

(** *** What holds of every run *)

Section Runs.
Context {re_module : Re.PyRe} {openai_client : OpenAIClient}.

(** X12: No pass of either loop changes what the monitor was built with: the
    context limit, the two thresholds, the providers, the prompt patterns,
    the vault and the automation switch; and the counters of lines
    processed and of questions answered are never written. *)
Theorem run_never_reconfigures ticks m :
  max_context_lines (run ticks m) = max_context_lines m
  ∧ pause_threshold (run ticks m) = pause_threshold m
  ∧ dead_threshold (run ticks m) = dead_threshold m
  ∧ summarization_provider (run ticks m) = summarization_provider m
  ∧ next_step_provider (run ticks m) = next_step_provider m
  ∧ prompt_patterns (run ticks m) = prompt_patterns m
  ∧ vault (run ticks m) = vault m
  ∧ automation_enabled (run ticks m) = automation_enabled m
  ∧ lines_processed (stats (run ticks m)) = lines_processed (stats m)
  ∧ questions_answered (stats (run ticks m)) = questions_answered (stats m).
Proof.
  pose proof (Steps_settings _ _ (steps_run ticks m)) as Hsame.
  unfold settings in Hsame. simplify_eq. by split_and!.
Qed.

(** X13: The history of summaries only grows at its end, and the counter of
    summaries grows with it, one for one. *)
Theorem run_counts_summaries ticks m :
  summaries m `prefix_of` summaries (run ticks m)
  ∧ (summaries_created (stats (run ticks m)) - summaries_created (stats m))%Z
    = Z.of_nat (length (summaries (run ticks m)) - length (summaries m)).
Proof.
  destruct (Steps_summaries _ _ (steps_run ticks m)) as (new & Hnew & Hcount).
  split; [by exists new |].
  rewrite Hnew, Hcount, length_app. lia.
Qed.

(** X14: The counter of automatic answers grows by one for every text typed
    into the pane, and each of those was first counted as a prompt. *)
Theorem run_counts_answers ticks m :
  ∃ new,
    effects (run ticks m) = effects m ++ new
    ∧ auto_responses (stats (run ticks m))
      = (auto_responses (stats m) + Z.of_nat (length (sent_keys new)))%Z
    ∧ (prompts_detected (stats m) + Z.of_nat (length (sent_keys new))
       ≤ prompts_detected (stats (run ticks m)))%Z.
Proof.
  destruct (Steps_answers _ _ (steps_run ticks m))
    as (new & Hnew & Hcount & Hle & _).
  by exists new.
Qed.

(** X15: Whatever a run types into the pane is a non-empty answer that the
    vault holds for one of the question patterns; with automation off it
    types nothing. *)
Theorem run_types_registered_answers_only ticks m :
  ∃ new,
    effects (run ticks m) = effects m ++ new
    ∧ Forall (registered_answer m) (sent_keys new)
    ∧ (automation_enabled m = false → sent_keys new = []).
Proof.
  destruct (Steps_answers _ _ (steps_run ticks m))
    as (new & Hnew & _ & _ & Hreg & Hoff).
  by exists new.
Qed.

(** X16: The queue never holds more than [line_queue_maxlen] entries. *)
Theorem queue_never_exceeds_capacity ticks m :
  length (line_queue m) ≤ line_queue_maxlen →
  length (line_queue (run ticks m)) ≤ line_queue_maxlen.
Proof. apply run_within_capacity. Qed.

(** X17: While the pane only grows and no capture pass is cut short, the
    summaries of a fresh monitor cover increasing, disjoint ranges of line
    numbers: each one starts after the one before it ends, and counts at
    least one line and no more lines than its range holds. *)
Theorem summaries_cover_increasing_ranges ticks m :
  appended m = [] → line_queue m = [] → summaries m = [] →
  last_content m = [] →
  StronglySorted le (pane_lengths ticks) →
  uninterrupted ticks m →
  StronglySorted (λ s1 s2, end_line s1 < start_line s2)
    (summaries (run ticks m))
  ∧ Forall (λ s, 1 ≤ line_count s
                 ∧ start_line s + line_count s ≤ S (end_line s))
      (summaries (run ticks m)).
Proof.
  intros Hnone Hqueue Hsums Hlast Hgrow Hclean.
  assert (numbered (run ticks m)) as [Hsorted _].
  { apply numbered_run; [| | done].
    - unfold numbered, numbers. rewrite Hnone. split; constructor.
    - rewrite Hlast. constructor; [done |].
      apply Forall_forall. intros n _. simpl. lia. }
  assert (accounted (run ticks m)) as (done & Happ & Hsegs).
  { apply (Steps_accounted m); [apply steps_run |].
    exists []. rewrite Hnone, Hqueue, Hsums. split; [done | constructor]. }
  unfold numbers in Hsorted. rewrite Happ, fmap_app in Hsorted.
  apply StronglySorted_app_1_l in Hsorted.
  destruct (Segs_ranges _ _ Hsegs Hsorted) as (Hranges & Hspans & _).
  done.
Qed.

End Runs.

(** The overwrite question arrives with its answer registered: the answer
    is typed once and counted once, as a prompt and as an answer. *)
Example answered_question_run :
  sent_keys (effects (run (re_module := Re.mini_re)
                        (openai_client := steady_client (str "summary"))
                        answered_question_ticks
                        (default_monitor overwrite_vault true)))
  = [str "y"]
  ∧ auto_responses (stats (run (re_module := Re.mini_re)
                             (openai_client := steady_client (str "summary"))
                             answered_question_ticks
                             (default_monitor overwrite_vault true))) = 1%Z
  ∧ prompts_detected (stats (run (re_module := Re.mini_re)
                               (openai_client := steady_client (str "summary"))
                               answered_question_ticks
                               (default_monitor overwrite_vault true))) = 1%Z.
Proof. split_and!; vm_compute; reflexivity. Qed.

Lemma queue_never_exceeds_capacity_witness :
  length (line_queue (default_monitor empty_vault false)) ≤ line_queue_maxlen
  ∧ length (line_queue
              (run (re_module := Re.mini_re)
                 (openai_client := steady_client (str "summary"))
                 growing_pane_ticks (default_monitor empty_vault false)))
    ≤ line_queue_maxlen.
Proof.
  assert (length (line_queue (default_monitor empty_vault false))
          ≤ line_queue_maxlen) as Hfresh by (simpl; lia).
  split; [exact Hfresh |].
  exact (queue_never_exceeds_capacity (re_module := Re.mini_re)
           (openai_client := steady_client (str "summary"))
           growing_pane_ticks (default_monitor empty_vault false) Hfresh).
Defined.

Lemma summaries_cover_increasing_ranges_witness :
  StronglySorted le (pane_lengths two_flush_ticks)
  ∧ (λ s, (start_line s, end_line s, line_count s))
    <$> summaries (run (re_module := Re.mini_re)
                     (openai_client := steady_client (str "summary"))
                     two_flush_ticks (default_monitor empty_vault false))
    = [(0, 1, 2); (2, 3, 2)]
  ∧ StronglySorted (λ s1 s2, end_line s1 < start_line s2)
      (summaries (run (re_module := Re.mini_re)
                    (openai_client := steady_client (str "summary"))
                    two_flush_ticks (default_monitor empty_vault false))).
Proof.
  assert (StronglySorted le (pane_lengths two_flush_ticks)) as Hgrow.
  { vm_compute. repeat constructor. }
  split; [exact Hgrow |]. split; [vm_compute; reflexivity |].
  assert (uninterrupted (re_module := Re.mini_re)
            (openai_client := steady_client (str "summary"))
            two_flush_ticks (default_monitor empty_vault false)) as Hclean.
  { vm_compute. repeat split. }
  destruct (summaries_cover_increasing_ranges (re_module := Re.mini_re)
              (openai_client := steady_client (str "summary"))
              two_flush_ticks (default_monitor empty_vault false)
              eq_refl eq_refl eq_refl eq_refl Hgrow Hclean) as [Hranges _].
  exact Hranges.
Defined.

End RunProps.

(* ===================================================================== *)
(** ** The vault: storing and registering *)
(* ===================================================================== *)

Module StoreProps.
Import Py MonitorV2 Fixtures VaultProps.

Lemma section_insert_ne (v : vault_data) name name' d :
  name ≠ name' → section (<[name := d]> v) name' = section v name'.
Proof. intros Hne. unfold section. by rewrite lookup_insert_ne. Qed.

Lemma passwords_not_auto_responses : str "passwords" ≠ str "auto_responses".
Proof. intros Heq. vm_compute in Heq. discriminate. Qed.

(** X1: A stored password is found again under its context; contexts with
    another hash, and all the automatic answers, are as they were. *)
Theorem stored_password_is_found v context password v' :
  store_password v context password = Ok v' →
  get_password v' context = Ok (Some password)
  ∧ (∀ other h h',
       context_hash context = Ok h → context_hash other = Ok h' → h' ≠ h →
       get_password v' other = get_password v other)
  ∧ (∀ pattern, get_auto_response v' pattern = get_auto_response v pattern).
Proof.
  unfold store_password, get_password, get_auto_response.
  destruct (context_hash context) as [h|e] eqn:Hh; [|done].
  intros [= <-]. split_and!.
  - by rewrite section_insert, lookup_insert_eq.
  - intros other h1 h' [= <-] -> Hne.
    by rewrite section_insert, lookup_insert_ne.
  - intros pattern.
    by rewrite section_insert_ne by apply passwords_not_auto_responses.
Qed.

Lemma stored_password_is_found_witness :
  store_password empty_vault (str "prod-db") (str "hunter2")
  = Ok (<[str "passwords" := {[str "281172a7688b9e03" := str "hunter2"]}]>
          empty_vault)
  ∧ get_password
      (<[str "passwords" := {[str "281172a7688b9e03" := str "hunter2"]}]>
         empty_vault)
      (str "prod-db")
    = Ok (Some (str "hunter2")).
Proof.
  assert (store_password empty_vault (str "prod-db") (str "hunter2")
          = Ok (<[str "passwords" := {[str "281172a7688b9e03" := str "hunter2"]}]>
                  empty_vault)) as Hstore by (vm_compute; reflexivity).
  split; [exact Hstore |].
  destruct (stored_password_is_found _ _ _ _ Hstore) as [Hfound _].
  exact Hfound.
Defined.

(** X2: Registering an automatic answer changes the answer of that pattern
    only: the other patterns and every password are as they were. *)
Theorem auto_response_registration_is_local v pattern response :
  (∀ other,
     other ≠ pattern →
     get_auto_response (add_auto_response v pattern response) other
     = get_auto_response v other)
  ∧ (∀ context,
       get_password (add_auto_response v pattern response) context
       = get_password v context).
Proof.
  unfold get_auto_response, add_auto_response, get_password. split.
  - intros other Hne. by rewrite section_insert, lookup_insert_ne.
  - intros context. destruct (context_hash context); [|done].
    rewrite section_insert_ne; [done |].
    intros Heq. by apply passwords_not_auto_responses.
Qed.

End StoreProps.

(* ===================================================================== *)
(** ** Being at a prompt *)
(* ===================================================================== *)

Module PromptProps.
Import Py Fixtures.

(** A line that is empty once stripped. *)
Definition blank (line : pystr) : Prop := truthy (strip line) = false.

Section WithRe.
Context {re_module : Re.PyRe}.

Lemma v2_skips_blanks patterns blanks rest :
  Forall blank blanks →
  MonitorV2.is_at_prompt_from patterns (blanks ++ rest)
  = MonitorV2.is_at_prompt_from patterns rest.
Proof.
  induction 1 as [|line blanks Hline _ IH]; [done |].
  simpl. by rewrite Hline.
Qed.

Lemma v1_skips_blanks patterns blanks rest :
  Forall blank blanks →
  MonitorV1.is_at_prompt_from patterns (blanks ++ rest)
  = MonitorV1.is_at_prompt_from patterns rest.
Proof.
  induction 1 as [|line blanks Hline _ IH]; [done |].
  simpl. by rewrite Hline.
Qed.

(** X9: The continuous monitor is at a prompt exactly when one of its patterns
    matches the last line that is not blank: the lines above it and the
    blank lines below it play no part, a pattern that does not compile is
    passed over, and a pane of blank lines is no prompt. *)
Theorem prompt_check_reads_last_nonblank_line m lines line blanks :
  ¬ blank line → Forall blank blanks →
  MonitorV2.is_at_prompt m (lines ++ line :: blanks)
  = MonitorV2.any_pattern_matches (MonitorV2.prompt_patterns m) line
  ∧ (MonitorV2.is_at_prompt m (lines ++ line :: blanks) = true ↔
     ∃ pattern, pattern ∈ MonitorV2.prompt_patterns m
                ∧ Re.re_search false pattern line = Some true)
  ∧ MonitorV2.is_at_prompt m blanks = false.
Proof.
  intros Hline Hblanks. unfold MonitorV2.is_at_prompt.
  assert (MonitorV2.is_at_prompt_from (MonitorV2.prompt_patterns m)
            (reverse (lines ++ line :: blanks))
          = MonitorV2.any_pattern_matches (MonitorV2.prompt_patterns m) line)
    as Hlast.
  { rewrite reverse_app, reverse_cons, <- (assoc_L (++)).
    rewrite v2_skips_blanks by (by apply Forall_reverse).
    simpl. unfold blank in Hline. by destruct (truthy (strip line)). }
  split_and!.
  - exact Hlast.
  - rewrite Hlast. apply MonitorV2Props.any_pattern_matches_true.
  - rewrite <- (app_nil_r (reverse blanks)).
    by rewrite v2_skips_blanks by (by apply Forall_reverse).
Qed.

Lemma v1_any_pattern_matches_true patterns line :
  MonitorV1.any_pattern_matches patterns line = true ↔
  ∃ pattern, pattern ∈ patterns ∧ Re.re_search false pattern line = Some true.
Proof.
  induction patterns as [|p ps IH]; simpl.
  - split; [done | intros (? & Hin & _); by apply elem_of_nil in Hin].
  - destruct (Re.re_search false p line) as [[]|] eqn:Hs.
    + split; [|done]. intros _. exists p. split; [left | done].
    + rewrite IH. split.
      * intros (q & Hq & Hm). exists q. split; [by right | done].
      * intros (q & Hq & Hm). apply elem_of_cons in Hq as [->|Hq]; [congruence |].
        by exists q.
    + rewrite IH. split.
      * intros (q & Hq & Hm). exists q. split; [by right | done].
      * intros (q & Hq & Hm). apply elem_of_cons in Hq as [->|Hq]; [congruence |].
        by exists q.
Qed.

(** X18: The first monitor decides in the same way: on the last line that is
    not blank, against every pattern it holds, base, added or learned. *)
Theorem v1_prompt_check_reads_last_nonblank_line
    (m : MonitorV1.Monitor) lines line blanks :
  ¬ blank line → Forall blank blanks →
  (MonitorV1.is_at_prompt m (lines ++ line :: blanks) = true ↔
   ∃ pattern, pattern ∈ MonitorV1.prompt_patterns m
              ∧ Re.re_search false pattern line = Some true)
  ∧ MonitorV1.is_at_prompt m blanks = false.
Proof.
  intros Hline Hblanks. unfold MonitorV1.is_at_prompt. split.
  - rewrite reverse_app, reverse_cons, <- (assoc_L (++)).
    rewrite v1_skips_blanks by (by apply Forall_reverse).
    simpl. unfold blank in Hline. destruct (truthy (strip line)); [|done].
    apply v1_any_pattern_matches_true.
  - rewrite <- (app_nil_r (reverse blanks)).
    by rewrite v1_skips_blanks by (by apply Forall_reverse).
Qed.

End WithRe.

(** A listing, a shell prompt, and two blank lines under it. *)
Definition prompt_then_blanks : list pystr :=
  [str "ls"] ++ str "user@host:~$ " :: [[]; str "  "].

Lemma prompt_check_reads_last_nonblank_line_witness :
  ¬ blank (str "user@host:~$ ") ∧ Forall blank [[]; str "  "]
  ∧ MonitorV2.is_at_prompt (re_module := Re.mini_re)
      (default_monitor MonitorV2.empty_vault false) prompt_then_blanks
    = true.
Proof.
  assert (¬ blank (str "user@host:~$ ")) as Hline by (by vm_compute).
  assert (Forall blank [[]; str "  "]) as Hblanks
    by (repeat constructor; vm_compute; reflexivity).
  split; [exact Hline |]. split; [exact Hblanks |].
  destruct (prompt_check_reads_last_nonblank_line (re_module := Re.mini_re)
              (default_monitor MonitorV2.empty_vault false)
              [str "ls"] (str "user@host:~$ ") [[]; str "  "] Hline Hblanks)
    as [Hlast _].
  unfold prompt_then_blanks. rewrite Hlast. vm_compute. reflexivity.
Defined.

Lemma v1_prompt_check_reads_last_nonblank_line_witness :
  ¬ blank (str "user@host:~$ ") ∧ Forall blank [[]; str "  "]
  ∧ MonitorV1.is_at_prompt (re_module := Re.mini_re) learner [[]; str "  "]
    = false.
Proof.
  assert (¬ blank (str "user@host:~$ ")) as Hline by (by vm_compute).
  assert (Forall blank [[]; str "  "]) as Hblanks
    by (repeat constructor; vm_compute; reflexivity).
  split; [exact Hline |]. split; [exact Hblanks |].
  destruct (v1_prompt_check_reads_last_nonblank_line (re_module := Re.mini_re)
              learner [str "ls"] (str "user@host:~$ ") [[]; str "  "]
              Hline Hblanks) as [_ Hnone].
  exact Hnone.
Defined.

End PromptProps.

(* ===================================================================== *)
(** ** What a capture pass reads *)
(* ===================================================================== *)

Module CaptureProps.
Import Py MonitorV2 Fixtures NumberingProps.

(** The texts of the entries appended so far, oldest first. *)
Definition contents (m : Monitor) : list pystr := content <$> appended m.

Section WithCollaborators.
Context {re_module : Re.PyRe} {openai_client : OpenAIClient}.

Lemma capture_new_lines_contents base new_lines : ∀ i m m',
  capture_new_lines base i new_lines m = (Ok tt, m') →
  contents m' = contents m ++ new_lines.
Proof.
  induction new_lines as [|line rest IH]; intros i m m'; simpl.
  - intros [= <-]. by rewrite app_nil_r.
  - unfold mbind at 1 2 3 4. unfold M_bind at 1 2 3 4.
    unfold get, modify at 1 2, emit, modify. cbv zeta. simpl.
    set (m1 := set_last_activity_time _ _).
    assert (contents m1 = contents m ++ [line]) as Hm1.
    { unfold contents, appended, m1. simpl. by rewrite omap_app, fmap_app. }
    intros Hrun. unfold mbind, M_bind in Hrun.
    destruct (keeps_detect_interactive_prompt line m1) as (Ha2 & _ & _).
    destruct (detect_interactive_prompt line m1) as [[prompt|e] m2];
      simpl in *; [|done].
    assert (∃ m3, (if prompt is Some _ then handle_interactive_prompt line
                   else mret tt) m2 = (Ok tt, m3)
                  ∧ capture_new_lines base (S i) rest m3 = (Ok tt, m'))
      as (m3 & Hhandle & Hrest).
    { destruct ((if prompt is Some _ then handle_interactive_prompt line
                 else mret tt) m2) as [[[]|e] m3]; [by eexists | done]. }
    assert (appended m3 = appended m2) as Ha3.
    { destruct prompt.
      - destruct (keeps_handle_interactive_prompt line m2) as (Ha & _ & _).
        by rewrite Hhandle in Ha.
      - by injection Hhandle as <-. }
    rewrite (IH _ _ _ Hrest). unfold contents in *.
    by rewrite Ha3, Ha2, Hm1, <- (assoc_L (++)).
Qed.

(** X10: A pass that finds the pane no longer than the snapshot before queues
    nothing and summarizes nothing, whatever the lines now say; it only
    takes the new snapshot. *)
Theorem capture_without_growth now current_content m :
  length current_content ≤ length (last_content m) →
  (capture_tick now current_content m).1 = Ok tt
  ∧ line_queue (capture_tick now current_content m).2 = line_queue m
  ∧ appended (capture_tick now current_content m).2 = appended m
  ∧ summaries (capture_tick now current_content m).2 = summaries m
  ∧ stats (capture_tick now current_content m).2 = stats m
  ∧ last_activity_time (capture_tick now current_content m).2
    = last_activity_time m
  ∧ last_content (capture_tick now current_content m).2 = current_content.
Proof.
  intros Hlen.
  unfold capture_tick, capture_body, try_except, mbind, M_bind, modify, get.
  simpl. rewrite bool_decide_false by lia.
  case_bool_decide; simpl; split_and!; try done.
  unfold appended. simpl. rewrite omap_app. simpl. by rewrite app_nil_r.
Qed.

(** X11: A pass that runs to its end has queued the lines of the pane from the
    length of the snapshot before on, in their order and under their
    positions in the pane; the lines above are not read again. *)
Theorem capture_queues_lines_beyond_snapshot now current_content m :
  (capture_body current_content (set_clock now m)).1 = Ok tt →
  contents (capture_tick now current_content m).2
  = contents m ++ drop (length (last_content m)) current_content
  ∧ numbers (capture_tick now current_content m).2
    = numbers m ++ seq (length (last_content m))
                       (length current_content - length (last_content m))
  ∧ last_content (capture_tick now current_content m).2 = current_content.
Proof.
  intros Hok.
  unfold capture_tick, mbind, M_bind, modify, try_except.
  destruct (capture_body current_content (set_clock now m)) as [[[]|e] m1]
    eqn:Hbody; [|done].
  destruct (capture_body_ok _ _ _ Hbody) as [Hnumbers Hlast].
  split; [|done]. simpl. clear Hnumbers Hlast Hok. revert Hbody.
  unfold capture_body. unfold mbind at 1. unfold M_bind at 1, get at 1.
  cbv zeta. unfold mbind at 1. unfold M_bind at 1.
  case_bool_decide as Hlt.
  - destruct (capture_new_lines _ _ _ (set_clock now m)) as [[[]|e] m2]
      eqn:Hloop; [|done].
    intros [= <-]. by apply capture_new_lines_contents in Hloop.
  - simpl in Hlt. rewrite drop_ge by lia. rewrite app_nil_r.
    case_bool_decide.
    + intros [= <-]. unfold contents, appended. simpl.
      rewrite omap_app. simpl. by rewrite app_nil_r.
    + by intros [= <-].
Qed.

End WithCollaborators.

(** The pane showed two lines; now it shows as many, both changed. *)
Definition two_line_session : Monitor :=
  run (re_module := Re.mini_re) (openai_client := steady_client (str "summary"))
      [Capture 0 [str "a"; str "b"]] (default_monitor empty_vault false).

Definition rewritten_pane : list pystr := [str "c"; str "d"].

Lemma capture_without_growth_witness :
  length rewritten_pane ≤ length (last_content two_line_session)
  ∧ contents (capture_tick (re_module := Re.mini_re)
                (openai_client := steady_client (str "summary"))
                (seconds 1) rewritten_pane two_line_session).2
    = [str "a"; str "b"]
  ∧ line_queue (capture_tick (re_module := Re.mini_re)
                  (openai_client := steady_client (str "summary"))
                  (seconds 1) rewritten_pane two_line_session).2
    = line_queue two_line_session.
Proof.
  assert (length rewritten_pane ≤ length (last_content two_line_session))
    as Hlen by (vm_compute; lia).
  split; [exact Hlen |]. split; [vm_compute; reflexivity |].
  destruct (capture_without_growth (re_module := Re.mini_re)
              (openai_client := steady_client (str "summary"))
              (seconds 1) rewritten_pane two_line_session Hlen)
    as (_ & Hqueue & _).
  exact Hqueue.
Defined.

Lemma capture_queues_lines_beyond_snapshot_witness :
  (capture_body (re_module := Re.mini_re)
     (openai_client := steady_client (str "summary"))
     [str "a"; str "b"; str "c"] (set_clock (seconds 1) two_line_session)).1
  = Ok tt
  ∧ contents (capture_tick (re_module := Re.mini_re)
                (openai_client := steady_client (str "summary"))
                (seconds 1) [str "a"; str "b"; str "c"] two_line_session).2
    = contents two_line_session
      ++ drop (length (last_content two_line_session))
              [str "a"; str "b"; str "c"].
Proof.
  assert ((capture_body (re_module := Re.mini_re)
             (openai_client := steady_client (str "summary"))
             [str "a"; str "b"; str "c"]
             (set_clock (seconds 1) two_line_session)).1 = Ok tt) as Hok
    by (vm_compute; reflexivity).
  split; [exact Hok |].
  destruct (capture_queues_lines_beyond_snapshot (re_module := Re.mini_re)
              (openai_client := steady_client (str "summary"))
              (seconds 1) [str "a"; str "b"; str "c"] two_line_session Hok)
    as [Hcontents _].
  exact Hcontents.
Defined.

End CaptureProps.

(* ===================================================================== *)
(** ** The first monitor over a session *)
(* ===================================================================== *)

Module SessionProps.
Import Py MonitorV1 MonitorV1Session Fixtures LearningProps.

(** The patterns are in order: no pattern twice, the base patterns first,
    and every learned pattern among them, compiling and not a base
    pattern. *)
Definition in_order `{Re.PyRe} (m : Monitor) : Prop :=
  NoDup (prompt_patterns m)
  ∧ base_prompt_patterns `prefix_of` prompt_patterns m
  ∧ ∀ pattern, pattern ∈ learned_prompts m →
               pattern ∈ prompt_patterns m
               ∧ (pattern ∉ base_prompt_patterns)
               ∧ Re.re_compile pattern = true.

Section WithRe.
Context {re_module : Re.PyRe}.

Lemma in_order_add pattern learned m :
  in_order m → in_order (add_prompt_pattern pattern learned m).2.
Proof.
  intros (Hnodup & Hbase & Hlearned). unfold add_prompt_pattern.
  destruct (Re.re_compile pattern) eqn:Hcompiles; [|done].
  case_bool_decide as Hnew; [|done]. simpl. split_and!.
  - apply NoDup_app. split_and!; [done | | apply NoDup_singleton].
    intros x Hx ->%list_elem_of_singleton. done.
  - by apply prefix_app_r.
  - intros p Hp.
    assert (p = pattern ∧ learned = true ∨ p ∈ learned_prompts m) as [[-> _]|Hold].
    { destruct learned; [|by right].
      apply elem_of_union in Hp as [->%elem_of_singleton|Hp]; [by left | by right]. }
    + split_and!; [apply elem_of_app; right; by left | | done].
      intros Hin. apply Hnew. destruct Hbase as [rest ->].
      apply elem_of_app. by left.
    + destruct (Hlearned p Hold) as (Hin & Hnot & Hc).
      split_and!; [apply elem_of_app; by left | done | done].
Qed.

Lemma in_order_learning_pass lines m :
  in_order m → in_order (learning_pass lines m).
Proof.
  intros Hm. unfold learning_pass.
  destruct (is_at_prompt m lines); [done |].
  destruct (prompt_learning_enabled m); [|done].
  destruct (analyze_for_prompt_pattern m lines) as [[|c pattern]|]; try done.
  by apply in_order_add.
Qed.

Lemma NoDup_base_prompt_patterns : NoDup base_prompt_patterns.
Proof. apply (bool_decide_unpack _). vm_compute. exact I. Qed.

Lemma in_order_fold {A} (f : Monitor → A → Monitor) (l : list A) : ∀ m,
  (∀ m a, in_order m → in_order (f m a)) →
  in_order m → in_order (fold_left f l m).
Proof.
  induction l as [|a l IH]; intros m Hf Hm; [done |].
  simpl. apply IH; [done | by apply Hf].
Qed.

Lemma in_order_init learning learned_file : in_order (init learning learned_file).
Proof.
  unfold init, load_learned_prompts.
  assert (in_order {| prompt_patterns := base_prompt_patterns;
                      learned_prompts := ∅;
                      prompt_learning_enabled := learning |}) as Hfresh.
  { split_and!; [apply NoDup_base_prompt_patterns | done |].
    intros p Hp. by apply not_elem_of_empty in Hp. }
  destruct learned_file as [learned|]; [|done].
  apply in_order_fold; [|done]. intros m p. apply in_order_add.
Qed.

Lemma in_order_session learning learned_file added snapshots :
  in_order (learn snapshots (add_prompts added (init learning learned_file))).
Proof.
  apply in_order_fold; [intros m lines; apply in_order_learning_pass |].
  apply in_order_fold; [intros m p; apply in_order_add |].
  apply in_order_init.
Qed.

Lemma add_prompt_pattern_cases pattern learned m :
  (Re.re_compile pattern = false
   ∧ add_prompt_pattern pattern learned m = (Some false, m))
  ∨ (Re.re_compile pattern = true ∧ pattern ∈ prompt_patterns m
     ∧ add_prompt_pattern pattern learned m = (None, m))
  ∨ (Re.re_compile pattern = true ∧ (pattern ∉ prompt_patterns m)
     ∧ add_prompt_pattern pattern learned m
       = (Some true,
          {| prompt_patterns := prompt_patterns m ++ [pattern];
             learned_prompts := if learned then {[pattern]} ∪ learned_prompts m
                                else learned_prompts m;
             prompt_learning_enabled := prompt_learning_enabled m |})).
Proof.
  unfold add_prompt_pattern.
  destruct (Re.re_compile pattern); [|by left]. right.
  case_bool_decide as Hnew; [by right |]. left.
  split_and!; [done | | done].
  by destruct (decide (pattern ∈ prompt_patterns m)).
Qed.

(** X19: Adding a pattern a second time changes nothing and does not report
    success, marked as learned or not; and adding never makes a pattern
    occur twice. *)
Theorem add_prompt_pattern_twice pattern learned learned' m :
  (add_prompt_pattern pattern learned'
     (add_prompt_pattern pattern learned m).2).2
  = (add_prompt_pattern pattern learned m).2
  ∧ (add_prompt_pattern pattern learned'
       (add_prompt_pattern pattern learned m).2).1 ≠ Some true
  ∧ (NoDup (prompt_patterns m) →
     NoDup (prompt_patterns (add_prompt_pattern pattern learned m).2)).
Proof.
  destruct (add_prompt_pattern_cases pattern learned m)
    as [[Hc ->]|[(Hc & Hin & ->)|(Hc & Hnew & ->)]]; simpl.
  - destruct (add_prompt_pattern_cases pattern learned' m)
      as [[_ ->]|[(? & _)|(? & _)]]; [done | congruence | congruence].
  - destruct (add_prompt_pattern_cases pattern learned' m)
      as [[? _]|[(_ & _ & ->)|(_ & ? & _)]]; [congruence | done | done].
  - set (m1 := {| prompt_patterns := prompt_patterns m ++ [pattern];
                  learned_prompts := _; prompt_learning_enabled := _ |}).
    destruct (add_prompt_pattern_cases pattern learned' m1)
      as [[? _]|[(_ & _ & ->)|(_ & Hnot & _)]]; [congruence | |].
    + split_and!; [done | done |]. intros Hnodup. simpl.
      apply NoDup_app. split_and!; [done | | apply NoDup_singleton].
      intros x Hx ->%list_elem_of_singleton. done.
    + destruct Hnot. simpl. apply elem_of_app. right. by left.
Qed.

(** X20: A pass of the loop either leaves the patterns alone or learns one
    pattern: away from a prompt, with learning on, what the analysis
    returned, which is not empty, was not known, and compiles; it goes to
    the end of the patterns and into the learned set. *)
Theorem learning_pass_learns_one_new_pattern lines m :
  learning_pass lines m = m
  ∨ ∃ pattern,
      is_at_prompt m lines = false
      ∧ analyze_for_prompt_pattern m lines = Some pattern
      ∧ pattern ≠ []
      ∧ (pattern ∉ prompt_patterns m) ∧ (pattern ∉ learned_prompts m)
      ∧ Re.re_compile pattern = true
      ∧ learning_pass lines m
        = {| prompt_patterns := prompt_patterns m ++ [pattern];
             learned_prompts := {[pattern]} ∪ learned_prompts m;
             prompt_learning_enabled := true |}.
Proof.
  unfold learning_pass.
  destruct (is_at_prompt m lines); [by left |].
  destruct (prompt_learning_enabled m) eqn:Hon; [|by left].
  destruct (analyze_for_prompt_pattern m lines) as [[|c pattern]|] eqn:Hanalyze;
    [by left | | by left].
  destruct (analyze_sound _ _ _ Hanalyze) as (ending & _ & _ & Hnew & Hnew' & Hc).
  right. exists (c :: pattern). split_and!; try done.
  unfold add_prompt_pattern. rewrite Hc, bool_decide_true by done.
  simpl. by rewrite Hon.
Qed.

Lemma first_new_pattern_none m items :
  (∀ ending count, (ending, count) ∈ items → count < 3) →
  first_new_pattern m items = None.
Proof.
  induction items as [|[ending count] rest IH]; intros Hitems; [done |].
  simpl. rewrite bool_decide_false.
  - apply IH. intros e c Hin. apply (Hitems e c). by right.
  - pose proof (Hitems ending count ltac:(by left)). lia.
Qed.

(** X21: When no ending is counted three times among the recent lines, the
    analysis returns nothing and the pass leaves the monitor as it was. *)
Theorem nothing_learned_below_three m lines :
  (∀ ending, occurrences ending lines < 3) →
  analyze_for_prompt_pattern m lines = None ∧ learning_pass lines m = m.
Proof.
  intros Hfew.
  assert (analyze_for_prompt_pattern m lines = None) as Hnone.
  { unfold analyze_for_prompt_pattern.
    destruct (prompt_learning_enabled m); simpl; [|done].
    rewrite collect_recent_recent_lines.
    apply first_new_pattern_none. intros ending count Hin.
    rewrite sorted_desc_perm in Hin.
    apply count_endings_elem_of in Hin as [-> _]. apply Hfew. }
  split; [done |]. unfold learning_pass. rewrite Hnone.
  destruct (is_at_prompt m lines); [done |].
  by destruct (prompt_learning_enabled m).
Qed.

(** X22: Through a whole session (the learned file read at the start, patterns
    added by hand, any passes of the loop) no pattern occurs twice, the
    base patterns stay in front, and every learned pattern is among the
    prompt patterns, compiles, and is not a base pattern. *)
Theorem learned_patterns_stay_active learning learned_file added snapshots :
  NoDup (prompt_patterns
           (learn snapshots (add_prompts added (init learning learned_file))))
  ∧ base_prompt_patterns
    `prefix_of` prompt_patterns
                  (learn snapshots (add_prompts added (init learning learned_file)))
  ∧ ∀ pattern,
      pattern ∈ learned_prompts
                  (learn snapshots (add_prompts added (init learning learned_file))) →
      pattern ∈ prompt_patterns
                  (learn snapshots (add_prompts added (init learning learned_file)))
      ∧ (pattern ∉ base_prompt_patterns)
      ∧ Re.re_compile pattern = true.
Proof. apply in_order_session. Qed.

Lemma load_new_patterns learned : ∀ m,
  NoDup learned →
  (∀ pattern, pattern ∈ learned →
              Re.re_compile pattern = true ∧ pattern ∉ prompt_patterns m) →
  prompt_patterns (load_learned_prompts (Some learned) m)
  = prompt_patterns m ++ learned
  ∧ learned_prompts (load_learned_prompts (Some learned) m)
    = list_to_set learned ∪ learned_prompts m.
Proof.
  induction learned as [|p rest IH]; intros m Hnodup Hnew.
  - simpl. by rewrite app_nil_r, (left_id_L ∅ (∪)).
  - apply NoDup_cons in Hnodup as [Hp Hrest].
    assert (Re.re_compile p = true ∧ p ∉ prompt_patterns m) as [Hc Hfresh]
      by (apply Hnew; by left).
    change (load_learned_prompts (Some (p :: rest)) m)
      with (load_learned_prompts (Some rest) (add_prompt_pattern p true m).2).
    destruct (add_prompt_pattern_cases p true m)
      as [[? _]|[(_ & ? & _)|(_ & _ & ->)]]; [congruence | done |].
    destruct (IH {| prompt_patterns := prompt_patterns m ++ [p];
                    learned_prompts := {[p]} ∪ learned_prompts m;
                    prompt_learning_enabled := prompt_learning_enabled m |}
                Hrest) as [Hpatterns Hset].
    { intros q Hq.
      assert (Re.re_compile q = true ∧ q ∉ prompt_patterns m) as [Hqc Hqfresh]
        by (apply Hnew; by right).
      split; [done |]. simpl. intros Hin.
      apply elem_of_app in Hin as [Hin|Hin]; [done |].
      apply list_elem_of_singleton in Hin. by subst. }
    cbn [snd]. rewrite Hpatterns, Hset. simpl.
    rewrite <- (assoc_L (++)), (assoc_L (∪)), (comm_L (∪) _ {[p]}).
    done.
Qed.

(** X23: What a session has learned comes back at the next start: whatever the
    order in which the learned set was written to its file, the next
    monitor starts with the same learned set, and holds the learned
    patterns after the base patterns, in the order of the file.  (Patterns
    added by hand are not in the file.) *)
Theorem learned_prompts_survive_restart
    learning learned_file added snapshots listing learning' :
  listing ≡ₚ elements (learned_prompts
                         (learn snapshots
                            (add_prompts added (init learning learned_file)))) →
  learned_prompts (init learning' (Some listing))
  = learned_prompts
      (learn snapshots (add_prompts added (init learning learned_file)))
  ∧ prompt_patterns (init learning' (Some listing))
    = base_prompt_patterns ++ listing.
Proof.
  intros Hlisting.
  destruct (in_order_session learning learned_file added snapshots)
    as (_ & _ & Hlearned).
  set (m := learn snapshots (add_prompts added (init learning learned_file)))
    in *.
  unfold init.
  destruct (load_new_patterns listing
              {| prompt_patterns := base_prompt_patterns;
                 learned_prompts := ∅;
                 prompt_learning_enabled := learning' |})
    as [Hpatterns Hset].
  - rewrite Hlisting. apply NoDup_elements.
  - intros p Hp. rewrite Hlisting in Hp. apply elem_of_elements in Hp.
    destruct (Hlearned p Hp) as (_ & Hnot & Hc). done.
  - split; [|done]. rewrite Hset. simpl.
    rewrite (right_id_L ∅ (∪)).
    apply set_eq. intros p.
    by rewrite elem_of_list_to_set, Hlisting, elem_of_elements.
Qed.

End WithRe.

(** X24: After a call on a pane that is not empty, the next call returns the
    lines that came after, joined and stripped, and nothing when the pane
    has not grown, whatever it shows then. *)
Theorem activity_since_last_interaction max_history_lines lines more last :
  lines ≠ [] →
  (get_activity_since_last_interaction max_history_lines lines last).2
  = length lines
  ∧ get_activity_since_last_interaction max_history_lines (lines ++ more)
      (length lines)
    = (strip (join nl more), length (lines ++ more))
  ∧ ∀ other,
      length other ≤ length lines →
      get_activity_since_last_interaction max_history_lines other (length lines)
      = ([], length other).
Proof.
  intros Hlines.
  assert (length lines ≠ 0) as Hlen by (by destruct lines).
  unfold get_activity_since_last_interaction. cbv zeta.
  rewrite (bool_decide_false (length lines = 0)) by done. split_and!.
  - done.
  - by rewrite drop_app_length.
  - intros other Hother. by rewrite drop_ge.
Qed.

Lemma nothing_learned_below_three_witness :
  (∀ ending, occurrences ending (take 4 percent_prompt_lines) < 3)
  ∧ learning_pass (re_module := Re.mini_re) (take 4 percent_prompt_lines) learner
    = learner.
Proof.
  assert (∀ ending, occurrences ending (take 4 percent_prompt_lines) < 3)
    as Hfew.
  { intros ending. unfold occurrences.
    eapply Nat.le_lt_trans; [apply length_filter |].
    vm_compute. lia. }
  split; [exact Hfew |].
  destruct (nothing_learned_below_three (re_module := Re.mini_re)
              learner (take 4 percent_prompt_lines) Hfew) as [_ Hsame].
  exact Hsame.
Defined.

Lemma learned_prompts_survive_restart_witness :
  learned_prompts
    (learn (re_module := Re.mini_re) [percent_prompt_lines]
       (add_prompts (re_module := Re.mini_re) [str "ftp> $"]
          (init (re_module := Re.mini_re) true None)))
  = {[str "\[a@b\ \~\]%\s*$"]}
  ∧ prompt_patterns
      (init (re_module := Re.mini_re) true (Some [str "\[a@b\ \~\]%\s*$"]))
    = base_prompt_patterns ++ [str "\[a@b\ \~\]%\s*$"].
Proof.
  assert (learned_prompts
            (learn (re_module := Re.mini_re) [percent_prompt_lines]
               (add_prompts (re_module := Re.mini_re) [str "ftp> $"]
                  (init (re_module := Re.mini_re) true None)))
          = {[str "\[a@b\ \~\]%\s*$"]}) as Hlearned
    by (vm_compute; reflexivity).
  split; [exact Hlearned |].
  assert ([str "\[a@b\ \~\]%\s*$"]
          ≡ₚ elements
               (learned_prompts
                  (learn (re_module := Re.mini_re) [percent_prompt_lines]
                     (add_prompts (re_module := Re.mini_re) [str "ftp> $"]
                        (init (re_module := Re.mini_re) true None)))))
    as Hlisting by (by rewrite Hlearned, elements_singleton).
  destruct (learned_prompts_survive_restart (re_module := Re.mini_re)
              true None [str "ftp> $"] [percent_prompt_lines]
              [str "\[a@b\ \~\]%\s*$"] true Hlisting) as [_ Hpatterns].
  exact Hpatterns.
Defined.

Lemma activity_since_last_interaction_witness :
  [str "ls"] ≠ []
  ∧ get_activity_since_last_interaction 1000
      ([str "ls"] ++ [str "a.txt "; str ""]) (length [str "ls"])
    = (strip (join nl [str "a.txt "; str ""]),
       length ([str "ls"] ++ [str "a.txt "; str ""])).
Proof.
  assert ([str "ls"] ≠ []) as Hlines by done.
  split; [exact Hlines |].
  destruct (activity_since_last_interaction 1000 [str "ls"]
              [str "a.txt "; str ""] 0 Hlines) as (_ & Hnext & _).
  exact Hnext.
Defined.

End SessionProps.
